(** * BVH utilities of the mesh kernel (bvhutils.cc)

    A shallow embedding of [source/blender/blenkernel/intern/bvhutils.cc]:
    the per-leaf nearest-point and ray-cast callbacks, the tree builders,
    the active-subset masks and the per-mesh BVH cache, followed by the
    properties proved about them. *)

From Stdlib Require Import ZArith Lia Bool List.
From Stdlib Require Import Floats.
From stdpp Require Import base tactics option list numbers.

Local Open Scope Z_scope.

(** ** Outcomes

    The C++ code has no error channel.  What it does have are [BLI_assert]s
    (fatal in a debug build) and reads through spans and pointers that are
    undefined when out of range or null.  Both are made explicit here.  An
    [int] is a [Z]: the sizes of the spans are taken to fit into an [int],
    as the code takes them to. *)

Inductive error : Set :=
| AssertionFailed   (* a BLI_assert does not hold *)
| OutOfBounds       (* a span is indexed outside of its range *)
| NullPointer       (* a null pointer is dereferenced *)
| OutOfFuel.        (* a loop of the model exhausted its fuel *)

Inductive result (A : Type) : Type :=
| Ok (a : A)
| Abort (e : error).
Arguments Ok {A} a.
Arguments Abort {A} e.

#[global] Instance result_ret : MRet result := fun _ a => Ok a.
#[global] Instance result_bind : MBind result := fun _ _ f m =>
  match m with
  | Ok a => f a
  | Abort e => Abort e
  end.
#[global] Instance result_fmap : FMap result := fun _ _ f m =>
  match m with
  | Ok a => Ok (f a)
  | Abort e => Abort e
  end.

Definition BLI_assert (b : bool) : result unit :=
  if b then Ok tt else Abort AssertionFailed.

(** [s[i]] on a [Span]: defined for [0 <= i < s.size()] only. *)
Definition span_get {A : Type} (s : list A) (i : Z) : result A :=
  if 0 <=? i then
    match s !! Z.to_nat i with
    | Some a => Ok a
    | None => Abort OutOfBounds
    end
  else Abort OutOfBounds.

Definition span_size {A : Type} (s : list A) : Z := Z.of_nat (length s).

(** [s.index_range()]: the indices [0, 1, ..., s.size() - 1]. *)
Definition index_range {A : Type} (s : list A) : list Z :=
  Z.of_nat <$> seq 0 (length s).

(** ** Scalars, vectors and the math library

    [float3] is three scalars.  The scalar type and the routines of
    BLI_math_vector / BLI_math_geom are not part of this file's source; the
    callbacks are written against their interface. Out-parameters of the C
    routines are returned as values. *)

Definition float3 (F : Type) : Type := (F * F * F)%type.

Module BVHTreeRay.
Record t (F : Type) : Type := Build {
  origin : float3 F;
  direction : float3 F;
  radius : F;
}.
Arguments Build {F}.
Arguments origin {F}.
Arguments direction {F}.
Arguments radius {F}.
End BVHTreeRay.

Class BLI_math (F : Type) : Type := {
  (* scalar constants and comparisons: 0.0f, 1.0f, FLT_MAX, <, <=, ==, * *)
  f_zero : F;
  f_one : F;
  FLT_MAX : F;
  f_lt : F -> F -> bool;
  f_le : F -> F -> bool;
  f_eq : F -> F -> bool;
  f_mul : F -> F -> F;
  square_f : F -> F;
  (* BLI_math_vector *)
  add_v3_v3v3 : float3 F -> float3 F -> float3 F;
  sub_v3_v3v3 : float3 F -> float3 F -> float3 F;
  madd_v3_v3v3fl : float3 F -> float3 F -> F -> float3 F;
  normalize_v3 : float3 F -> float3 F;
  len_v3v3 : float3 F -> float3 F -> F;
  len_squared_v3v3 : float3 F -> float3 F -> F;
  dot_v3v3v3 : float3 F -> float3 F -> float3 F -> F;
  equals_v3v3 : float3 F -> float3 F -> bool;
  (* BLI_math_geom *)
  normal_tri_v3 : float3 F -> float3 F -> float3 F -> float3 F;
  closest_on_tri_to_point_v3 :
    float3 F -> float3 F -> float3 F -> float3 F -> float3 F;
  closest_to_line_segment_v3 : float3 F -> float3 F -> float3 F -> float3 F;
  line_point_factor_v3 : float3 F -> float3 F -> float3 F -> F;
  (* returns the int result together with r_i1 and r_i2 *)
  isect_line_line_v3 :
    float3 F -> float3 F -> float3 F -> float3 F -> Z * float3 F * float3 F;
  (* isect_ray_tri_watertight_v3 or isect_ray_tri_epsilon_v3 (with
     FLT_EPSILON), whichever USE_KDOPBVH_WATERTIGHT selects: the distance
     written to r_lambda when the routine returns true *)
  isect_ray_tri_v3 :
    BVHTreeRay.t F -> float3 F -> float3 F -> float3 F -> option F;
  (* r_lambda and ipoint when the routine returns true *)
  isect_sweeping_sphere_tri_v3 :
    float3 F -> float3 F -> F -> float3 F -> float3 F -> float3 F ->
    option (F * float3 F);
}.

(** ** Query records *)

Module BVHTreeNearest.
Record t (F : Type) : Type := Build {
  index : Z;
  co : float3 F;
  no : float3 F;
  dist_sq : F;
}.
Arguments Build {F}.
Arguments index {F}.
Arguments co {F}.
Arguments no {F}.
Arguments dist_sq {F}.
End BVHTreeNearest.

Module BVHTreeRayHit.
Record t (F : Type) : Type := Build {
  index : Z;
  co : float3 F;
  no : float3 F;
  dist : F;
}.
Arguments Build {F}.
Arguments index {F}.
Arguments co {F}.
Arguments no {F}.
Arguments dist {F}.
End BVHTreeRayHit.

(** Legacy tessellated face: four vertex indices, [v4 = 0] marks a
    triangle. *)
Module MFace.
Record t : Set := Build { v1 : Z; v2 : Z; v3 : Z; v4 : Z }.
End MFace.

Inductive BVHCacheType : Set :=
| BVHTREE_FROM_VERTS
| BVHTREE_FROM_EDGES
| BVHTREE_FROM_FACES
| BVHTREE_FROM_CORNER_TRIS
| BVHTREE_FROM_CORNER_TRIS_NO_HIDDEN
| BVHTREE_FROM_LOOSEVERTS
| BVHTREE_FROM_LOOSEEDGES
| BVHTREE_FROM_LOOSEVERTS_NO_HIDDEN
| BVHTREE_FROM_LOOSEEDGES_NO_HIDDEN
| BVHTREE_MAX_ITEM.

#[global] Instance BVHCacheType_eq_dec : EqDecision BVHCacheType.
Proof. solve_decision. Defined.

(** The callback fields are function pointers; a pointer is modelled by the
    name of the function it points to. *)
Inductive BVHTree_NearestPointCallback : Set :=
| cb_mesh_edges_nearest_point
| cb_mesh_faces_nearest_point
| cb_mesh_corner_tris_nearest_point.

Inductive BVHTree_RayCastCallback : Set :=
| cb_mesh_verts_spherecast
| cb_mesh_edges_spherecast
| cb_mesh_faces_spherecast
| cb_mesh_corner_tris_spherecast.

(** A tree handle ([BVHTree *]): an address in the store of trees. *)
Definition BVHTreePtr : Set := nat.

Module BVHTreeFromMesh.
Record t (F : Type) : Type := Build {
  tree : option BVHTreePtr;
  nearest_callback : option BVHTree_NearestPointCallback;
  raycast_callback : option BVHTree_RayCastCallback;
  vert_positions : list (float3 F);
  edges : list (Z * Z);
  face : option (list MFace.t);
  corner_verts : list Z;
  corner_tris : list (Z * Z * Z);
  owned_tree : option BVHTreePtr;
}.
Arguments Build {F}.
Arguments tree {F}.
Arguments nearest_callback {F}.
Arguments raycast_callback {F}.
Arguments vert_positions {F}.
Arguments edges {F}.
Arguments face {F}.
Arguments corner_verts {F}.
Arguments corner_tris {F}.
Arguments owned_tree {F}.
End BVHTreeFromMesh.

(** ** Local callbacks *)

Section Callbacks.
Context {F : Type} `{!BLI_math F}.

Definition bvhtree_ray_tri_intersection (ray : BVHTreeRay.t F) (m_dist : F)
    (v0 v1 v2 : float3 F) : F :=
  match isect_ray_tri_v3 ray v0 v1 v2 with
  | Some dist => dist
  | None => FLT_MAX
  end.

Definition bvhtree_sphereray_tri_intersection (ray : BVHTreeRay.t F)
    (radius m_dist : F) (v0 v1 v2 : float3 F) : F :=
  let p1 :=
    madd_v3_v3v3fl (BVHTreeRay.origin ray) (BVHTreeRay.direction ray) m_dist in
  match isect_sweeping_sphere_tri_v3 (BVHTreeRay.origin ray) p1 radius v0 v1 v2 with
  | Some (idist, hit_point) => f_mul idist m_dist
  | None => FLT_MAX
  end.

(** The test of one triangle against the running nearest result: the body
    of the loop of [mesh_faces_nearest_point], and of
    [mesh_corner_tris_nearest_point] (its copy). *)
Definition tri_nearest_point (index : Z) (co t0 t1 t2 : float3 F)
    (nearest : BVHTreeNearest.t F) : BVHTreeNearest.t F :=
  let nearest_tmp := closest_on_tri_to_point_v3 co t0 t1 t2 in
  let dist_sq := len_squared_v3v3 co nearest_tmp in
  if f_lt dist_sq (BVHTreeNearest.dist_sq nearest) then
    {| BVHTreeNearest.index := index;
       BVHTreeNearest.dist_sq := dist_sq;
       BVHTreeNearest.co := nearest_tmp;
       BVHTreeNearest.no := normal_tri_v3 t0 t1 t2 |}
  else nearest.

(** The test of one triangle against the running hit: the body of the loop
    of [mesh_faces_spherecast], and of [mesh_corner_tris_spherecast].
    [dist >= 0] is read as [0 <= dist]. *)
Definition tri_spherecast (index : Z) (ray : BVHTreeRay.t F)
    (t0 t1 t2 : float3 F) (hit : BVHTreeRayHit.t F) : BVHTreeRayHit.t F :=
  let dist :=
    if f_eq (BVHTreeRay.radius ray) f_zero then
      bvhtree_ray_tri_intersection ray (BVHTreeRayHit.dist hit) t0 t1 t2
    else
      bvhtree_sphereray_tri_intersection
        ray (BVHTreeRay.radius ray) (BVHTreeRayHit.dist hit) t0 t1 t2 in
  if f_le f_zero dist && f_lt dist (BVHTreeRayHit.dist hit) then
    {| BVHTreeRayHit.index := index;
       BVHTreeRayHit.dist := dist;
       BVHTreeRayHit.co :=
         madd_v3_v3v3fl (BVHTreeRay.origin ray) (BVHTreeRay.direction ray) dist;
       BVHTreeRayHit.no := normal_tri_v3 t0 t1 t2 |}
  else hit.

(** The loop of the two legacy-face callbacks,

      do { body(t0, t1, t2); t1 = t2; t2 = t3; t3 = nullptr; } while (t2);

    over the pointers [t0 .. t3] into the position array.  A pointer is
    modelled by the position it points to, a nullable one by an option. *)
Fixpoint mesh_faces_do_while {St : Type}
    (body : float3 F -> float3 F -> float3 F -> St -> St) (fuel : nat)
    (t0 t1 : float3 F) (t2 t3 : option (float3 F)) (s : St) : result St :=
  match fuel with
  | O => Abort OutOfFuel
  | S fuel' =>
    match t2 with
    | None => Abort NullPointer
    | Some t2v =>
      let s := body t0 t1 t2v s in
      let t1 := t2v in
      let t2 := t3 in
      let t3 := None in
      match t2 with
      | Some _ => mesh_faces_do_while body fuel' t0 t1 t2 t3 s
      | None => Ok s
      end
    end
  end.

(** The loop shifts the vertex pointers of one face; one round for each of
    the four is more than it can use. *)
Definition mesh_faces_fuel : nat := 4%nat.

(** What [mesh_faces_nearest_point] and [mesh_faces_spherecast] have in
    common: the face is looked up, [t0 .. t3] are set from [v1 .. v4], where
    [t3] is null when [v4] is 0, and the loop runs [body] on the
    triangles. *)
Definition mesh_faces_foreach_tri {St : Type}
    (body : float3 F -> float3 F -> float3 F -> St -> St)
    (data : BVHTreeFromMesh.t F) (index : Z) (s : St) : result St :=
  faces ← match BVHTreeFromMesh.face data with
          | Some faces => Ok faces
          | None => Abort NullPointer
          end;
  face ← span_get faces index;
  t0 ← span_get (BVHTreeFromMesh.vert_positions data) (MFace.v1 face);
  t1 ← span_get (BVHTreeFromMesh.vert_positions data) (MFace.v2 face);
  t2 ← span_get (BVHTreeFromMesh.vert_positions data) (MFace.v3 face);
  t3 ← (if MFace.v4 face =? 0 then Ok None
        else Some <$> span_get (BVHTreeFromMesh.vert_positions data) (MFace.v4 face));
  mesh_faces_do_while body mesh_faces_fuel t0 t1 (Some t2) t3 s.

Definition mesh_faces_nearest_point (data : BVHTreeFromMesh.t F) (index : Z)
    (co : float3 F) (nearest : BVHTreeNearest.t F) : result (BVHTreeNearest.t F) :=
  mesh_faces_foreach_tri (tri_nearest_point index co) data index nearest.

Definition mesh_faces_spherecast (data : BVHTreeFromMesh.t F) (index : Z)
    (ray : BVHTreeRay.t F) (hit : BVHTreeRayHit.t F) : result (BVHTreeRayHit.t F) :=
  mesh_faces_foreach_tri (tri_spherecast index ray) data index hit.

(** The triangles the loop of the legacy-face callbacks visits, in order. *)
Definition mesh_faces_tris (data : BVHTreeFromMesh.t F) (index : Z)
    : result (list (float3 F * float3 F * float3 F)) :=
  mesh_faces_foreach_tri (fun t0 t1 t2 acc => acc ++ [(t0, t1, t2)]) data index [].

(** [vtri_co] of the two corner-triangle callbacks. *)
Definition corner_tri_co (data : BVHTreeFromMesh.t F) (index : Z)
    : result (float3 F * float3 F * float3 F) :=
  tri ← span_get (BVHTreeFromMesh.corner_tris data) index;
  let '(c0, c1, c2) := tri in
  vert0 ← span_get (BVHTreeFromMesh.corner_verts data) c0;
  p0 ← span_get (BVHTreeFromMesh.vert_positions data) vert0;
  vert1 ← span_get (BVHTreeFromMesh.corner_verts data) c1;
  p1 ← span_get (BVHTreeFromMesh.vert_positions data) vert1;
  vert2 ← span_get (BVHTreeFromMesh.corner_verts data) c2;
  p2 ← span_get (BVHTreeFromMesh.vert_positions data) vert2;
  Ok (p0, p1, p2).

Definition mesh_corner_tris_nearest_point (data : BVHTreeFromMesh.t F)
    (index : Z) (co : float3 F) (nearest : BVHTreeNearest.t F)
    : result (BVHTreeNearest.t F) :=
  vtri_co ← corner_tri_co data index;
  let '(p0, p1, p2) := vtri_co in
  let nearest_tmp := closest_on_tri_to_point_v3 co p0 p1 p2 in
  let dist_sq := len_squared_v3v3 co nearest_tmp in
  if f_lt dist_sq (BVHTreeNearest.dist_sq nearest) then
    Ok {| BVHTreeNearest.index := index;
          BVHTreeNearest.dist_sq := dist_sq;
          BVHTreeNearest.co := nearest_tmp;
          BVHTreeNearest.no := normal_tri_v3 p0 p1 p2 |}
  else Ok nearest.

Definition mesh_corner_tris_spherecast (data : BVHTreeFromMesh.t F)
    (index : Z) (ray : BVHTreeRay.t F) (hit : BVHTreeRayHit.t F)
    : result (BVHTreeRayHit.t F) :=
  vtri_co ← corner_tri_co data index;
  let '(p0, p1, p2) := vtri_co in
  Ok (tri_spherecast index ray p0 p1 p2 hit).

Definition mesh_edges_nearest_point (data : BVHTreeFromMesh.t F) (index : Z)
    (co : float3 F) (nearest : BVHTreeNearest.t F) : result (BVHTreeNearest.t F) :=
  let positions := BVHTreeFromMesh.vert_positions data in
  edge ← span_get (BVHTreeFromMesh.edges data) index;
  t0 ← span_get positions (fst edge);
  t1 ← span_get positions (snd edge);
  let nearest_tmp := closest_to_line_segment_v3 co t0 t1 in
  let dist_sq := len_squared_v3v3 nearest_tmp co in
  if f_lt dist_sq (BVHTreeNearest.dist_sq nearest) then
    Ok {| BVHTreeNearest.index := index;
          BVHTreeNearest.dist_sq := dist_sq;
          BVHTreeNearest.co := nearest_tmp;
          BVHTreeNearest.no := normalize_v3 (sub_v3_v3v3 t0 t1) |}
  else Ok nearest.

(** Helper, does all the point-sphere-cast work actually. *)
Definition mesh_verts_spherecast_do (index : Z) (v : float3 F)
    (ray : BVHTreeRay.t F) (hit : BVHTreeRayHit.t F) : BVHTreeRayHit.t F :=
  let r1 := BVHTreeRay.origin ray in
  let r2 := add_v3_v3v3 r1 (BVHTreeRay.direction ray) in
  let i1 := closest_to_line_segment_v3 v r1 r2 in
  (* No hit if closest point is 'behind' the origin of the ray, or too far
     away from it. *)
  if f_le f_zero (dot_v3v3v3 r1 i1 r2)
     && f_lt (len_v3v3 r1 i1) (BVHTreeRayHit.dist hit) then
    {| BVHTreeRayHit.index := index;
       BVHTreeRayHit.dist := len_v3v3 r1 i1;
       BVHTreeRayHit.co := i1;
       BVHTreeRayHit.no := BVHTreeRayHit.no hit |}
  else hit.

Definition mesh_verts_spherecast (data : BVHTreeFromMesh.t F) (index : Z)
    (ray : BVHTreeRay.t F) (hit : BVHTreeRayHit.t F) : result (BVHTreeRayHit.t F) :=
  v ← span_get (BVHTreeFromMesh.vert_positions data) index;
  Ok (mesh_verts_spherecast_do index v ray hit).

Definition mesh_edges_spherecast (data : BVHTreeFromMesh.t F) (index : Z)
    (ray : BVHTreeRay.t F) (hit : BVHTreeRayHit.t F) : result (BVHTreeRayHit.t F) :=
  let positions := BVHTreeFromMesh.vert_positions data in
  edge ← span_get (BVHTreeFromMesh.edges data) index;
  let radius_sq := square_f (BVHTreeRay.radius ray) in
  v1 ← span_get positions (fst edge);
  v2 ← span_get positions (snd edge);
  (* In case we get a zero-length edge, handle it as a point! *)
  if equals_v3v3 v1 v2 then Ok (mesh_verts_spherecast_do index v1 ray hit)
  else
    let r1 := BVHTreeRay.origin ray in
    let r2 := add_v3_v3v3 r1 (BVHTreeRay.direction ray) in
    let '(isect, i1, i2) := isect_line_line_v3 v1 v2 r1 r2 in
    if negb (isect =? 0) then
      (* No hit if intersection point is 'behind' the origin of the ray, or
         too far away from it. *)
      if f_le f_zero (dot_v3v3v3 r1 i2 r2)
         && f_lt (len_v3v3 r1 i2) (BVHTreeRayHit.dist hit) then
        let dist := len_v3v3 r1 i2 in
        let e_fac := line_point_factor_v3 i1 v1 v2 in
        let i1 :=
          if f_lt e_fac f_zero then v1
          else if f_lt f_one e_fac then v2
          else i1 in
        (* Ensure ray is really close enough from edge! *)
        if f_le (len_squared_v3v3 i1 i2) radius_sq then
          Ok {| BVHTreeRayHit.index := index;
                BVHTreeRayHit.dist := dist;
                BVHTreeRayHit.co := i2;
                BVHTreeRayHit.no := BVHTreeRayHit.no hit |}
        else Ok hit
      else Ok hit
    else Ok hit.

(** Calling through the callback fields of a bundle. *)
Definition call_nearest_callback (cb : BVHTree_NearestPointCallback)
    : BVHTreeFromMesh.t F -> Z -> float3 F -> BVHTreeNearest.t F ->
      result (BVHTreeNearest.t F) :=
  match cb with
  | cb_mesh_edges_nearest_point => mesh_edges_nearest_point
  | cb_mesh_faces_nearest_point => mesh_faces_nearest_point
  | cb_mesh_corner_tris_nearest_point => mesh_corner_tris_nearest_point
  end.

Definition call_raycast_callback (cb : BVHTree_RayCastCallback)
    : BVHTreeFromMesh.t F -> Z -> BVHTreeRay.t F -> BVHTreeRayHit.t F ->
      result (BVHTreeRayHit.t F) :=
  match cb with
  | cb_mesh_verts_spherecast => mesh_verts_spherecast
  | cb_mesh_edges_spherecast => mesh_edges_spherecast
  | cb_mesh_faces_spherecast => mesh_faces_spherecast
  | cb_mesh_corner_tris_spherecast => mesh_corner_tris_spherecast
  end.

End Callbacks.

(** ** The tree service and the store of trees *)

(** Modelled from the spec: the generic BVH tree (BLI_kdopbvh) is not part
    of this file's source; it is "an opaque service exposing insert(index,
    bounding_primitive), balance(), ...".  A tree is what was put into it:
    the settings it was created with, the leaves in insertion order, each
    with the index it was inserted under and its bounding points, and
    whether it has been balanced. *)
Module BVHTree.
Record t (F : Type) : Type := Build {
  maxsize : Z;
  epsilon : F;
  tree_type : Z;
  axis : Z;
  leafs : list (Z * list (float3 F));
  balanced : bool;
}.
Arguments Build {F}.
Arguments maxsize {F}.
Arguments epsilon {F}.
Arguments tree_type {F}.
Arguments axis {F}.
Arguments leafs {F}.
Arguments balanced {F}.
End BVHTree.

(** [BVHCacheItem]: what a cache slot holds once it is built. *)
Module BVHCacheItem.
Record t : Set := Build { tree : option BVHTreePtr }.
End BVHCacheItem.

(** Modelled from the spec: the cache slots of the mesh runtime
    ([MeshRuntime], declared outside this file's source), "one per
    geometry-kind variant".  A slot is [None] while empty and [Some] once
    built. *)
Module MeshRuntime.
Record t : Set := Build {
  bvh_cache_verts : option BVHCacheItem.t;
  bvh_cache_edges : option BVHCacheItem.t;
  bvh_cache_faces : option BVHCacheItem.t;
  bvh_cache_corner_tris : option BVHCacheItem.t;
  bvh_cache_corner_tris_no_hidden : option BVHCacheItem.t;
  bvh_cache_loose_verts : option BVHCacheItem.t;
  bvh_cache_loose_edges : option BVHCacheItem.t;
  bvh_cache_loose_verts_no_hidden : option BVHCacheItem.t;
  bvh_cache_loose_edges_no_hidden : option BVHCacheItem.t;
}.
Definition empty : t := Build None None None None None None None None None.
End MeshRuntime.

(** The mutable state the builders and the cache work on: the trees that
    were allocated, by address, and the runtime of the mesh. *)
Module World.
Record t (F : Type) : Type := Build {
  trees : list (BVHTree.t F);
  runtime : MeshRuntime.t;
}.
Arguments Build {F}.
Arguments trees {F}.
Arguments runtime {F}.
Definition init (F : Type) : t F := Build [] MeshRuntime.empty.
End World.

(** Stateful, fallible code. *)
Definition M (F A : Type) : Type := World.t F -> result (A * World.t F).

#[global] Instance M_ret {F : Type} : MRet (M F) := fun _ a w => Ok (a, w).
#[global] Instance M_bind {F : Type} : MBind (M F) := fun _ _ f m w =>
  match m w with
  | Ok (a, w') => f a w'
  | Abort e => Abort e
  end.

Definition lift {F A : Type} (r : result A) : M F A := fun w =>
  match r with
  | Ok a => Ok (a, w)
  | Abort e => Abort e
  end.

(** [for (x : l) { f(x); }] *)
Fixpoint for_each {F A : Type} (l : list A) (f : A -> M F unit) : M F unit :=
  match l with
  | [] => mret tt
  | x :: l' => _ ← f x; for_each l' f
  end.

(** The same for code that only fails: [s] is what the loop updates. *)
Fixpoint fold_result {A St : Type} (f : St -> A -> result St) (l : list A)
    (s : St) : result St :=
  match l with
  | [] => Ok s
  | x :: l' => s' ← f s x; fold_result f l' s'
  end.

(** [f] on every element, in order, until one fails. *)
Fixpoint map_result {A B : Type} (f : A -> result B) (l : list A)
    : result (list B) :=
  match l with
  | [] => Ok []
  | x :: l' => y ← f x; ys ← map_result f l'; Ok (y :: ys)
  end.

Section TreeService.
Context {F : Type}.

(** Modelled from the spec: [BLI_bvhtree_new] of the tree service: a new,
    empty tree at the next free address. *)
Definition BLI_bvhtree_new (maxsize : Z) (epsilon : F) (tree_type axis : Z)
    : M F BVHTreePtr := fun w =>
  let tree := BVHTree.Build maxsize epsilon tree_type axis [] false in
  Ok (length (World.trees w),
      World.Build (World.trees w ++ [tree]) (World.runtime w)).

(** The tree behind a handle, changed in place. *)
Definition update_tree (tree : BVHTreePtr) (f : BVHTree.t F -> BVHTree.t F)
    : M F unit := fun w =>
  match World.trees w !! tree with
  | Some t => Ok (tt, World.Build (<[tree := f t]> (World.trees w)) (World.runtime w))
  | None => Abort NullPointer
  end.

(** Modelled from the spec: [BLI_bvhtree_insert] of the tree service,
    "insert(index, bounding_primitive)": one more leaf, with the [numpoints]
    points read from [co]. *)
Definition BLI_bvhtree_insert (tree : BVHTreePtr) (index : Z)
    (co : list (float3 F)) : M F unit :=
  update_tree tree (fun t =>
    BVHTree.Build (BVHTree.maxsize t) (BVHTree.epsilon t) (BVHTree.tree_type t)
      (BVHTree.axis t) (BVHTree.leafs t ++ [(index, co)]) (BVHTree.balanced t)).

(** Modelled from the spec: [BLI_bvhtree_balance] of the tree service,
    "balance()". *)
Definition BLI_bvhtree_balance (tree : BVHTreePtr) : M F unit :=
  update_tree tree (fun t =>
    BVHTree.Build (BVHTree.maxsize t) (BVHTree.epsilon t) (BVHTree.tree_type t)
      (BVHTree.axis t) (BVHTree.leafs t) true).

(** Modelled from the spec: [BLI_bvhtree_get_len] of the tree service: the
    number of leaves inserted. *)
Definition BLI_bvhtree_get_len (tree : BVHTreePtr) : M F Z := fun w =>
  match World.trees w !! tree with
  | Some t => Ok (span_size (BVHTree.leafs t), w)
  | None => Abort NullPointer
  end.

(** The leaves behind a handle; a null handle has none. *)
Definition tree_leafs (w : World.t F) (tree : option BVHTreePtr)
    : list (Z * list (float3 F)) :=
  match tree with
  | Some p => default [] (BVHTree.leafs <$> World.trees w !! p)
  | None => []
  end.

End TreeService.

(** ** BVH builders: common utilities *)

(** Modelled from the spec: the macro [IN_RANGE_INCL(a, b, c)] of
    BLI_utildefines.h, outside this file's source: [a] lies between [b] and
    [c], both included, in whichever order the two are given. *)
Definition IN_RANGE_INCL (a b c : Z) : bool :=
  if b <? c then (b <=? a) && (a <=? c) else (c <=? a) && (a <=? b).

Section Builders.
Context {F : Type}.

Definition bvhtree_balance (tree : option BVHTreePtr) : M F unit :=
  match tree with
  | Some tree => BLI_bvhtree_balance tree
  | None => mret tt
  end.

Definition bvhtree_from_mesh_setup_data (tree : option BVHTreePtr)
    (bvh_cache_type : BVHCacheType) (positions : list (float3 F))
    (edges : list (Z * Z)) (corner_verts : list Z)
    (corner_tris : list (Z * Z * Z)) (face : option (list MFace.t))
    : result (BVHTreeFromMesh.t F) :=
  let data nearest_callback raycast_callback :=
    {| BVHTreeFromMesh.tree := tree;
       BVHTreeFromMesh.nearest_callback := nearest_callback;
       BVHTreeFromMesh.raycast_callback := raycast_callback;
       BVHTreeFromMesh.vert_positions := positions;
       BVHTreeFromMesh.edges := edges;
       BVHTreeFromMesh.face := face;
       BVHTreeFromMesh.corner_verts := corner_verts;
       BVHTreeFromMesh.corner_tris := corner_tris;
       BVHTreeFromMesh.owned_tree := None |} in
  match bvh_cache_type with
  | BVHTREE_FROM_VERTS
  | BVHTREE_FROM_LOOSEVERTS
  | BVHTREE_FROM_LOOSEVERTS_NO_HIDDEN =>
    (* a nullptr nearest callback works fine
       remember the min distance to point is the same as the min distance
       to BV of point *)
    Ok (data None (Some cb_mesh_verts_spherecast))
  | BVHTREE_FROM_EDGES
  | BVHTREE_FROM_LOOSEEDGES
  | BVHTREE_FROM_LOOSEEDGES_NO_HIDDEN =>
    Ok (data (Some cb_mesh_edges_nearest_point) (Some cb_mesh_edges_spherecast))
  | BVHTREE_FROM_FACES =>
    Ok (data (Some cb_mesh_faces_nearest_point) (Some cb_mesh_faces_spherecast))
  | BVHTREE_FROM_CORNER_TRIS
  | BVHTREE_FROM_CORNER_TRIS_NO_HIDDEN =>
    Ok (data (Some cb_mesh_corner_tris_nearest_point)
             (Some cb_mesh_corner_tris_spherecast))
  | BVHTREE_MAX_ITEM => Abort AssertionFailed
  end.

(** [elems_num_active] is passed by reference: its value on return is the
    second component of the result. *)
Definition bvhtree_new_common (epsilon : F) (tree_type axis elems_num : Z)
    (elems_num_active : Z) : M F (option BVHTreePtr * Z) :=
  elems_num_active ←
    (if negb (elems_num_active =? -1) then
       _ ← lift (BLI_assert (IN_RANGE_INCL elems_num_active 0 elems_num));
       mret elems_num_active
     else mret elems_num);
  if elems_num_active =? 0 then mret (None, elems_num_active)
  else
    tree ← BLI_bvhtree_new elems_num_active epsilon tree_type axis;
    mret (Some tree, elems_num_active).

(** [!mask.is_empty() && !mask[i]]: the element is left out. *)
Definition masked_out (mask : list bool) (i : Z) : result bool :=
  match mask with
  | [] => Ok false
  | _ => negb <$> span_get mask i
  end.

(** *** Vertex builder *)

Definition bvhtree_from_mesh_verts_create_tree (epsilon : F)
    (tree_type axis : Z) (positions : list (float3 F))
    (verts_mask : list bool) (verts_num_active : Z) : M F (option BVHTreePtr) :=
  '(tree, verts_num_active) ←
    bvhtree_new_common epsilon tree_type axis (span_size positions) verts_num_active;
  match tree with
  | None => mret None
  | Some tree =>
    _ ← for_each (index_range positions) (fun i =>
          skip ← lift (masked_out verts_mask i);
          if (skip : bool) then mret tt
          else
            co ← lift (span_get positions i);
            BLI_bvhtree_insert tree i [co]);
    len ← BLI_bvhtree_get_len tree;
    _ ← lift (BLI_assert (len =? verts_num_active));
    mret (Some tree)
  end.

Definition bvhtree_from_mesh_verts_ex (data : bool)
    (vert_positions : list (float3 F)) (verts_mask : list bool)
    (verts_num_active : Z) (epsilon : F) (tree_type axis : Z)
    : M F (option BVHTreePtr * option (BVHTreeFromMesh.t F)) :=
  tree ← bvhtree_from_mesh_verts_create_tree
           epsilon tree_type axis vert_positions verts_mask verts_num_active;
  _ ← bvhtree_balance tree;
  if data then
    (* Setup BVHTreeFromMesh *)
    d ← lift (bvhtree_from_mesh_setup_data
                tree BVHTREE_FROM_VERTS vert_positions [] [] [] None);
    mret (tree, Some d)
  else mret (tree, None).

(** *** Edge builder *)

Definition bvhtree_from_mesh_edges_create_tree (positions : list (float3 F))
    (edges : list (Z * Z)) (edges_mask : list bool) (edges_num_active : Z)
    (epsilon : F) (tree_type axis : Z) : M F (option BVHTreePtr) :=
  '(tree, edges_num_active) ←
    bvhtree_new_common epsilon tree_type axis (span_size edges) edges_num_active;
  match tree with
  | None => mret None
  | Some tree =>
    _ ← for_each (index_range edges) (fun i =>
          skip ← lift (masked_out edges_mask i);
          if (skip : bool) then mret tt
          else
            edge ← lift (span_get edges i);
            co0 ← lift (span_get positions (fst edge));
            co1 ← lift (span_get positions (snd edge));
            BLI_bvhtree_insert tree i [co0; co1]);
    mret (Some tree)
  end.

Definition bvhtree_from_mesh_edges_ex (data : bool)
    (vert_positions : list (float3 F)) (edges : list (Z * Z))
    (edges_mask : list bool) (edges_num_active : Z) (epsilon : F)
    (tree_type axis : Z)
    : M F (option BVHTreePtr * option (BVHTreeFromMesh.t F)) :=
  tree ← bvhtree_from_mesh_edges_create_tree
           vert_positions edges edges_mask edges_num_active epsilon tree_type axis;
  _ ← bvhtree_balance tree;
  if data then
    (* Setup BVHTreeFromMesh *)
    d ← lift (bvhtree_from_mesh_setup_data
                tree BVHTREE_FROM_EDGES vert_positions edges [] [] None);
    mret (tree, Some d)
  else mret (tree, None).

End Builders.

(** [IndexRange(start, size)]: [start, start + 1, ..., start + size - 1]. *)
Definition IndexRange (start size : Z) : list Z :=
  (fun k => start + Z.of_nat k) <$> seq 0 (Z.to_nat size).

Section FaceBuilders.
Context {F : Type}.

(** *** Tessellated face builder *)

Definition bvhtree_from_mesh_faces_create_tree (epsilon : F)
    (tree_type axis : Z) (positions : list (float3 F))
    (face : option (list MFace.t)) (faces_num : Z) (faces_mask : list bool)
    (faces_num_active : Z) : M F (option BVHTreePtr) :=
  '(tree, faces_num_active) ←
    bvhtree_new_common epsilon tree_type axis faces_num faces_num_active;
  match tree with
  | None => mret None
  | Some tree =>
    _ ← match positions, face with
        | _ :: _, Some face =>
          for_each (IndexRange 0 faces_num) (fun i =>
            skip ← lift (masked_out faces_mask i);
            if (skip : bool) then mret tt
            else
              f ← lift (span_get face i);
              co0 ← lift (span_get positions (MFace.v1 f));
              co1 ← lift (span_get positions (MFace.v2 f));
              co2 ← lift (span_get positions (MFace.v3 f));
              if MFace.v4 f =? 0 then BLI_bvhtree_insert tree i [co0; co1; co2]
              else
                co3 ← lift (span_get positions (MFace.v4 f));
                BLI_bvhtree_insert tree i [co0; co1; co2; co3])
        | _, _ => mret tt
        end;
    len ← BLI_bvhtree_get_len tree;
    _ ← lift (BLI_assert (len =? faces_num_active));
    mret (Some tree)
  end.

(** *** corner_tri face builder *)

(** The three points [co[0..2]] of corner triangle [i]. *)
Definition corner_tri_points (positions : list (float3 F))
    (corner_verts : list Z) (corner_tris : list (Z * Z * Z)) (i : Z)
    : result (list (float3 F)) :=
  tri ← span_get corner_tris i;
  let '(c0, c1, c2) := tri in
  vert0 ← span_get corner_verts c0;
  co0 ← span_get positions vert0;
  vert1 ← span_get corner_verts c1;
  co1 ← span_get positions vert1;
  vert2 ← span_get corner_verts c2;
  co2 ← span_get positions vert2;
  Ok [co0; co1; co2].

Definition bvhtree_from_mesh_corner_tris_create_tree (epsilon : F)
    (tree_type axis : Z) (positions : list (float3 F)) (corner_verts : list Z)
    (corner_tris : list (Z * Z * Z)) (corner_tris_mask : list bool)
    (corner_tris_num_active : Z) : M F (option BVHTreePtr) :=
  match positions with
  | [] => mret None
  | _ :: _ =>
    '(tree, corner_tris_num_active) ←
      bvhtree_new_common
        epsilon tree_type axis (span_size corner_tris) corner_tris_num_active;
    match tree with
    | None => mret None
    | Some tree =>
      _ ← for_each (index_range corner_tris) (fun i =>
            skip ← lift (masked_out corner_tris_mask i);
            if (skip : bool) then mret tt
            else
              co ← lift (corner_tri_points positions corner_verts corner_tris i);
              BLI_bvhtree_insert tree i co);
      len ← BLI_bvhtree_get_len tree;
      _ ← lift (BLI_assert (len =? corner_tris_num_active));
      mret (Some tree)
    end
  end.

Definition bvhtree_from_mesh_corner_tris_ex (data : bool)
    (vert_positions : list (float3 F)) (corner_verts : list Z)
    (corner_tris : list (Z * Z * Z)) (corner_tris_mask : list bool)
    (corner_tris_num_active : Z) (epsilon : F) (tree_type axis : Z)
    : M F (option BVHTreePtr * option (BVHTreeFromMesh.t F)) :=
  tree ← bvhtree_from_mesh_corner_tris_create_tree
           epsilon tree_type axis vert_positions corner_verts corner_tris
           corner_tris_mask corner_tris_num_active;
  _ ← bvhtree_balance tree;
  if data then
    (* Setup BVHTreeFromMesh *)
    d ← lift (bvhtree_from_mesh_setup_data
                tree BVHTREE_FROM_CORNER_TRIS vert_positions [] corner_verts
                corner_tris None);
    mret (tree, Some d)
  else mret (tree, None).

End FaceBuilders.

(** ** The mesh

    The mesh is a read-only provider of positions, topology, visibility
    attributes and precomputed loose-element facts. *)

Module LooseVertCache.
Record t : Set := Build { is_loose_bits : list bool; count : Z }.
End LooseVertCache.

Module LooseEdgeCache.
Record t : Set := Build { is_loose_bits : list bool; count : Z }.
End LooseEdgeCache.

Module Mesh.
Record t (F : Type) : Type := Build {
  vert_positions : list (float3 F);
  edges : list (Z * Z);
  (* faces(): offsets into the corners, one more than there are faces *)
  face_offsets : list Z;
  corner_verts : list Z;
  corner_edges : list Z;
  corner_tris : list (Z * Z * Z);
  (* the attributes ".hide_vert", ".hide_edge" and ".hide_poly", when stored *)
  hide_vert : option (list bool);
  hide_edge : option (list bool);
  hide_poly : option (list bool);
  loose_verts : LooseVertCache.t;
  loose_edges : LooseEdgeCache.t;
  (* the CD_MFACE layer of fdata_legacy and totface_legacy *)
  mface : option (list MFace.t);
  totface_legacy : Z;
}.
Arguments Build {F}.
Arguments vert_positions {F}.
Arguments edges {F}.
Arguments face_offsets {F}.
Arguments corner_verts {F}.
Arguments corner_edges {F}.
Arguments corner_tris {F}.
Arguments hide_vert {F}.
Arguments hide_edge {F}.
Arguments hide_poly {F}.
Arguments loose_verts {F}.
Arguments loose_edges {F}.
Arguments mface {F}.
Arguments totface_legacy {F}.
Definition verts_num {F : Type} (mesh : t F) : Z := span_size (vert_positions mesh).
Definition edges_num {F : Type} (mesh : t F) : Z := span_size (edges mesh).
Definition faces_num {F : Type} (mesh : t F) : Z :=
  Z.max 0 (span_size (face_offsets mesh) - 1).
End Mesh.

(** Modelled from the spec: [VArray<bool>] as [lookup_or_default] of the
    attribute API returns it, outside this file's source: "per-element
    boolean lookups with a cheap uniformly-false fast path".  A stored
    attribute is a span; a missing one is a single value for the whole
    domain. *)
Inductive VArray (A : Type) : Type :=
| VArraySingle (value : A) (size : Z)
| VArraySpan (data : list A).
Arguments VArraySingle {A} value size.
Arguments VArraySpan {A} data.

(** Modelled from the spec: [lookup_or_default] of the attribute API: the
    stored attribute, or the default value on the whole domain. *)
Definition lookup_or_default {A : Type} (attribute : option (list A))
    (domain_size : Z) (default_value : A) : VArray A :=
  match attribute with
  | Some data => VArraySpan data
  | None => VArraySingle default_value domain_size
  end.

(** Modelled from the spec: [varray[i]], defined within the domain. *)
Definition varray_get {A : Type} (v : VArray A) (i : Z) : result A :=
  match v with
  | VArraySingle value size =>
    if (0 <=? i) && (i <? size) then Ok value else Abort OutOfBounds
  | VArraySpan data => span_get data i
  end.

(** Modelled from the spec: [OffsetIndices] and the triangle helpers of
    BKE_mesh.hh, outside this file's source.  Face [i] is the corner range
    from [offsets[i]] up to [offsets[i + 1]]; "triangle count for an n-gon
    is n-2"; faces are expanded to triangles in face order, so the triangle
    range of face [i] starts at [offsets[i] - 2 * i]. *)
Definition offsets_range (offsets : list Z) (i : Z) : result (Z * Z) :=
  first ← span_get offsets i;
  next ← span_get offsets (i + 1);
  Ok (first, next - first).

(** Modelled from the spec: [faces.index_range()], one index per face. *)
Definition offsets_index_range (offsets : list Z) : list Z :=
  IndexRange 0 (Z.max 0 (span_size offsets - 1)).

(** Modelled from the spec: [mesh::face_triangles_num], "triangle count
    for an n-gon is n-2". *)
Definition face_triangles_num (face_size : Z) : Z := face_size - 2.

(** Modelled from the spec: [mesh::face_triangles_range], the triangles of
    a face in the triangulation, faces expanded in face order. *)
Definition face_triangles_range (faces : list Z) (face_i : Z) : result (list Z) :=
  face ← offsets_range faces face_i;
  Ok (IndexRange (fst face - face_i * 2) (face_triangles_num (snd face))).

(** [span.slice(range)] *)
Definition span_slice {A : Type} (s : list A) (range : Z * Z) : result (list A) :=
  map_result (span_get s) (IndexRange (fst range) (snd range)).

(** ** Active-subset masks *)

(** [if (mask[i]) { mask[i].reset(); count--; }] *)
Definition mask_reset (st : list bool * Z) (i : Z) : result (list bool * Z) :=
  b ← span_get (fst st) i;
  if (b : bool) then Ok (<[Z.to_nat i := false]> (fst st), snd st - 1) else Ok st.

(** [if (mask[i] && hide[i]) { mask[i].reset(); count--; }] *)
Definition mask_reset_hidden (hide : VArray bool) (st : list bool * Z) (i : Z)
    : result (list bool * Z) :=
  b ← span_get (fst st) i;
  if (b : bool) then
    h ← varray_get hide i;
    if (h : bool) then Ok (<[Z.to_nat i := false]> (fst st), snd st - 1) else Ok st
  else Ok st.

Section Masks.
Context {F : Type}.

(** Returns the mask and, for [*r_elem_active_len], the count. *)
Definition loose_verts_no_hidden_mask_get (mesh : Mesh.t F)
    : result (list bool * Z) :=
  let count := Mesh.verts_num mesh in
  let verts_mask := replicate (Z.to_nat count) true in
  let edges := Mesh.edges mesh in
  let hide_edge := lookup_or_default (Mesh.hide_edge mesh) (Mesh.edges_num mesh) false in
  let hide_vert := lookup_or_default (Mesh.hide_vert mesh) (Mesh.verts_num mesh) false in
  st ← fold_result (fun st i =>
         hidden ← varray_get hide_edge i;
         if (hidden : bool) then Ok st
         else
           edge ← span_get edges i;
           fold_result mask_reset [fst edge; snd edge] st)
       (index_range edges) (verts_mask, count);
  if negb (snd st =? 0) then
    fold_result (mask_reset_hidden hide_vert) (index_range (fst st)) st
  else Ok st.

Definition loose_edges_no_hidden_mask_get (mesh : Mesh.t F)
    : result (list bool * Z) :=
  let count := Mesh.edges_num mesh in
  let edge_mask := replicate (Z.to_nat count) true in
  let faces := Mesh.face_offsets mesh in
  let corner_edges := Mesh.corner_edges mesh in
  let hide_poly := lookup_or_default (Mesh.hide_poly mesh) (Mesh.faces_num mesh) false in
  let hide_edge := lookup_or_default (Mesh.hide_edge mesh) (Mesh.edges_num mesh) false in
  st ← fold_result (fun st i =>
         hidden ← varray_get hide_poly i;
         if (hidden : bool) then Ok st
         else
           face ← offsets_range faces i;
           face_edges ← span_slice corner_edges face;
           fold_result mask_reset face_edges st)
       (offsets_index_range faces) (edge_mask, count);
  if negb (snd st =? 0) then
    fold_result (mask_reset_hidden hide_edge) (index_range (fst st)) st
  else Ok st.

End Masks.

(** [mask[i].set()] *)
Definition mask_set (mask : list bool) (i : Z) : result (list bool) :=
  _ ← span_get mask i;
  Ok (<[Z.to_nat i := true]> mask).

(** Returns the mask and the value of [*r_corner_tris_active_len], which is
    left as it was ([corner_tris_active_len]) on the early return. *)
Definition corner_tris_no_hidden_map_get (faces : list Z)
    (hide_poly : VArray bool) (corner_tris_len : Z) (corner_tris_active_len : Z)
    : result (list bool * Z) :=
  match hide_poly with
  | VArraySingle false _ => Ok ([], corner_tris_active_len)
  | _ =>
    let corner_tris_mask := replicate (Z.to_nat corner_tris_len) false in
    st ← fold_result (fun '(mask, tri_index, no_hidden_len) i =>
           face ← offsets_range faces i;
           let triangles_num := face_triangles_num (snd face) in
           hidden ← varray_get hide_poly i;
           if (hidden : bool) then Ok (mask, tri_index + triangles_num, no_hidden_len)
           else
             fold_result (fun '(mask, tri_index, no_hidden_len) _ =>
                 mask ← mask_set mask tri_index;
                 Ok (mask, tri_index + 1, no_hidden_len + 1))
               (IndexRange 0 triangles_num) (mask, tri_index, no_hidden_len))
         (offsets_index_range faces) (corner_tris_mask, 0, 0);
    let '(mask, _, no_hidden_len) := st in
    Ok (mask, no_hidden_len)
  end.

(** ** The per-mesh BVH cache *)

(** A cache slot of the runtime: how it is read and how it is written. *)
Record CacheSlot : Type := {
  slot_get : MeshRuntime.t -> option BVHCacheItem.t;
  slot_set : option BVHCacheItem.t -> MeshRuntime.t -> MeshRuntime.t;
}.

Definition bvh_cache_verts : CacheSlot :=
  {| slot_get := MeshRuntime.bvh_cache_verts;
     slot_set x r := MeshRuntime.Build x
       (MeshRuntime.bvh_cache_edges r) (MeshRuntime.bvh_cache_faces r)
       (MeshRuntime.bvh_cache_corner_tris r)
       (MeshRuntime.bvh_cache_corner_tris_no_hidden r)
       (MeshRuntime.bvh_cache_loose_verts r) (MeshRuntime.bvh_cache_loose_edges r)
       (MeshRuntime.bvh_cache_loose_verts_no_hidden r)
       (MeshRuntime.bvh_cache_loose_edges_no_hidden r) |}.

Definition bvh_cache_edges : CacheSlot :=
  {| slot_get := MeshRuntime.bvh_cache_edges;
     slot_set x r := MeshRuntime.Build (MeshRuntime.bvh_cache_verts r) x
       (MeshRuntime.bvh_cache_faces r) (MeshRuntime.bvh_cache_corner_tris r)
       (MeshRuntime.bvh_cache_corner_tris_no_hidden r)
       (MeshRuntime.bvh_cache_loose_verts r) (MeshRuntime.bvh_cache_loose_edges r)
       (MeshRuntime.bvh_cache_loose_verts_no_hidden r)
       (MeshRuntime.bvh_cache_loose_edges_no_hidden r) |}.

Definition bvh_cache_faces : CacheSlot :=
  {| slot_get := MeshRuntime.bvh_cache_faces;
     slot_set x r := MeshRuntime.Build (MeshRuntime.bvh_cache_verts r)
       (MeshRuntime.bvh_cache_edges r) x (MeshRuntime.bvh_cache_corner_tris r)
       (MeshRuntime.bvh_cache_corner_tris_no_hidden r)
       (MeshRuntime.bvh_cache_loose_verts r) (MeshRuntime.bvh_cache_loose_edges r)
       (MeshRuntime.bvh_cache_loose_verts_no_hidden r)
       (MeshRuntime.bvh_cache_loose_edges_no_hidden r) |}.

Definition bvh_cache_corner_tris : CacheSlot :=
  {| slot_get := MeshRuntime.bvh_cache_corner_tris;
     slot_set x r := MeshRuntime.Build (MeshRuntime.bvh_cache_verts r)
       (MeshRuntime.bvh_cache_edges r) (MeshRuntime.bvh_cache_faces r) x
       (MeshRuntime.bvh_cache_corner_tris_no_hidden r)
       (MeshRuntime.bvh_cache_loose_verts r) (MeshRuntime.bvh_cache_loose_edges r)
       (MeshRuntime.bvh_cache_loose_verts_no_hidden r)
       (MeshRuntime.bvh_cache_loose_edges_no_hidden r) |}.

Definition bvh_cache_corner_tris_no_hidden : CacheSlot :=
  {| slot_get := MeshRuntime.bvh_cache_corner_tris_no_hidden;
     slot_set x r := MeshRuntime.Build (MeshRuntime.bvh_cache_verts r)
       (MeshRuntime.bvh_cache_edges r) (MeshRuntime.bvh_cache_faces r)
       (MeshRuntime.bvh_cache_corner_tris r) x
       (MeshRuntime.bvh_cache_loose_verts r) (MeshRuntime.bvh_cache_loose_edges r)
       (MeshRuntime.bvh_cache_loose_verts_no_hidden r)
       (MeshRuntime.bvh_cache_loose_edges_no_hidden r) |}.

Definition bvh_cache_loose_verts : CacheSlot :=
  {| slot_get := MeshRuntime.bvh_cache_loose_verts;
     slot_set x r := MeshRuntime.Build (MeshRuntime.bvh_cache_verts r)
       (MeshRuntime.bvh_cache_edges r) (MeshRuntime.bvh_cache_faces r)
       (MeshRuntime.bvh_cache_corner_tris r)
       (MeshRuntime.bvh_cache_corner_tris_no_hidden r) x
       (MeshRuntime.bvh_cache_loose_edges r)
       (MeshRuntime.bvh_cache_loose_verts_no_hidden r)
       (MeshRuntime.bvh_cache_loose_edges_no_hidden r) |}.

Definition bvh_cache_loose_edges : CacheSlot :=
  {| slot_get := MeshRuntime.bvh_cache_loose_edges;
     slot_set x r := MeshRuntime.Build (MeshRuntime.bvh_cache_verts r)
       (MeshRuntime.bvh_cache_edges r) (MeshRuntime.bvh_cache_faces r)
       (MeshRuntime.bvh_cache_corner_tris r)
       (MeshRuntime.bvh_cache_corner_tris_no_hidden r)
       (MeshRuntime.bvh_cache_loose_verts r) x
       (MeshRuntime.bvh_cache_loose_verts_no_hidden r)
       (MeshRuntime.bvh_cache_loose_edges_no_hidden r) |}.

Definition bvh_cache_loose_verts_no_hidden : CacheSlot :=
  {| slot_get := MeshRuntime.bvh_cache_loose_verts_no_hidden;
     slot_set x r := MeshRuntime.Build (MeshRuntime.bvh_cache_verts r)
       (MeshRuntime.bvh_cache_edges r) (MeshRuntime.bvh_cache_faces r)
       (MeshRuntime.bvh_cache_corner_tris r)
       (MeshRuntime.bvh_cache_corner_tris_no_hidden r)
       (MeshRuntime.bvh_cache_loose_verts r) (MeshRuntime.bvh_cache_loose_edges r) x
       (MeshRuntime.bvh_cache_loose_edges_no_hidden r) |}.

Definition bvh_cache_loose_edges_no_hidden : CacheSlot :=
  {| slot_get := MeshRuntime.bvh_cache_loose_edges_no_hidden;
     slot_set x r := MeshRuntime.Build (MeshRuntime.bvh_cache_verts r)
       (MeshRuntime.bvh_cache_edges r) (MeshRuntime.bvh_cache_faces r)
       (MeshRuntime.bvh_cache_corner_tris r)
       (MeshRuntime.bvh_cache_corner_tris_no_hidden r)
       (MeshRuntime.bvh_cache_loose_verts r) (MeshRuntime.bvh_cache_loose_edges r)
       (MeshRuntime.bvh_cache_loose_verts_no_hidden r) x |}.

Section Cache.
Context {F : Type} `{!BLI_math F}.

(** Modelled from the spec: [SharedCache::ensure] and [SharedCache::data]
    (BLI_shared_cache.hh, outside this file's source): a slot goes from
    empty to built on first access, by running [compute_fn] on a fresh item;
    "subsequent accesses are pure reads". *)
Definition SharedCache_ensure (slot : CacheSlot) (compute_fn : M F BVHCacheItem.t)
    : M F unit := fun w =>
  match slot_get slot (World.runtime w) with
  | Some _ => Ok (tt, w)
  | None =>
    match compute_fn w with
    | Ok (item, w') =>
      Ok (tt, World.Build (World.trees w')
                (slot_set slot (Some item) (World.runtime w')))
    | Abort e => Abort e
    end
  end.

(** Modelled from the spec: [SharedCache::data], the item of a built
    slot. *)
Definition SharedCache_data (slot : CacheSlot) : M F BVHCacheItem.t := fun w =>
  match slot_get slot (World.runtime w) with
  | Some item => Ok (item, w)
  | None => Abort NullPointer
  end.

(** [if (data.tree) { BLI_bvhtree_balance(data.tree); }] and the item the
    lambda leaves in [data]. *)
Definition cache_item_of (tree : option BVHTreePtr) : M F BVHCacheItem.t :=
  _ ← match tree with
      | Some tree => BLI_bvhtree_balance tree
      | None => mret tt
      end;
  mret (BVHCacheItem.Build tree).

Definition bvh_loose_verts (mesh : Mesh.t F) : M F (BVHTreeFromMesh.t F) :=
  let positions := Mesh.vert_positions mesh in
  _ ← SharedCache_ensure bvh_cache_loose_verts (
        let loose_verts := Mesh.loose_verts mesh in
        tree ← bvhtree_from_mesh_verts_create_tree
                 f_zero 2 6 positions (LooseVertCache.is_loose_bits loose_verts)
                 (LooseVertCache.count loose_verts);
        cache_item_of tree);
  tree ← SharedCache_data bvh_cache_loose_verts;
  lift (bvhtree_from_mesh_setup_data
          (BVHCacheItem.tree tree) BVHTREE_FROM_LOOSEVERTS positions [] [] [] None).

Definition bvh_loose_no_hidden_verts (mesh : Mesh.t F) : M F (BVHTreeFromMesh.t F) :=
  let positions := Mesh.vert_positions mesh in
  _ ← SharedCache_ensure bvh_cache_loose_verts_no_hidden (
        '(mask, mask_bits_act_len) ← lift (loose_verts_no_hidden_mask_get mesh);
        tree ← bvhtree_from_mesh_verts_create_tree f_zero 2 6 positions [] (-1);
        cache_item_of tree);
  tree ← SharedCache_data bvh_cache_loose_verts_no_hidden;
  lift (bvhtree_from_mesh_setup_data
          (BVHCacheItem.tree tree) BVHTREE_FROM_LOOSEVERTS_NO_HIDDEN
          positions [] [] [] None).

Definition bvh_verts (mesh : Mesh.t F) : M F (BVHTreeFromMesh.t F) :=
  let positions := Mesh.vert_positions mesh in
  _ ← SharedCache_ensure bvh_cache_verts (
        tree ← bvhtree_from_mesh_verts_create_tree f_zero 2 6 positions [] (-1);
        cache_item_of tree);
  tree ← SharedCache_data bvh_cache_verts;
  lift (bvhtree_from_mesh_setup_data
          (BVHCacheItem.tree tree) BVHTREE_FROM_VERTS positions [] [] [] None).

Definition bvh_loose_edges (mesh : Mesh.t F) : M F (BVHTreeFromMesh.t F) :=
  let positions := Mesh.vert_positions mesh in
  let edges := Mesh.edges mesh in
  _ ← SharedCache_ensure bvh_cache_loose_edges (
        let loose_edges := Mesh.loose_edges mesh in
        tree ← bvhtree_from_mesh_edges_create_tree
                 positions edges (LooseEdgeCache.is_loose_bits loose_edges)
                 (LooseEdgeCache.count loose_edges) f_zero 2 6;
        cache_item_of tree);
  tree ← SharedCache_data bvh_cache_loose_edges;
  lift (bvhtree_from_mesh_setup_data
          (BVHCacheItem.tree tree) BVHTREE_FROM_LOOSEEDGES positions edges [] [] None).

Definition bvh_loose_no_hidden_edges (mesh : Mesh.t F) : M F (BVHTreeFromMesh.t F) :=
  let positions := Mesh.vert_positions mesh in
  let edges := Mesh.edges mesh in
  _ ← SharedCache_ensure bvh_cache_loose_edges_no_hidden (
        '(mask, mask_bits_act_len) ← lift (loose_edges_no_hidden_mask_get mesh);
        tree ← bvhtree_from_mesh_edges_create_tree
                 positions edges mask mask_bits_act_len f_zero 2 6;
        cache_item_of tree);
  tree ← SharedCache_data bvh_cache_loose_edges_no_hidden;
  lift (bvhtree_from_mesh_setup_data
          (BVHCacheItem.tree tree) BVHTREE_FROM_LOOSEEDGES_NO_HIDDEN
          positions [] [] [] None).

Definition bvh_edges (mesh : Mesh.t F) : M F (BVHTreeFromMesh.t F) :=
  let positions := Mesh.vert_positions mesh in
  let edges := Mesh.edges mesh in
  _ ← SharedCache_ensure bvh_cache_edges (
        tree ← bvhtree_from_mesh_edges_create_tree positions edges [] (-1) f_zero 2 6;
        cache_item_of tree);
  tree ← SharedCache_data bvh_cache_edges;
  lift (bvhtree_from_mesh_setup_data
          (BVHCacheItem.tree tree) BVHTREE_FROM_EDGES positions edges [] [] None).

Definition bvh_legacy_faces (mesh : Mesh.t F) : M F (BVHTreeFromMesh.t F) :=
  _ ← lift (BLI_assert
              (negb ((Mesh.totface_legacy mesh =? 0)
                     && negb (Mesh.faces_num mesh =? 0))));
  let positions := Mesh.vert_positions mesh in
  _ ← SharedCache_ensure bvh_cache_faces (
        tree ← bvhtree_from_mesh_faces_create_tree
                 f_zero 2 6 positions (Mesh.mface mesh)
                 (Mesh.totface_legacy mesh) [] (-1);
        cache_item_of tree);
  tree ← SharedCache_data bvh_cache_faces;
  lift (bvhtree_from_mesh_setup_data
          (BVHCacheItem.tree tree) BVHTREE_FROM_FACES positions [] [] [] None).

Definition bvh_corner_tris_no_hidden (mesh : Mesh.t F) : M F (BVHTreeFromMesh.t F) :=
  let positions := Mesh.vert_positions mesh in
  let corner_verts := Mesh.corner_verts mesh in
  let corner_tris := Mesh.corner_tris mesh in
  _ ← SharedCache_ensure bvh_cache_verts (
        '(mask, mask_bits_act_len) ←
          lift (corner_tris_no_hidden_map_get
                  (Mesh.face_offsets mesh)
                  (lookup_or_default (Mesh.hide_poly mesh) (Mesh.faces_num mesh) false)
                  (span_size corner_tris) (-1));
        tree ← bvhtree_from_mesh_corner_tris_create_tree
                 f_zero 2 6 positions corner_verts corner_tris mask mask_bits_act_len;
        cache_item_of tree);
  tree ← SharedCache_data bvh_cache_verts;
  lift (bvhtree_from_mesh_setup_data
          (BVHCacheItem.tree tree) BVHTREE_FROM_CORNER_TRIS_NO_HIDDEN
          positions [] corner_verts corner_tris None).

Definition bvh_corner_tris (mesh : Mesh.t F) : M F (BVHTreeFromMesh.t F) :=
  let positions := Mesh.vert_positions mesh in
  let corner_verts := Mesh.corner_verts mesh in
  let corner_tris := Mesh.corner_tris mesh in
  _ ← SharedCache_ensure bvh_cache_corner_tris (
        tree ← bvhtree_from_mesh_corner_tris_create_tree
                 f_zero 2 6 positions corner_verts corner_tris [] (-1);
        cache_item_of tree);
  tree ← SharedCache_data bvh_cache_corner_tris;
  lift (bvhtree_from_mesh_setup_data
          (BVHCacheItem.tree tree) BVHTREE_FROM_CORNER_TRIS
          positions [] corner_verts corner_tris None).

(** The cached tree of a geometry kind ([get_bvh(kind)] of the spec): the
    member function of [Mesh] that serves the kind. *)
Definition get_bvh (kind : BVHCacheType) (mesh : Mesh.t F)
    : M F (BVHTreeFromMesh.t F) :=
  match kind with
  | BVHTREE_FROM_VERTS => bvh_verts mesh
  | BVHTREE_FROM_EDGES => bvh_edges mesh
  | BVHTREE_FROM_FACES => bvh_legacy_faces mesh
  | BVHTREE_FROM_CORNER_TRIS => bvh_corner_tris mesh
  | BVHTREE_FROM_CORNER_TRIS_NO_HIDDEN => bvh_corner_tris_no_hidden mesh
  | BVHTREE_FROM_LOOSEVERTS => bvh_loose_verts mesh
  | BVHTREE_FROM_LOOSEEDGES => bvh_loose_edges mesh
  | BVHTREE_FROM_LOOSEVERTS_NO_HIDDEN => bvh_loose_no_hidden_verts mesh
  | BVHTREE_FROM_LOOSEEDGES_NO_HIDDEN => bvh_loose_no_hidden_edges mesh
  | BVHTREE_MAX_ITEM => lift (Abort AssertionFailed)
  end.

(** The slot named for a kind. *)
Definition slot_of_kind (kind : BVHCacheType) : option CacheSlot :=
  match kind with
  | BVHTREE_FROM_VERTS => Some bvh_cache_verts
  | BVHTREE_FROM_EDGES => Some bvh_cache_edges
  | BVHTREE_FROM_FACES => Some bvh_cache_faces
  | BVHTREE_FROM_CORNER_TRIS => Some bvh_cache_corner_tris
  | BVHTREE_FROM_CORNER_TRIS_NO_HIDDEN => Some bvh_cache_corner_tris_no_hidden
  | BVHTREE_FROM_LOOSEVERTS => Some bvh_cache_loose_verts
  | BVHTREE_FROM_LOOSEEDGES => Some bvh_cache_loose_edges
  | BVHTREE_FROM_LOOSEVERTS_NO_HIDDEN => Some bvh_cache_loose_verts_no_hidden
  | BVHTREE_FROM_LOOSEEDGES_NO_HIDDEN => Some bvh_cache_loose_edges_no_hidden
  | BVHTREE_MAX_ITEM => None
  end.

(** ** Trees over explicit index subsets *)

(** [r_data.owned_tree = ...(tree); r_data.tree = tree;] *)
Definition set_owned_tree (r_data : BVHTreeFromMesh.t F)
    (tree : option BVHTreePtr) : BVHTreeFromMesh.t F :=
  {| BVHTreeFromMesh.tree := tree;
     BVHTreeFromMesh.nearest_callback := BVHTreeFromMesh.nearest_callback r_data;
     BVHTreeFromMesh.raycast_callback := BVHTreeFromMesh.raycast_callback r_data;
     BVHTreeFromMesh.vert_positions := BVHTreeFromMesh.vert_positions r_data;
     BVHTreeFromMesh.edges := BVHTreeFromMesh.edges r_data;
     BVHTreeFromMesh.face := BVHTreeFromMesh.face r_data;
     BVHTreeFromMesh.corner_verts := BVHTreeFromMesh.corner_verts r_data;
     BVHTreeFromMesh.corner_tris := BVHTreeFromMesh.corner_tris r_data;
     BVHTreeFromMesh.owned_tree := tree |}.

(** An [IndexMask] is the increasing list of its indices. *)
Definition BKE_bvhtree_from_mesh_tris_init (mesh : Mesh.t F)
    (faces_mask : list Z) : M F (BVHTreeFromMesh.t F) :=
  if span_size faces_mask =? Mesh.faces_num mesh then
    (* Can use cache if all faces are in the bvh tree. *)
    bvh_corner_tris mesh
  else
    let positions := Mesh.vert_positions mesh in
    let edges := Mesh.edges mesh in
    let corner_verts := Mesh.corner_verts mesh in
    let faces := Mesh.face_offsets mesh in
    let corner_tris := Mesh.corner_tris mesh in
    r_data ← lift (bvhtree_from_mesh_setup_data
                     None BVHTREE_FROM_CORNER_TRIS positions edges corner_verts
                     corner_tris None);
    tris_num ← lift (fold_result (fun tris_num i =>
                  face ← offsets_range faces i;
                  Ok (tris_num + face_triangles_num (snd face)))
                faces_mask 0);
    '(tree, active_num) ← bvhtree_new_common f_zero 2 6 tris_num (-1);
    let r_data := set_owned_tree r_data tree in
    match tree with
    | None => mret r_data
    | Some tree =>
      _ ← for_each faces_mask (fun face_i =>
            triangles_range ← lift (face_triangles_range faces face_i);
            for_each triangles_range (fun tri_i =>
              co ← lift (corner_tri_points positions corner_verts corner_tris tri_i);
              BLI_bvhtree_insert tree tri_i co));
      _ ← BLI_bvhtree_balance tree;
      mret r_data
    end.

Definition BKE_bvhtree_from_mesh_edges_init (mesh : Mesh.t F)
    (edges_mask : list Z) : M F (BVHTreeFromMesh.t F) :=
  if span_size edges_mask =? Mesh.edges_num mesh then
    (* Can use cache if all edges are in the bvh tree. *)
    bvh_edges mesh
  else
    let positions := Mesh.vert_positions mesh in
    let edges := Mesh.edges mesh in
    r_data ← lift (bvhtree_from_mesh_setup_data
                     None BVHTREE_FROM_EDGES positions edges [] [] None);
    '(tree, active_num) ←
      bvhtree_new_common f_zero 2 6 (span_size edges_mask) (-1);
    let r_data := set_owned_tree r_data tree in
    match tree with
    | None => mret r_data
    | Some tree =>
      _ ← for_each edges_mask (fun edge_i =>
            edge ← lift (span_get edges edge_i);
            co0 ← lift (span_get positions (fst edge));
            co1 ← lift (span_get positions (snd edge));
            BLI_bvhtree_insert tree edge_i [co0; co1]);
      _ ← BLI_bvhtree_balance tree;
      mret r_data
    end.

Definition BKE_bvhtree_from_mesh_verts_init (mesh : Mesh.t F)
    (verts_mask : list Z) : M F (BVHTreeFromMesh.t F) :=
  if span_size verts_mask =? Mesh.verts_num mesh then
    (* Can use cache if all vertices are in the bvh tree. *)
    bvh_verts mesh
  else
    let positions := Mesh.vert_positions mesh in
    r_data ← lift (bvhtree_from_mesh_setup_data
                     None BVHTREE_FROM_VERTS positions [] [] [] None);
    '(tree, active_num) ←
      bvhtree_new_common f_zero 2 6 (span_size verts_mask) (-1);
    let r_data := set_owned_tree r_data tree in
    match tree with
    | None => mret r_data
    | Some tree =>
      _ ← for_each verts_mask (fun vert_i =>
            position ← lift (span_get positions vert_i);
            BLI_bvhtree_insert tree vert_i [position]);
      _ ← BLI_bvhtree_balance tree;
      mret r_data
    end.

(** ** Point cloud BVH building *)

(** [BVHTreeFromPointCloud]; [nearest_callback] is only ever set to null by
    this file, [coords] to the positions of the point cloud. *)
Record BVHTreeFromPointCloud : Type := {
  pc_tree : option BVHTreePtr;
  pc_nearest_callback : option BVHTree_NearestPointCallback;
  pc_coords : option (list (float3 F));
}.

Definition BKE_bvhtree_from_pointcloud_get (positions : list (float3 F))
    (points_mask : list Z) (r_data : BVHTreeFromPointCloud)
    : M F BVHTreeFromPointCloud :=
  '(tree, active_num) ←
    bvhtree_new_common f_zero 2 6 (span_size points_mask) (-1);
  let r_data :=
    {| pc_tree := tree;
       pc_nearest_callback := pc_nearest_callback r_data;
       pc_coords := pc_coords r_data |} in
  match tree with
  | None => mret r_data
  | Some tree =>
    _ ← for_each points_mask (fun i =>
          co ← lift (span_get positions i);
          BLI_bvhtree_insert tree i [co]);
    _ ← BLI_bvhtree_balance tree;
    mret {| pc_tree := Some tree;
            pc_nearest_callback := None;
            pc_coords := Some positions |}
  end.

End Cache.

(** * Vocabulary of the properties

    What the properties below are stated with: the kinds of a bundle, the
    clamped point of an edge, the set bits of a mask, visibility of the
    elements of a mesh, and the leaves a subset of faces makes. *)

Definition is_vert_kind (kind : BVHCacheType) : bool :=
  match kind with
  | BVHTREE_FROM_VERTS
  | BVHTREE_FROM_LOOSEVERTS
  | BVHTREE_FROM_LOOSEVERTS_NO_HIDDEN => true
  | _ => false
  end.

Definition is_edge_kind (kind : BVHCacheType) : bool :=
  match kind with
  | BVHTREE_FROM_EDGES
  | BVHTREE_FROM_LOOSEEDGES
  | BVHTREE_FROM_LOOSEEDGES_NO_HIDDEN => true
  | _ => false
  end.

Definition is_face_kind (kind : BVHCacheType) : bool :=
  match kind with
  | BVHTREE_FROM_FACES
  | BVHTREE_FROM_CORNER_TRIS
  | BVHTREE_FROM_CORNER_TRIS_NO_HIDDEN => true
  | _ => false
  end.

(** The callback fields of a bundle fit its kind: a vertex kind has no
    nearest-point callback and the vertex sphere-cast as ray-cast callback;
    an edge or face kind has both callbacks. *)
Definition callbacks_fit {F : Type} (kind : BVHCacheType)
    (data : BVHTreeFromMesh.t F) : Prop :=
  (is_vert_kind kind = true ->
   BVHTreeFromMesh.nearest_callback data = None
   /\ BVHTreeFromMesh.raycast_callback data = Some cb_mesh_verts_spherecast)
  /\ (is_edge_kind kind = true \/ is_face_kind kind = true ->
      BVHTreeFromMesh.nearest_callback data <> None
      /\ BVHTreeFromMesh.raycast_callback data <> None).

(** The slot the getter of a kind works on, as the code has it. *)
Definition slot_used (kind : BVHCacheType) : option CacheSlot :=
  match kind with
  | BVHTREE_FROM_CORNER_TRIS_NO_HIDDEN => Some bvh_cache_verts
  | _ => slot_of_kind kind
  end.

(** The active count is zero: given as 0, or given as -1 with no element at
    all. *)
Definition zero_active (elems_num elems_num_active : Z) : Prop :=
  elems_num_active = 0 \/ (elems_num_active = -1 /\ elems_num = 0).

(** The number of set bits of a mask. *)
Fixpoint count_true (mask : list bool) : Z :=
  match mask with
  | [] => 0
  | b :: mask' => (if b then 1 else 0) + count_true mask'
  end.

(** A stored attribute has one value for each element of its domain. *)
Definition attribute_fits {A : Type} (attribute : option (list A))
    (domain_size : Z) : Prop :=
  match attribute with
  | Some data => span_size data = domain_size
  | None => True
  end.

Section MeshVocabulary.
Context {F : Type}.

(** Both ends of every edge are vertices of the mesh. *)
Definition edges_in_range (mesh : Mesh.t F) : Prop :=
  forall edge, In edge (Mesh.edges mesh) ->
    0 <= fst edge < Mesh.verts_num mesh /\ 0 <= snd edge < Mesh.verts_num mesh.

Definition edge_hidden (mesh : Mesh.t F) (i : Z) : result bool :=
  varray_get (lookup_or_default (Mesh.hide_edge mesh) (Mesh.edges_num mesh) false) i.

Definition vert_hidden (mesh : Mesh.t F) (v : Z) : result bool :=
  varray_get (lookup_or_default (Mesh.hide_vert mesh) (Mesh.verts_num mesh) false) v.

(** Edge [i] is not hidden and has [v] as one of its ends. *)
Definition visible_edge_at (mesh : Mesh.t F) (i v : Z) : Prop :=
  exists edge,
    span_get (Mesh.edges mesh) i = Ok edge
    /\ edge_hidden mesh i = Ok false
    /\ (fst edge = v \/ snd edge = v).

Definition touched_by_visible_edge (mesh : Mesh.t F) (v : Z) : Prop :=
  exists i, visible_edge_at mesh i v.

(** The tree [t] holding the leaves [leafs]. *)
Definition with_leafs (t : BVHTree.t F) (leafs : list (Z * list (float3 F)))
    : BVHTree.t F :=
  BVHTree.Build (BVHTree.maxsize t) (BVHTree.epsilon t) (BVHTree.tree_type t)
    (BVHTree.axis t) leafs (BVHTree.balanced t).

(** The leaves the triangles of face [face_i] make: one for each triangle
    of the triangle range of the face, under the index of the triangle in
    [corner_tris], with the three corner positions of the triangle. *)
Definition face_triangle_leafs (mesh : Mesh.t F) (face_i : Z)
    : result (list (Z * list (float3 F))) :=
  triangles_range ← face_triangles_range (Mesh.face_offsets mesh) face_i;
  map_result (fun tri_i =>
      co ← corner_tri_points (Mesh.vert_positions mesh) (Mesh.corner_verts mesh)
             (Mesh.corner_tris mesh) tri_i;
      Ok (tri_i, co))
    triangles_range.

(** The same for the faces of a subset, face after face. *)
Definition subset_triangle_leafs (mesh : Mesh.t F) (faces_mask : list Z)
    : result (list (Z * list (float3 F))) :=
  leafs ← map_result (face_triangle_leafs mesh) faces_mask;
  Ok (concat leafs).

(** Every face of the subset has at least three corners. *)
Definition faces_have_triangles (mesh : Mesh.t F) (faces_mask : list Z) : Prop :=
  forall face_i face,
    In face_i faces_mask ->
    offsets_range (Mesh.face_offsets mesh) face_i = Ok face ->
    3 <= snd face.

End MeshVocabulary.

(** Bit [i] of an active mask; the empty mask stands for "all active". *)
Definition mask_bit (mask : list bool) (i : nat) : bool :=
  match mask with
  | [] => true
  | _ => default false (mask !! i)
  end.

Section VertLeafs.
Context {F : Type}.

(** The leaves of the active vertices: one point each, under the index of
    the vertex. *)
Definition vert_leaf (positions : list (float3 F)) (mask : list bool) (i : nat)
    : list (Z * list (float3 F)) :=
  match positions !! i with
  | Some p => if mask_bit mask i then [(Z.of_nat i, [p])] else []
  | None => []
  end.

Definition vert_leafs (positions : list (float3 F)) (mask : list bool)
    : list (Z * list (float3 F)) :=
  flat_map (vert_leaf positions mask) (seq 0 (length positions)).

End VertLeafs.

Section EdgeVocabulary.
Context {F : Type} `{!BLI_math F}.

(** The point of the edge the hit is measured from: the closest approach
    [i1] on the line of the edge, moved to the end of the edge it lies
    beyond. *)
Definition edge_clamp (i1 v1 v2 : float3 F) : float3 F :=
  let e_fac := line_point_factor_v3 i1 v1 v2 in
  if f_lt e_fac f_zero then v1
  else if f_lt f_one e_fac then v2
  else i1.

End EdgeVocabulary.

(** ** Vocabulary of the builders, the masks and the cache *)

Section LeafVocabulary.
Context {F : Type}.

(** The leaf of element [i] when it is active and its points can be read:
    the points, under the index of the element. *)
Definition masked_leaf (points : Z -> result (list (float3 F)))
    (mask : list bool) (i : nat) : list (Z * list (float3 F)) :=
  if mask_bit mask i then
    match points (Z.of_nat i) with
    | Ok co => [(Z.of_nat i, co)]
    | Abort _ => []
    end
  else [].

(** The leaves of the active ones of the elements [0 .. n - 1], in order. *)
Definition masked_leafs (points : Z -> result (list (float3 F)))
    (mask : list bool) (n : nat) : list (Z * list (float3 F)) :=
  flat_map (masked_leaf points mask) (seq 0 n).

(** The two points [co[0..1]] of edge [i]. *)
Definition edge_points (positions : list (float3 F)) (edges : list (Z * Z))
    (i : Z) : result (list (float3 F)) :=
  edge ← span_get edges i;
  co0 ← span_get positions (fst edge);
  co1 ← span_get positions (snd edge);
  Ok [co0; co1].

(** The three or four points [co[0..3]] of legacy face [i]. *)
Definition face_points (positions : list (float3 F)) (face : list MFace.t)
    (i : Z) : result (list (float3 F)) :=
  f ← span_get face i;
  co0 ← span_get positions (MFace.v1 f);
  co1 ← span_get positions (MFace.v2 f);
  co2 ← span_get positions (MFace.v3 f);
  if MFace.v4 f =? 0 then Ok [co0; co1; co2]
  else
    co3 ← span_get positions (MFace.v4 f);
    Ok [co0; co1; co2; co3].

(** Every active element among [0 .. n - 1] has points that can be read. *)
Definition active_in_range (points : Z -> result (list (float3 F)))
    (mask : list bool) (n : nat) : Prop :=
  forall i, (i < n)%nat -> mask_bit mask i = true ->
    exists co, points (Z.of_nat i) = Ok co.

(** The mask is the empty one or has one bit for each of [n] elements. *)
Definition mask_fits (mask : list bool) (n : nat) : Prop :=
  mask = [] \/ length mask = n.

(** The mask and the count of active elements a builder is called with:
    the empty mask with the count -1 over at least one element, or one bit
    for each element with the number of set bits, which is not zero. *)
Definition mask_count_fits (mask : list bool) (elems : nat) (n : Z) : Prop :=
  (mask = [] /\ n = -1 /\ elems <> 0%nat)
  \/ (length mask = elems /\ n = count_true mask /\ n <> 0).

(** The number a builder sizes its tree by: the number of elements when the
    count of active ones is given as -1. *)
Definition active_count (elems_num elems_num_active : Z) : Z :=
  if elems_num_active =? -1 then elems_num else elems_num_active.

End LeafVocabulary.

Section FaceVocabulary.
Context {F : Type}.

Definition face_hidden (mesh : Mesh.t F) (i : Z) : result bool :=
  varray_get (lookup_or_default (Mesh.hide_poly mesh) (Mesh.faces_num mesh) false) i.

(** Face [i] is not hidden and has [e] among the edges of its corners. *)
Definition visible_face_at (mesh : Mesh.t F) (i e : Z) : Prop :=
  exists face face_edges,
    face_hidden mesh i = Ok false
    /\ offsets_range (Mesh.face_offsets mesh) i = Ok face
    /\ span_slice (Mesh.corner_edges mesh) face = Ok face_edges
    /\ In e face_edges.

Definition used_by_visible_face (mesh : Mesh.t F) (e : Z) : Prop :=
  exists i, visible_face_at mesh i e.

(** The corners of every face that is not hidden lie within the corners of
    the mesh, and their edges are edges of the mesh. *)
Definition face_edges_in_range (mesh : Mesh.t F) : Prop :=
  forall i, 0 <= i < Mesh.faces_num mesh -> face_hidden mesh i = Ok false ->
    exists face face_edges,
      offsets_range (Mesh.face_offsets mesh) i = Ok face
      /\ span_slice (Mesh.corner_edges mesh) face = Ok face_edges
      /\ forall e, In e face_edges -> 0 <= e < Mesh.edges_num mesh.

End FaceVocabulary.

(** "Nothing is hidden" as the fast path sees it: the attribute is a single
    value, false. *)
Definition single_false (hide : VArray bool) : bool :=
  match hide with
  | VArraySingle false _ => true
  | _ => false
  end.

(** The bits of the triangles of face [i]: one for each triangle, set when
    the face is not hidden. *)
Definition face_triangle_bits (faces : list Z) (hide_poly : VArray bool) (i : Z)
    : result (list bool) :=
  face ← offsets_range faces i;
  hidden ← varray_get hide_poly i;
  Ok (replicate (Z.to_nat (face_triangles_num (snd face))) (negb hidden)).

(** The same for all faces, face after face. *)
Definition no_hidden_bits (faces : list Z) (hide_poly : VArray bool)
    : result (list bool) :=
  bits ← map_result (face_triangle_bits faces hide_poly) (offsets_index_range faces);
  Ok (concat bits).

(** No face has fewer than two corners. *)
Definition faces_triangles_nonneg (faces : list Z) : Prop :=
  forall i face,
    In i (offsets_index_range faces) ->
    offsets_range faces i = Ok face ->
    0 <= face_triangles_num (snd face).

Section ListedVocabulary.
Context {F : Type}.

(** The point [co] of vertex [i]. *)
Definition vert_points (positions : list (float3 F)) (i : Z)
    : result (list (float3 F)) :=
  co ← span_get positions i;
  Ok [co].

(** The leaves of the elements of an index mask, in the order of the mask:
    the points of each, under its index. *)
Definition listed_leafs (points : Z -> result (list (float3 F)))
    (indices : list Z) : result (list (Z * list (float3 F))) :=
  map_result (fun i => co ← points i; Ok (i, co)) indices.

(** The bundle of a subset builder: the tree is the bundle's own. *)
Definition owned_bundle (nearest_callback : option BVHTree_NearestPointCallback)
    (raycast_callback : option BVHTree_RayCastCallback)
    (positions : list (float3 F)) (edges : list (Z * Z))
    (tree : option BVHTreePtr) : BVHTreeFromMesh.t F :=
  {| BVHTreeFromMesh.tree := tree;
     BVHTreeFromMesh.nearest_callback := nearest_callback;
     BVHTreeFromMesh.raycast_callback := raycast_callback;
     BVHTreeFromMesh.vert_positions := positions;
     BVHTreeFromMesh.edges := edges;
     BVHTreeFromMesh.face := None;
     BVHTreeFromMesh.corner_verts := [];
     BVHTreeFromMesh.corner_tris := [];
     BVHTreeFromMesh.owned_tree := tree |}.

End ListedVocabulary.

Section FrameVocabulary.
Context {F : Type}.

(** The trees of [w'] are the trees of [w], each as it was, and at most one
    tree after them; [tree] is the handle of the new tree, null when there
    is none. *)
Definition adds_tree (w w' : World.t F) (tree : option BVHTreePtr) : Prop :=
  (tree = None /\ World.trees w' = World.trees w)
  \/ (tree = Some (length (World.trees w))
      /\ exists t, World.trees w' = World.trees w ++ [t]).

(** Nothing but the tree at address [p] differs between [w] and [w']: the
    runtime, the number of trees and the trees below [p] are the same. *)
Definition same_below (p : nat) (w w' : World.t F) : Prop :=
  World.runtime w' = World.runtime w
  /\ length (World.trees w') = length (World.trees w)
  /\ take p (World.trees w') = take p (World.trees w).

(** Code that changes nothing but the tree at address [p]. *)
Definition only_tree {A : Type} (p : nat) (m : M F A) : Prop :=
  forall w a w', m w = Ok (a, w') -> same_below p w w'.

End FrameVocabulary.

Section FirstAccessVocabulary.
Context {F : Type}.

(** The world after the first access of a slot that found something to
    build: one more tree, after those there were, and the slot holds its
    handle. *)
Definition built (w : World.t F) (slot : CacheSlot) (tree : BVHTree.t F)
    : World.t F :=
  World.Build (World.trees w ++ [tree])
    (slot_set slot
       (Some (BVHCacheItem.Build (Some (length (World.trees w)))))
       (World.runtime w)).

End FirstAccessVocabulary.

Section CastVocabulary.
Context {F : Type} `{!BLI_math F}.

(** The ray misses the triangle: the intersection routine the radius of the
    ray selects finds nothing. *)
Definition tri_missed (ray : BVHTreeRay.t F) (hit : BVHTreeRayHit.t F)
    (t0 t1 t2 : float3 F) : Prop :=
  if f_eq (BVHTreeRay.radius ray) f_zero then
    isect_ray_tri_v3 ray t0 t1 t2 = None
  else
    isect_sweeping_sphere_tri_v3 (BVHTreeRay.origin ray)
      (madd_v3_v3v3fl (BVHTreeRay.origin ray) (BVHTreeRay.direction ray)
         (BVHTreeRayHit.dist hit))
      (BVHTreeRay.radius ray) t0 t1 t2
    = None.

(** The hit [r] is the running hit [hit], or a hit of element [index] that
    is strictly nearer. *)
Definition improves (index : Z) (hit r : BVHTreeRayHit.t F) : Prop :=
  r = hit
  \/ (BVHTreeRayHit.index r = index
      /\ f_lt (BVHTreeRayHit.dist r) (BVHTreeRayHit.dist hit) = true).

End CastVocabulary.

Section VisibleVocabulary.
Context {F : Type}.


End VisibleVocabulary.

Section InvariantVocabulary.
Context {F : Type}.

(** A handle is null, or the address of a tree of the world that has been
    balanced. *)
Definition handle_ok (w : World.t F) (tree : option BVHTreePtr) : Prop :=
  match tree with
  | None => True
  | Some p => exists t, World.trees w !! p = Some t /\ BVHTree.balanced t = true
  end.

(** Every slot that is built holds such a handle. *)
Definition cache_ok (w : World.t F) : Prop :=
  forall kind slot item,
    slot_of_kind kind = Some slot ->
    slot_get slot (World.runtime w) = Some item ->
    handle_ok w (BVHCacheItem.tree item).

End InvariantVocabulary.

(** ** An implementation of the math interface

    The routines of the interface in IEEE arithmetic, by their usual
    formulas.  Rocq's floats are binary64 where the C code has binary32; the
    examples below only use values on which every operation is exact in
    both.  The swept-sphere test is not reproduced: this implementation
    reports no contact, and the examples cast rays of radius 0 at
    triangles.  The theorems do not depend on this implementation: they hold
    for every implementation of the interface. *)

Module FloatMath.
Section Defs.
Local Open Scope float_scope.

Definition vec : Type := float3 float.

Definition add (a b : vec) : vec :=
  let '(ax, ay, az) := a in
  let '(bx, b_y, bz) := b in
  (ax + bx, ay + b_y, az + bz).

Definition sub (a b : vec) : vec :=
  let '(ax, ay, az) := a in
  let '(bx, b_y, bz) := b in
  (ax - bx, ay - b_y, az - bz).

Definition mul_fl (a : vec) (f : float) : vec :=
  let '(ax, ay, az) := a in
  (ax * f, ay * f, az * f).

Definition madd (a b : vec) (f : float) : vec :=
  let '(ax, ay, az) := a in
  let '(bx, b_y, bz) := b in
  (ax + bx * f, ay + b_y * f, az + bz * f).

Definition dot (a b : vec) : float :=
  let '(ax, ay, az) := a in
  let '(bx, b_y, bz) := b in
  ax * bx + ay * b_y + az * bz.

Definition cross (a b : vec) : vec :=
  let '(ax, ay, az) := a in
  let '(bx, b_y, bz) := b in
  (ay * bz - az * b_y, az * bx - ax * bz, ax * b_y - ay * bx).

Definition is_zero (a : vec) : bool :=
  let '(ax, ay, az) := a in
  (ax =? 0) && (ay =? 0) && (az =? 0).

Definition equals (a b : vec) : bool :=
  let '(ax, ay, az) := a in
  let '(bx, b_y, bz) := b in
  (ax =? bx) && (ay =? b_y) && (az =? bz).

Definition len_squared (a b : vec) : float := dot (sub b a) (sub b a).

Definition len (a b : vec) : float := sqrt (len_squared a b).

Definition dot3 (p a b : vec) : float :=
  let vec1 := sub a p in
  let vec2 := sub b p in
  if is_zero vec1 || is_zero vec2 then 0 else dot vec1 vec2.

Definition normalize (a : vec) : vec :=
  let d := dot a a in
  if 0x1.a95a5cp-117 <? d then mul_fl a (1 / sqrt d) else (0, 0, 0).

Definition normal_tri (v1 v2 v3 : vec) : vec :=
  normalize (cross (sub v1 v2) (sub v2 v3)).

Definition closest_to_line_segment (p l1 l2 : vec) : vec :=
  let u := sub l2 l1 in
  let h := sub p l1 in
  let lambda := dot u h / dot u u in
  if lambda <=? 0 then l1
  else if 1 <=? lambda then l2
  else madd l1 u lambda.

Definition line_point_factor (p l1 l2 : vec) : float :=
  let u := sub l2 l1 in
  let h := sub p l1 in
  let d := dot u u in
  if 0 <? d then dot u h / d else 0.

(** Closest point of a triangle, by the regions of the vertices, the edges
    and the face. *)
Definition closest_on_tri_to_point (p a b c : vec) : vec :=
  let ab := sub b a in
  let ac := sub c a in
  let ap := sub p a in
  let d1 := dot ab ap in
  let d2 := dot ac ap in
  if (d1 <=? 0) && (d2 <=? 0) then a
  else
    let bp := sub p b in
    let d3 := dot ab bp in
    let d4 := dot ac bp in
    if (0 <=? d3) && (d4 <=? d3) then b
    else
      let vc := d1 * d4 - d3 * d2 in
      if (vc <=? 0) && (0 <=? d1) && (d3 <=? 0) then madd a ab (d1 / (d1 - d3))
      else
        let cp := sub p c in
        let d5 := dot ab cp in
        let d6 := dot ac cp in
        if (0 <=? d6) && (d5 <=? d6) then c
        else
          let vb := d5 * d2 - d1 * d6 in
          if (vb <=? 0) && (0 <=? d2) && (d6 <=? 0) then madd a ac (d2 / (d2 - d6))
          else
            let va := d3 * d6 - d5 * d4 in
            if (va <=? 0) && (0 <=? d4 - d3) && (0 <=? d5 - d6) then
              madd b (sub c b) ((d4 - d3) / ((d4 - d3) + (d5 - d6)))
            else
              let denom := 1 / (va + vb + vc) in
              let v := vb * denom in
              let w := vc * denom in
              add (madd a ab v) (mul_fl ac w).

(** Closest approach of the lines through [v1 v2] and through [v3 v4]: 0
    when they are parallel, 1 when they meet, 2 otherwise, with the point
    on the first and the point on the second line. *)
Definition isect_line_line (v1 v2 v3 v4 : vec) : Z * vec * vec :=
  let c := sub v3 v1 in
  let a := sub v2 v1 in
  let b := sub v4 v3 in
  let ab := cross a b in
  let d := dot c ab in
  let div := dot ab ab in
  if div =? 0 then (0%Z, (0, 0, 0), (0, 0, 0))
  else if abs d <=? 0x1.0c6f7ap-20 then
    let cb := cross c b in
    let i1 := add v1 (mul_fl a (dot cb ab / div)) in
    (1%Z, i1, i1)
  else
    let n := cross a b in
    let t := sub v1 v3 in
    let t := mul_fl n (dot t n / dot n n) in
    let v3t := add v3 t in
    let v4t := add v4 t in
    let c := sub v3t v1 in
    let b := sub v4t v3t in
    let ab := cross a b in
    let cb := cross c b in
    let i1 := add v1 (mul_fl a (dot cb ab / dot ab ab)) in
    (2%Z, i1, sub i1 t).

(** Ray against triangle, with the tolerance [FLT_EPSILON] of binary32. *)
Definition isect_ray_tri (ray : BVHTreeRay.t float) (v0 v1 v2 : vec) : option float :=
  let epsilon := 0x1p-23 in
  let e1 := sub v1 v0 in
  let e2 := sub v2 v0 in
  let p := cross (BVHTreeRay.direction ray) e2 in
  let a := dot e1 p in
  if a =? 0 then None
  else
    let f := 1 / a in
    let s := sub (BVHTreeRay.origin ray) v0 in
    let u := f * dot s p in
    if (u <? - epsilon) || (1 + epsilon <? u) then None
    else
      let q := cross s e1 in
      let v := f * dot (BVHTreeRay.direction ray) q in
      if (v <? - epsilon) || (1 + epsilon <? u + v) then None
      else
        let lambda := f * dot e2 q in
        if lambda <? 0 then None else Some lambda.

End Defs.

#[global] Instance float_math : BLI_math float := {|
  f_zero := 0%float;
  f_one := 1%float;
  FLT_MAX := 0x1.fffffep127%float;
  f_lt := PrimFloat.ltb;
  f_le := PrimFloat.leb;
  f_eq := PrimFloat.eqb;
  f_mul := PrimFloat.mul;
  square_f := fun a => PrimFloat.mul a a;
  add_v3_v3v3 := add;
  sub_v3_v3v3 := sub;
  madd_v3_v3v3fl := madd;
  normalize_v3 := normalize;
  len_v3v3 := len;
  len_squared_v3v3 := len_squared;
  dot_v3v3v3 := dot3;
  equals_v3v3 := equals;
  normal_tri_v3 := normal_tri;
  closest_on_tri_to_point_v3 := closest_on_tri_to_point;
  closest_to_line_segment_v3 := closest_to_line_segment;
  line_point_factor_v3 := line_point_factor;
  isect_line_line_v3 := isect_line_line;
  isect_ray_tri_v3 := isect_ray_tri;
  isect_sweeping_sphere_tri_v3 := fun _ _ _ _ _ _ => None;
|}.

End FloatMath.

(** ** Sample data

    Small inputs on which the definitions are run in the examples and on
    which the theorems below are instantiated. *)

Module Samples.
Import FloatMath.

Definition P (x y z : float) : float3 float := (x, y, z).
Arguments P (x y z)%_float.

(** The three coordinates decoded to sign, mantissa and exponent, where two
    floats that differ can be told apart by their constructors. *)
Definition decode (p : float3 float) : spec_float * spec_float * spec_float :=
  let '(x, y, z) := p in (Prim2SF x, Prim2SF y, Prim2SF z).

(** "No result yet": what a traversal starts a query with. *)
Definition no_nearest : BVHTreeNearest.t float :=
  BVHTreeNearest.Build (-1) (P 0 0 0) (P 0 0 0) FLT_MAX.

Definition no_hit : BVHTreeRayHit.t float :=
  BVHTreeRayHit.Build (-1) (P 0 0 0) (P 0 0 0) FLT_MAX.

(** A quad folded along the diagonal from its first to its third vertex:
    vertices 1, 2, 3 lie in the plane y = 0 and vertices 1, 3, 4 in the
    plane z = 0.  Vertex 0 is not used by the face. *)
Definition q1 : float3 float := P 0 0 0.
Definition q2 : float3 float := P 0 0 1.
Definition q3 : float3 float := P 1 0 0.
Definition q4 : float3 float := P 0 1 0.

Definition quad_data : BVHTreeFromMesh.t float :=
  {| BVHTreeFromMesh.tree := None;
     BVHTreeFromMesh.nearest_callback := Some cb_mesh_faces_nearest_point;
     BVHTreeFromMesh.raycast_callback := Some cb_mesh_faces_spherecast;
     BVHTreeFromMesh.vert_positions := [P 9 9 9; q1; q2; q3; q4];
     BVHTreeFromMesh.edges := [];
     BVHTreeFromMesh.face := Some [MFace.Build 1 2 3 4];
     BVHTreeFromMesh.corner_verts := [];
     BVHTreeFromMesh.corner_tris := [];
     BVHTreeFromMesh.owned_tree := None |}.

(** A point of the triangle of vertices 1, 3, 4, and a ray that comes down
    on it along the z axis. *)
Definition quad_query : float3 float := P 0.25 0.25 0.

Definition quad_ray : BVHTreeRay.t float :=
  BVHTreeRay.Build (P 0.25 0.25 1) (P 0 0 (-1)) 0%float.

(** One corner triangle, the one of vertices 1, 3, 4 above. *)
Definition tri_data : BVHTreeFromMesh.t float :=
  {| BVHTreeFromMesh.tree := None;
     BVHTreeFromMesh.nearest_callback := Some cb_mesh_corner_tris_nearest_point;
     BVHTreeFromMesh.raycast_callback := Some cb_mesh_corner_tris_spherecast;
     BVHTreeFromMesh.vert_positions := [q1; q3; q4];
     BVHTreeFromMesh.edges := [];
     BVHTreeFromMesh.face := None;
     BVHTreeFromMesh.corner_verts := [0; 1; 2];
     BVHTreeFromMesh.corner_tris := [(0, 1, 2)];
     BVHTreeFromMesh.owned_tree := None |}.

(** Edge 0 runs from the origin to (1, 0, 0); edge 1 has length zero. *)
Definition edge_data : BVHTreeFromMesh.t float :=
  {| BVHTreeFromMesh.tree := None;
     BVHTreeFromMesh.nearest_callback := Some cb_mesh_edges_nearest_point;
     BVHTreeFromMesh.raycast_callback := Some cb_mesh_edges_spherecast;
     BVHTreeFromMesh.vert_positions := [P 0 0 0; P 1 0 0];
     BVHTreeFromMesh.edges := [(0, 1); (1, 1)];
     BVHTreeFromMesh.face := None;
     BVHTreeFromMesh.corner_verts := [];
     BVHTreeFromMesh.corner_tris := [];
     BVHTreeFromMesh.owned_tree := None |}.

(** A ray along the y axis that passes the line of edge 0 at x = 2, beyond
    the end of the edge, at height 0.5 above it. *)
Definition edge_ray (radius : float) : BVHTreeRay.t float :=
  BVHTreeRay.Build (P 2 (-1) 0.5) (P 0 1 0) radius.

(** A mesh of eight vertices: a quad (vertices 0 1 2 3) and a triangle
    (vertices 0 3 4) that share an edge, an edge between vertices 5 and 6
    that no face uses, and vertex 7, which no edge uses.  The triangle is
    hidden, and with it its two own edges and its own vertex 4. *)
Definition mesh : Mesh.t float :=
  {| Mesh.vert_positions :=
       [P 0 0 0; P 1 0 0; P 1 1 0; P 0 1 0; P 0 2 0; P 5 0 0; P 6 0 0; P 9 9 9];
     Mesh.edges := [(0, 1); (1, 2); (2, 3); (3, 0); (3, 4); (4, 0); (5, 6)];
     Mesh.face_offsets := [0; 4; 7];
     Mesh.corner_verts := [0; 1; 2; 3; 0; 3; 4];
     Mesh.corner_edges := [0; 1; 2; 3; 3; 4; 5];
     Mesh.corner_tris := [(0, 1, 2); (0, 2, 3); (4, 5, 6)];
     Mesh.hide_vert := Some [false; false; false; false; true; false; false; false];
     Mesh.hide_edge := Some [false; false; false; false; true; true; false];
     Mesh.hide_poly := Some [false; true];
     Mesh.loose_verts :=
       LooseVertCache.Build
         [false; false; false; false; false; false; false; true] 1;
     Mesh.loose_edges :=
       LooseEdgeCache.Build [false; false; false; false; false; false; true] 1;
     Mesh.mface := Some [MFace.Build 0 1 2 3; MFace.Build 3 4 0 0];
     Mesh.totface_legacy := 2 |}.

(** The same mesh with nothing hidden. *)
Definition mesh_all_visible : Mesh.t float :=
  {| Mesh.vert_positions := Mesh.vert_positions mesh;
     Mesh.edges := Mesh.edges mesh;
     Mesh.face_offsets := Mesh.face_offsets mesh;
     Mesh.corner_verts := Mesh.corner_verts mesh;
     Mesh.corner_edges := Mesh.corner_edges mesh;
     Mesh.corner_tris := Mesh.corner_tris mesh;
     Mesh.hide_vert := None;
     Mesh.hide_edge := None;
     Mesh.hide_poly := None;
     Mesh.loose_verts := Mesh.loose_verts mesh;
     Mesh.loose_edges := Mesh.loose_edges mesh;
     Mesh.mface := Mesh.mface mesh;
     Mesh.totface_legacy := Mesh.totface_legacy mesh |}.

End Samples.

(** * Properties *)

(** ** Outcomes and spans *)

Lemma span_get_Ok {A : Type} (s : list A) (i : Z) (a : A) :
  span_get s i = Ok a <-> 0 <= i /\ s !! Z.to_nat i = Some a.
Proof.
  unfold span_get. destruct (Z.leb_spec 0 i).
  - destruct (s !! Z.to_nat i); split; intros H'.
    + inversion H'; subst; auto.
    + destruct H' as [_ H']; inversion H'; reflexivity.
    + discriminate.
    + destruct H' as [_ H']; discriminate.
  - split; [discriminate | lia].
Qed.

Lemma span_get_in_range {A : Type} (s : list A) (i : Z) :
  0 <= i < span_size s -> exists a, span_get s i = Ok a.
Proof.
  intros [H0 H1]. unfold span_size in H1.
  destruct (lookup_lt_is_Some_2 s (Z.to_nat i)) as [a Ha]; [lia |].
  exists a. apply span_get_Ok; auto.
Qed.

Lemma span_get_of_nat {A : Type} (s : list A) (k : nat) (a : A) :
  s !! k = Some a -> span_get s (Z.of_nat k) = Ok a.
Proof. intros H. apply span_get_Ok. rewrite Nat2Z.id. split; [lia | done]. Qed.

(** ** The loop of the legacy-face callbacks *)

Section FacesLoop.
Context {F : Type} `{!BLI_math F}.

Lemma mesh_faces_do_while_tri {St : Type}
    (body : float3 F -> float3 F -> float3 F -> St -> St) (n : nat)
    (t0 t1 t2 : float3 F) (s : St) :
  mesh_faces_do_while body (S n) t0 t1 (Some t2) None s = Ok (body t0 t1 t2 s).
Proof. reflexivity. Qed.

Lemma mesh_faces_do_while_quad {St : Type}
    (body : float3 F -> float3 F -> float3 F -> St -> St) (n : nat)
    (t0 t1 t2 t3 : float3 F) (s : St) :
  mesh_faces_do_while body (S (S n)) t0 t1 (Some t2) (Some t3) s
  = Ok (body t0 t2 t3 (body t0 t1 t2 s)).
Proof. reflexivity. Qed.

(** The loop never runs out of fuel: two rounds are all it can take. *)
Lemma mesh_faces_do_while_fuel {St : Type}
    (body : float3 F -> float3 F -> float3 F -> St -> St) (n : nat)
    (t0 t1 t2 : float3 F) (t3 : option (float3 F)) (s : St) :
  (2 <= n)%nat ->
  mesh_faces_do_while body n t0 t1 (Some t2) t3 s
  = mesh_faces_do_while body 2 t0 t1 (Some t2) t3 s
  /\ exists s', mesh_faces_do_while body n t0 t1 (Some t2) t3 s = Ok s'.
Proof.
  intros Hn. destruct n as [| [| n]]; [lia | lia |].
  destruct t3 as [t3 |]; cbn; eauto.
Qed.

(** Whatever the body, a quad's loop runs it on the fan from the first
    vertex: first on (t0, t1, t2), then on (t0, t2, t3). *)
Lemma mesh_faces_foreach_tri_quad {St : Type}
    (body : float3 F -> float3 F -> float3 F -> St -> St)
    (data : BVHTreeFromMesh.t F) (index : Z) (faces : list MFace.t)
    (face : MFace.t) (p1 p2 p3 p4 : float3 F) (s : St) :
  BVHTreeFromMesh.face data = Some faces ->
  span_get faces index = Ok face ->
  MFace.v4 face <> 0 ->
  span_get (BVHTreeFromMesh.vert_positions data) (MFace.v1 face) = Ok p1 ->
  span_get (BVHTreeFromMesh.vert_positions data) (MFace.v2 face) = Ok p2 ->
  span_get (BVHTreeFromMesh.vert_positions data) (MFace.v3 face) = Ok p3 ->
  span_get (BVHTreeFromMesh.vert_positions data) (MFace.v4 face) = Ok p4 ->
  mesh_faces_foreach_tri body data index s
  = Ok (body p1 p3 p4 (body p1 p2 p3 s)).
Proof.
  intros Hfaces Hface Hv4 H1 H2 H3 H4.
  unfold mesh_faces_foreach_tri.
  rewrite Hfaces; cbn. rewrite Hface; cbn.
  rewrite H1; cbn. rewrite H2; cbn. rewrite H3; cbn.
  destruct (Z.eqb_spec (MFace.v4 face) 0) as [E | _]; [contradiction |].
  rewrite H4; cbn. reflexivity.
Qed.

Lemma mesh_faces_foreach_tri_tri {St : Type}
    (body : float3 F -> float3 F -> float3 F -> St -> St)
    (data : BVHTreeFromMesh.t F) (index : Z) (faces : list MFace.t)
    (face : MFace.t) (p1 p2 p3 : float3 F) (s : St) :
  BVHTreeFromMesh.face data = Some faces ->
  span_get faces index = Ok face ->
  MFace.v4 face = 0 ->
  span_get (BVHTreeFromMesh.vert_positions data) (MFace.v1 face) = Ok p1 ->
  span_get (BVHTreeFromMesh.vert_positions data) (MFace.v2 face) = Ok p2 ->
  span_get (BVHTreeFromMesh.vert_positions data) (MFace.v3 face) = Ok p3 ->
  mesh_faces_foreach_tri body data index s = Ok (body p1 p2 p3 s).
Proof.
  intros Hfaces Hface Hv4 H1 H2 H3.
  unfold mesh_faces_foreach_tri.
  rewrite Hfaces; cbn. rewrite Hface; cbn.
  rewrite H1; cbn. rewrite H2; cbn. rewrite H3; cbn.
  rewrite Hv4; cbn. reflexivity.
Qed.

(** The normal a triangle test leaves in the running result. *)
Lemma tri_nearest_point_no (index : Z) (co t0 t1 t2 : float3 F)
    (nearest : BVHTreeNearest.t F) :
  BVHTreeNearest.no (tri_nearest_point index co t0 t1 t2 nearest)
  = if f_lt (len_squared_v3v3 co (closest_on_tri_to_point_v3 co t0 t1 t2))
            (BVHTreeNearest.dist_sq nearest)
    then normal_tri_v3 t0 t1 t2
    else BVHTreeNearest.no nearest.
Proof. unfold tri_nearest_point. destruct (f_lt _ _); reflexivity. Qed.

Lemma tri_nearest_point_dist_sq (index : Z) (co t0 t1 t2 : float3 F)
    (nearest : BVHTreeNearest.t F) :
  BVHTreeNearest.dist_sq (tri_nearest_point index co t0 t1 t2 nearest)
  = if f_lt (len_squared_v3v3 co (closest_on_tri_to_point_v3 co t0 t1 t2))
            (BVHTreeNearest.dist_sq nearest)
    then len_squared_v3v3 co (closest_on_tri_to_point_v3 co t0 t1 t2)
    else BVHTreeNearest.dist_sq nearest.
Proof. unfold tri_nearest_point. destruct (f_lt _ _); reflexivity. Qed.

(** C1, as amended: for a tessellated quad (v1, v2, v3, v4), v4 not 0, whose
    four vertices are in range, the legacy-face nearest-point and ray-cast
    callbacks test exactly the two triangles (v1, v2, v3) and (v1, v3, v4),
    in this order.  The normal of the nearest-point result is the normal of
    the triangle that produced the winning squared distance: of (v1, v3, v4)
    when its squared distance is strictly below the best after (v1, v2, v3),
    else of (v1, v2, v3) when that one's is strictly below the incoming
    best, else the incoming normal. *)
Theorem mesh_faces_quad_fan (data : BVHTreeFromMesh.t F) (index : Z)
    (faces : list MFace.t) (face : MFace.t) (p1 p2 p3 p4 : float3 F) :
  BVHTreeFromMesh.face data = Some faces ->
  span_get faces index = Ok face ->
  MFace.v4 face <> 0 ->
  span_get (BVHTreeFromMesh.vert_positions data) (MFace.v1 face) = Ok p1 ->
  span_get (BVHTreeFromMesh.vert_positions data) (MFace.v2 face) = Ok p2 ->
  span_get (BVHTreeFromMesh.vert_positions data) (MFace.v3 face) = Ok p3 ->
  span_get (BVHTreeFromMesh.vert_positions data) (MFace.v4 face) = Ok p4 ->
  mesh_faces_tris data index = Ok [(p1, p2, p3); (p1, p3, p4)]
  /\ (forall co nearest,
        mesh_faces_nearest_point data index co nearest
        = Ok (tri_nearest_point index co p1 p3 p4
                (tri_nearest_point index co p1 p2 p3 nearest)))
  /\ (forall ray hit,
        mesh_faces_spherecast data index ray hit
        = Ok (tri_spherecast index ray p1 p3 p4
                (tri_spherecast index ray p1 p2 p3 hit)))
  /\ (forall co nearest,
        let d1 := len_squared_v3v3 co (closest_on_tri_to_point_v3 co p1 p2 p3) in
        let d2 := len_squared_v3v3 co (closest_on_tri_to_point_v3 co p1 p3 p4) in
        let best1 :=
          if f_lt d1 (BVHTreeNearest.dist_sq nearest) then d1
          else BVHTreeNearest.dist_sq nearest in
        exists r,
          mesh_faces_nearest_point data index co nearest = Ok r
          /\ BVHTreeNearest.no r
             = if f_lt d2 best1 then normal_tri_v3 p1 p3 p4
               else if f_lt d1 (BVHTreeNearest.dist_sq nearest)
                    then normal_tri_v3 p1 p2 p3
                    else BVHTreeNearest.no nearest).
Proof.
  intros Hfaces Hface Hv4 H1 H2 H3 H4.
  pose proof (fun St body s =>
    @mesh_faces_foreach_tri_quad St body data index faces face p1 p2 p3 p4 s
      Hfaces Hface Hv4 H1 H2 H3 H4) as Hloop.
  repeat split.
  - unfold mesh_faces_tris. rewrite Hloop. reflexivity.
  - intros co nearest. unfold mesh_faces_nearest_point. apply Hloop.
  - intros ray hit. unfold mesh_faces_spherecast. apply Hloop.
  - intros co nearest d1 d2 best1.
    eexists. split; [unfold mesh_faces_nearest_point; apply Hloop |].
    rewrite tri_nearest_point_no, tri_nearest_point_dist_sq, tri_nearest_point_no.
    reflexivity.
Qed.

End FacesLoop.

Lemma mesh_faces_quad_fan_witness :
  mesh_faces_tris Samples.quad_data 0
  = Ok [(Samples.q1, Samples.q2, Samples.q3); (Samples.q1, Samples.q3, Samples.q4)]
  /\ mesh_faces_nearest_point Samples.quad_data 0 Samples.quad_query Samples.no_nearest
     = Ok (tri_nearest_point 0 Samples.quad_query Samples.q1 Samples.q3 Samples.q4
             (tri_nearest_point 0 Samples.quad_query Samples.q1 Samples.q2 Samples.q3
                Samples.no_nearest))
  /\ mesh_faces_spherecast Samples.quad_data 0 Samples.quad_ray Samples.no_hit
     = Ok (tri_spherecast 0 Samples.quad_ray Samples.q1 Samples.q3 Samples.q4
             (tri_spherecast 0 Samples.quad_ray Samples.q1 Samples.q2 Samples.q3
                Samples.no_hit)).
Proof.
  assert (Hv4 : MFace.v4 (MFace.Build 1 2 3 4) <> 0) by (simpl; lia).
  pose proof (mesh_faces_quad_fan Samples.quad_data 0
                [MFace.Build 1 2 3 4] (MFace.Build 1 2 3 4)
                Samples.q1 Samples.q2 Samples.q3 Samples.q4
                eq_refl eq_refl Hv4 eq_refl eq_refl eq_refl eq_refl)
    as (Htris & Hnearest & Hcast & _).
  split; [exact Htris |].
  split; [apply Hnearest | apply Hcast].
Defined.

(** The folded quad, run: the second triangle tested is the one of the
    vertices 1, 3, 4, not the one of the vertices 2, 3, 4; the query point
    lies on it, and the resulting normal is its normal (0, 0, 1), which is
    the normal of neither (v1, v2, v3) nor (v2, v3, v4). *)
Lemma mesh_faces_quad_not_v2_v3_v4 :
  mesh_faces_tris Samples.quad_data 0
  = Ok [(Samples.q1, Samples.q2, Samples.q3); (Samples.q1, Samples.q3, Samples.q4)]
  /\ mesh_faces_tris Samples.quad_data 0
     <> Ok [(Samples.q1, Samples.q2, Samples.q3); (Samples.q2, Samples.q3, Samples.q4)]
  /\ mesh_faces_nearest_point Samples.quad_data 0 Samples.quad_query Samples.no_nearest
     = Ok {| BVHTreeNearest.index := 0;
             BVHTreeNearest.co := Samples.quad_query;
             BVHTreeNearest.no := Samples.P 0 0 1;
             BVHTreeNearest.dist_sq := 0%float |}
  /\ normal_tri_v3 Samples.q1 Samples.q2 Samples.q3 = Samples.P 0 1 0
  /\ normal_tri_v3 Samples.q2 Samples.q3 Samples.q4 <> Samples.P 0 0 1
  /\ mesh_faces_spherecast Samples.quad_data 0 Samples.quad_ray Samples.no_hit
     = Ok {| BVHTreeRayHit.index := 0;
             BVHTreeRayHit.co := Samples.quad_query;
             BVHTreeRayHit.no := Samples.P 0 0 1;
             BVHTreeRayHit.dist := 1%float |}.
Proof.
  split; [vm_compute; reflexivity |].
  split.
  { intros H.
    apply (f_equal (fmap (fmap (M := list)
             (fun t => (Samples.decode t.1.1, Samples.decode t.1.2, Samples.decode t.2)))))
      in H.
    vm_compute in H. discriminate H. }
  split; [vm_compute; reflexivity |].
  split; [vm_compute; reflexivity |].
  split; [| vm_compute; reflexivity].
  intros H. apply (f_equal Samples.decode) in H. vm_compute in H. discriminate H.
Qed.

(** ** Nearest-point callbacks of corner triangles and edges *)

Section NearestCallbacks.
Context {F : Type} `{!BLI_math F}.

(** C7: the corner-triangle and the edge nearest-point callback overwrite
    the running best only when the candidate's squared distance is strictly
    below the best one ([<] of the scalars answers true); every field of the
    running best is left as it was otherwise.  On an update the triangle
    callback stores the normal of the triangle itself and the edge callback
    the normalized edge direction.  Whenever [<] is irreflexive, a candidate
    at exactly the best distance does not overwrite. *)
Theorem nearest_point_strict_update (data : BVHTreeFromMesh.t F) (index : Z)
    (co : float3 F) (nearest : BVHTreeNearest.t F) :
  (forall p0 p1 p2,
      corner_tri_co data index = Ok (p0, p1, p2) ->
      let nearest_tmp := closest_on_tri_to_point_v3 co p0 p1 p2 in
      let dist_sq := len_squared_v3v3 co nearest_tmp in
      (f_lt dist_sq (BVHTreeNearest.dist_sq nearest) = true ->
       mesh_corner_tris_nearest_point data index co nearest
       = Ok (BVHTreeNearest.Build index nearest_tmp (normal_tri_v3 p0 p1 p2) dist_sq))
      /\ (f_lt dist_sq (BVHTreeNearest.dist_sq nearest) = false ->
          mesh_corner_tris_nearest_point data index co nearest = Ok nearest)
      /\ ((forall x, f_lt x x = false) ->
          dist_sq = BVHTreeNearest.dist_sq nearest ->
          mesh_corner_tris_nearest_point data index co nearest = Ok nearest))
  /\ (forall edge t0 t1,
      span_get (BVHTreeFromMesh.edges data) index = Ok edge ->
      span_get (BVHTreeFromMesh.vert_positions data) (fst edge) = Ok t0 ->
      span_get (BVHTreeFromMesh.vert_positions data) (snd edge) = Ok t1 ->
      let nearest_tmp := closest_to_line_segment_v3 co t0 t1 in
      let dist_sq := len_squared_v3v3 nearest_tmp co in
      (f_lt dist_sq (BVHTreeNearest.dist_sq nearest) = true ->
       mesh_edges_nearest_point data index co nearest
       = Ok (BVHTreeNearest.Build index nearest_tmp
               (normalize_v3 (sub_v3_v3v3 t0 t1)) dist_sq))
      /\ (f_lt dist_sq (BVHTreeNearest.dist_sq nearest) = false ->
          mesh_edges_nearest_point data index co nearest = Ok nearest)
      /\ ((forall x, f_lt x x = false) ->
          dist_sq = BVHTreeNearest.dist_sq nearest ->
          mesh_edges_nearest_point data index co nearest = Ok nearest)).
Proof.
  split.
  - intros p0 p1 p2 Htri nearest_tmp dist_sq.
    assert (Hrun : mesh_corner_tris_nearest_point data index co nearest
                   = if f_lt dist_sq (BVHTreeNearest.dist_sq nearest)
                     then Ok (BVHTreeNearest.Build index nearest_tmp
                                (normal_tri_v3 p0 p1 p2) dist_sq)
                     else Ok nearest).
    { unfold mesh_corner_tris_nearest_point. rewrite Htri. reflexivity. }
    repeat split.
    + intros Hlt. rewrite Hrun, Hlt. reflexivity.
    + intros Hlt. rewrite Hrun, Hlt. reflexivity.
    + intros Hirr Heq. rewrite Hrun, Heq, Hirr. reflexivity.
  - intros edge t0 t1 Hedge Ht0 Ht1 nearest_tmp dist_sq.
    assert (Hrun : mesh_edges_nearest_point data index co nearest
                   = if f_lt dist_sq (BVHTreeNearest.dist_sq nearest)
                     then Ok (BVHTreeNearest.Build index nearest_tmp
                                (normalize_v3 (sub_v3_v3v3 t0 t1)) dist_sq)
                     else Ok nearest).
    { unfold mesh_edges_nearest_point. cbn.
      rewrite Hedge; cbn. rewrite Ht0; cbn. rewrite Ht1; cbn. reflexivity. }
    repeat split.
    + intros Hlt. rewrite Hrun, Hlt. reflexivity.
    + intros Hlt. rewrite Hrun, Hlt. reflexivity.
    + intros Hirr Heq. rewrite Hrun, Heq, Hirr. reflexivity.
Qed.

End NearestCallbacks.

(** ** Ray-cast callback of edges *)

Section EdgeSpherecast.
Context {F : Type} `{!BLI_math F}.

(** C8: on an edge whose two ends differ, the edge ray-cast callback takes
    the closest approach of the line of the edge and the line of the ray;
    it records a hit exactly when there is such an approach, the point on
    the ray is not behind the origin and strictly closer than the current
    best, and the squared distance from the clamped point of the edge to
    the point on the ray is at most the squared radius.  The hit then holds
    the index, the distance along the ray and the point on the ray.  The
    clamped point is the first end when the edge parameter is below 0, the
    second when it is above 1, the approach point itself otherwise.  An edge
    whose two ends are equal is handled as the point sphere-cast of that
    end. *)
Theorem mesh_edges_spherecast_spec (data : BVHTreeFromMesh.t F) (index : Z)
    (ray : BVHTreeRay.t F) (hit : BVHTreeRayHit.t F) (edge : Z * Z)
    (v1 v2 : float3 F) :
  span_get (BVHTreeFromMesh.edges data) index = Ok edge ->
  span_get (BVHTreeFromMesh.vert_positions data) (fst edge) = Ok v1 ->
  span_get (BVHTreeFromMesh.vert_positions data) (snd edge) = Ok v2 ->
  let r1 := BVHTreeRay.origin ray in
  let r2 := add_v3_v3v3 r1 (BVHTreeRay.direction ray) in
  let isect := fst (fst (isect_line_line_v3 v1 v2 r1 r2)) in
  let i1 := snd (fst (isect_line_line_v3 v1 v2 r1 r2)) in
  let i2 := snd (isect_line_line_v3 v1 v2 r1 r2) in
  let e_fac := line_point_factor_v3 i1 v1 v2 in
  let accepted :=
    negb (isect =? 0)
    && f_le f_zero (dot_v3v3v3 r1 i2 r2)
    && f_lt (len_v3v3 r1 i2) (BVHTreeRayHit.dist hit)
    && f_le (len_squared_v3v3 (edge_clamp i1 v1 v2) i2)
            (square_f (BVHTreeRay.radius ray)) in
  (equals_v3v3 v1 v2 = true ->
   mesh_edges_spherecast data index ray hit
   = Ok (mesh_verts_spherecast_do index v1 ray hit))
  /\ (equals_v3v3 v1 v2 = false ->
      mesh_edges_spherecast data index ray hit
      = Ok (if accepted
            then BVHTreeRayHit.Build index i2 (BVHTreeRayHit.no hit) (len_v3v3 r1 i2)
            else hit))
  /\ (f_lt e_fac f_zero = true -> edge_clamp i1 v1 v2 = v1)
  /\ (f_lt e_fac f_zero = false -> f_lt f_one e_fac = true ->
      edge_clamp i1 v1 v2 = v2)
  /\ (f_lt e_fac f_zero = false -> f_lt f_one e_fac = false ->
      edge_clamp i1 v1 v2 = i1).
Proof.
  intros Hedge Hv1 Hv2 r1 r2 isect i1 i2 e_fac accepted.
  assert (Hrun : mesh_edges_spherecast data index ray hit
                 = if equals_v3v3 v1 v2
                   then Ok (mesh_verts_spherecast_do index v1 ray hit)
                   else Ok (if accepted
                            then BVHTreeRayHit.Build index i2 (BVHTreeRayHit.no hit)
                                   (len_v3v3 r1 i2)
                            else hit)).
  { unfold mesh_edges_spherecast. cbn.
    rewrite Hedge; cbn. rewrite Hv1; cbn. rewrite Hv2; cbn.
    destruct (equals_v3v3 v1 v2); [reflexivity |].
    subst accepted e_fac i1 i2 isect r2 r1. unfold edge_clamp.
    destruct (isect_line_line_v3 _ _ _ _) as [[n a] b]; cbn.
    destruct (n =? 0); cbn; [reflexivity |].
    destruct (f_le f_zero _); cbn; [| reflexivity].
    destruct (f_lt (len_v3v3 _ _) _); cbn; [| reflexivity].
    destruct (f_lt (line_point_factor_v3 _ _ _) f_zero);
      [destruct (f_le _ _); reflexivity |].
    destruct (f_lt f_one _); destruct (f_le _ _); reflexivity. }
  repeat split.
  - intros Heq. rewrite Hrun, Heq. reflexivity.
  - intros Heq. rewrite Hrun, Heq. reflexivity.
  - intros Hlo. unfold edge_clamp. fold e_fac. rewrite Hlo. reflexivity.
  - intros Hlo Hhi. unfold edge_clamp. fold e_fac. rewrite Hlo, Hhi. reflexivity.
  - intros Hlo Hhi. unfold edge_clamp. fold e_fac. rewrite Hlo, Hhi. reflexivity.
Qed.

End EdgeSpherecast.

(** ** The float implementation on the samples *)

Lemma SFltb_irrefl (x : spec_float) : SFltb x x = false.
Proof.
  unfold SFltb, SFcompare.
  destruct x as [s | s | | s m e]; try destruct s; try reflexivity;
    rewrite Z.compare_refl, Pos.compare_cont_refl; reflexivity.
Qed.

Lemma float_ltb_irrefl (x : float) : PrimFloat.ltb x x = false.
Proof. rewrite ltb_spec. apply SFltb_irrefl. Qed.

Lemma nearest_point_strict_update_witness :
  let tie : BVHTreeNearest.t float :=
    BVHTreeNearest.Build 7 (Samples.P 5 5 5) (Samples.P 1 0 0) 4%float in
  mesh_corner_tris_nearest_point Samples.tri_data 0 (Samples.P 0.25 0.25 2)
    Samples.no_nearest
  = Ok (BVHTreeNearest.Build 0 (Samples.P 0.25 0.25 0) (Samples.P 0 0 1) 4%float)
  /\ mesh_corner_tris_nearest_point Samples.tri_data 0 (Samples.P 0.25 0.25 2) tie
     = Ok tie
  /\ mesh_edges_nearest_point Samples.edge_data 0 (Samples.P 0.5 2 0)
       Samples.no_nearest
     = Ok (BVHTreeNearest.Build 0 (Samples.P 0.5 0 0) (Samples.P (-1) 0 0) 4%float)
  /\ mesh_edges_nearest_point Samples.edge_data 0 (Samples.P 0.5 2 0) tie = Ok tie.
Proof.
  intros tie.
  destruct (nearest_point_strict_update Samples.tri_data 0 (Samples.P 0.25 0.25 2)
              Samples.no_nearest) as [Htri _].
  destruct (Htri Samples.q1 Samples.q3 Samples.q4 eq_refl) as (Hupd & _ & _).
  destruct (nearest_point_strict_update Samples.tri_data 0 (Samples.P 0.25 0.25 2)
              tie) as [Htri' _].
  destruct (Htri' Samples.q1 Samples.q3 Samples.q4 eq_refl) as (_ & _ & Htie).
  destruct (nearest_point_strict_update Samples.edge_data 0 (Samples.P 0.5 2 0)
              Samples.no_nearest) as [_ Hedge].
  destruct (Hedge (0, 1) (Samples.P 0 0 0) (Samples.P 1 0 0) eq_refl eq_refl eq_refl)
    as (Hupd_e & _ & _).
  destruct (nearest_point_strict_update Samples.edge_data 0 (Samples.P 0.5 2 0)
              tie) as [_ Hedge'].
  destruct (Hedge' (0, 1) (Samples.P 0 0 0) (Samples.P 1 0 0) eq_refl eq_refl eq_refl)
    as (_ & Hkeep_e & _).
  split; [exact (Hupd eq_refl) |].
  split; [exact (Htie float_ltb_irrefl eq_refl) |].
  split; [exact (Hupd_e eq_refl) | exact (Hkeep_e eq_refl)].
Defined.

(** The ray of the samples passes the line of edge 0 beyond its second end,
    at distance 0.5 from the line and at squared distance 1.25 from the end.
    With radius 1.5 the clamped point is within the radius and the edge is
    hit; with radius 1 it is not, although the unclamped approach is; a ray
    that already has a hit at the same distance keeps it; the edge of
    length zero is cast at as a point. *)
Lemma mesh_edges_spherecast_spec_witness :
  mesh_edges_spherecast Samples.edge_data 0 (Samples.edge_ray 1.5) Samples.no_hit
  = Ok (BVHTreeRayHit.Build 0 (Samples.P 2 0 0.5) (Samples.P 0 0 0) 1%float)
  /\ mesh_edges_spherecast Samples.edge_data 0 (Samples.edge_ray 1) Samples.no_hit
     = Ok Samples.no_hit
  /\ mesh_edges_spherecast Samples.edge_data 0 (Samples.edge_ray 1.5)
       (BVHTreeRayHit.Build 7 (Samples.P 5 5 5) (Samples.P 1 0 0) 1%float)
     = Ok (BVHTreeRayHit.Build 7 (Samples.P 5 5 5) (Samples.P 1 0 0) 1%float)
  /\ mesh_edges_spherecast Samples.edge_data 1 (Samples.edge_ray 1) Samples.no_hit
     = Ok (mesh_verts_spherecast_do 1 (Samples.P 1 0 0) (Samples.edge_ray 1)
             Samples.no_hit)
  /\ edge_clamp (Samples.P 2 0 0) (Samples.P 0 0 0) (Samples.P 1 0 0)
     = Samples.P 1 0 0.
Proof.
  pose proof (mesh_edges_spherecast_spec Samples.edge_data 0 (Samples.edge_ray 1.5)
                Samples.no_hit (0, 1) (Samples.P 0 0 0) (Samples.P 1 0 0)
                eq_refl eq_refl eq_refl) as (_ & Hwide & _ & Hclamp & _).
  pose proof (mesh_edges_spherecast_spec Samples.edge_data 0 (Samples.edge_ray 1)
                Samples.no_hit (0, 1) (Samples.P 0 0 0) (Samples.P 1 0 0)
                eq_refl eq_refl eq_refl) as (_ & Hthin & _).
  pose proof (mesh_edges_spherecast_spec Samples.edge_data 0 (Samples.edge_ray 1.5)
                (BVHTreeRayHit.Build 7 (Samples.P 5 5 5) (Samples.P 1 0 0) 1%float)
                (0, 1) (Samples.P 0 0 0) (Samples.P 1 0 0)
                eq_refl eq_refl eq_refl) as (_ & Htie & _).
  pose proof (mesh_edges_spherecast_spec Samples.edge_data 1 (Samples.edge_ray 1)
                Samples.no_hit (1, 1) (Samples.P 1 0 0) (Samples.P 1 0 0)
                eq_refl eq_refl eq_refl) as (Hpoint & _).
  split; [exact (Hwide eq_refl) |].
  split; [exact (Hthin eq_refl) |].
  split; [exact (Htie eq_refl) |].
  split; [exact (Hpoint eq_refl) | exact (Hclamp eq_refl eq_refl)].
Defined.

(** ** Stateful code: running [M] step by step *)

Section MonadFacts.
Context {F : Type}.

Lemma M_bind_Ok {A B : Type} (m : M F A) (f : A -> M F B) (w : World.t F)
    (a : A) (w1 : World.t F) :
  m w = Ok (a, w1) -> (x ← m; f x) w = f a w1.
Proof. intros H. unfold mbind, M_bind. rewrite H. reflexivity. Qed.

Lemma M_bind_inv {A B : Type} (m : M F A) (f : A -> M F B) (w : World.t F)
    (r : B * World.t F) :
  (x ← m; f x) w = Ok r -> exists a w1, m w = Ok (a, w1) /\ f a w1 = Ok r.
Proof.
  unfold mbind, M_bind. destruct (m w) as [[a w1] | e]; [| discriminate].
  intros H. exists a, w1. auto.
Qed.

Lemma lift_Ok {A : Type} (r : result A) (a : A) (w : World.t F) :
  r = Ok a -> lift r w = Ok (a, w).
Proof. intros ->. reflexivity. Qed.

Lemma lift_inv {A : Type} (r : result A) (a : A) (w w' : World.t F) :
  lift r w = Ok (a, w') -> r = Ok a /\ w' = w.
Proof. unfold lift. destruct r; [| discriminate]. intros H. inversion H. auto. Qed.

End MonadFacts.

(** ** Callbacks of a bundle *)

Section BundleCallbacks.
Context {F : Type} `{!BLI_math F}.

Lemma setup_data_callbacks (tree : option BVHTreePtr) (kind : BVHCacheType)
    (positions : list (float3 F)) (edges : list (Z * Z)) (corner_verts : list Z)
    (corner_tris : list (Z * Z * Z)) (face : option (list MFace.t))
    (data : BVHTreeFromMesh.t F) :
  bvhtree_from_mesh_setup_data tree kind positions edges corner_verts corner_tris face
  = Ok data ->
  callbacks_fit kind data.
Proof.
  intros H. destruct kind; cbn in H; inversion H; subst; clear H;
    split; cbn; intros Hk; try discriminate; try (destruct Hk; discriminate);
    split; congruence.
Qed.

Lemma setup_data_total (tree : option BVHTreePtr) (kind : BVHCacheType)
    (positions : list (float3 F)) (edges : list (Z * Z)) (corner_verts : list Z)
    (corner_tris : list (Z * Z * Z)) (face : option (list MFace.t)) :
  kind <> BVHTREE_MAX_ITEM ->
  exists data,
    bvhtree_from_mesh_setup_data tree kind positions edges corner_verts corner_tris face
    = Ok data.
Proof. intros H. destruct kind; cbn; eauto. contradiction. Qed.

(** Every getter ends in [bvhtree_from_mesh_setup_data] at its own kind. *)
Lemma get_bvh_setup_data (kind : BVHCacheType) (mesh : Mesh.t F)
    (w w' : World.t F) (data : BVHTreeFromMesh.t F) :
  get_bvh kind mesh w = Ok (data, w') ->
  exists tree positions edges corner_verts corner_tris face,
    bvhtree_from_mesh_setup_data tree kind positions edges corner_verts corner_tris face
    = Ok data.
Proof.
  intros H.
  destruct kind; cbn in H;
    try (unfold bvh_verts, bvh_edges, bvh_legacy_faces, bvh_corner_tris,
           bvh_corner_tris_no_hidden, bvh_loose_verts, bvh_loose_edges,
           bvh_loose_no_hidden_verts, bvh_loose_no_hidden_edges in H;
         repeat (apply M_bind_inv in H; destruct H as (? & ? & _ & H));
         apply lift_inv in H; destruct H as [H _]; eauto 10).
  discriminate.
Qed.

(** C10: a bundle for a vertex kind (plain, loose, loose excluding hidden)
    has a null nearest-point callback and the vertex sphere-cast callback as
    its ray-cast callback; a bundle for an edge or face kind has both
    callbacks set.  This holds of the bundle
    [bvhtree_from_mesh_setup_data] builds for the kind, which exists for
    every kind, and of every bundle the cached getters return. *)
Theorem bundle_callbacks_by_kind (kind : BVHCacheType)
    (tree : option BVHTreePtr) (positions : list (float3 F))
    (edges : list (Z * Z)) (corner_verts : list Z)
    (corner_tris : list (Z * Z * Z)) (face : option (list MFace.t)) :
  (is_vert_kind kind || is_edge_kind kind || is_face_kind kind = true ->
   exists data,
     bvhtree_from_mesh_setup_data tree kind positions edges corner_verts
       corner_tris face = Ok data
     /\ callbacks_fit kind data)
  /\ (forall mesh w w' data,
        get_bvh kind mesh w = Ok (data, w') -> callbacks_fit kind data).
Proof.
  split.
  - intros Hkind.
    destruct (setup_data_total tree kind positions edges corner_verts corner_tris face)
      as [data Hdata]; [intros ->; discriminate |].
    exists data. split; [exact Hdata |]. eapply setup_data_callbacks, Hdata.
  - intros mesh w w' data H.
    apply get_bvh_setup_data in H as (? & ? & ? & ? & ? & ? & H).
    eapply setup_data_callbacks, H.
Qed.

End BundleCallbacks.

(** ** The common pre-check of the builders *)

(** Unfolds the plumbing of [M]. *)
Ltac run_M :=
  unfold mbind, M_bind, mret, M_ret, lift, BLI_assert; cbn.

Lemma IN_RANGE_INCL_zero (c : Z) : IN_RANGE_INCL 0 0 c = true.
Proof. unfold IN_RANGE_INCL. destruct (Z.ltb_spec 0 c); lia. Qed.

Lemma IN_RANGE_INCL_spec (a c : Z) :
  0 <= c -> (IN_RANGE_INCL a 0 c = true <-> 0 <= a <= c).
Proof. intros Hc. unfold IN_RANGE_INCL. destruct (Z.ltb_spec 0 c); lia. Qed.

Section NewCommon.
Context {F : Type}.

Lemma bvhtree_new_common_zero (epsilon : F) (tree_type axis elems_num : Z)
    (elems_num_active : Z) (w : World.t F) :
  elems_num_active = 0 \/ (elems_num_active = -1 /\ elems_num = 0) ->
  bvhtree_new_common epsilon tree_type axis elems_num elems_num_active w
  = Ok ((None, 0), w).
Proof.
  intros [-> | [-> ->]]; unfold bvhtree_new_common; cbn; [| reflexivity].
  rewrite IN_RANGE_INCL_zero. reflexivity.
Qed.

Lemma bvhtree_new_common_all (epsilon : F) (tree_type axis elems_num : Z)
    (w : World.t F) :
  elems_num <> 0 ->
  bvhtree_new_common epsilon tree_type axis elems_num (-1) w
  = Ok ((Some (length (World.trees w)), elems_num),
        World.Build
          (World.trees w
           ++ [BVHTree.Build elems_num epsilon tree_type axis [] false])
          (World.runtime w)).
Proof.
  intros Hn. unfold bvhtree_new_common. run_M.
  destruct (Z.eqb_spec elems_num 0); [contradiction | reflexivity].
Qed.

Lemma bvhtree_new_common_some (epsilon : F) (tree_type axis elems_num : Z)
    (elems_num_active : Z) (w : World.t F) :
  0 < elems_num_active <= elems_num ->
  bvhtree_new_common epsilon tree_type axis elems_num elems_num_active w
  = Ok ((Some (length (World.trees w)), elems_num_active),
        World.Build
          (World.trees w
           ++ [BVHTree.Build elems_num_active epsilon tree_type axis [] false])
          (World.runtime w)).
Proof.
  intros Hn. unfold bvhtree_new_common.
  destruct (Z.eqb_spec elems_num_active (-1)); [lia |]. run_M.
  assert (H : IN_RANGE_INCL elems_num_active 0 elems_num = true)
    by (apply IN_RANGE_INCL_spec; lia).
  rewrite H; cbn.
  destruct (Z.eqb_spec elems_num_active 0); [lia | reflexivity].
Qed.

Lemma bvhtree_new_common_assert (epsilon : F) (tree_type axis elems_num : Z)
    (elems_num_active : Z) (w : World.t F) :
  elems_num_active <> -1 -> 0 <= elems_num ->
  ~ 0 <= elems_num_active <= elems_num ->
  bvhtree_new_common epsilon tree_type axis elems_num elems_num_active w
  = Abort AssertionFailed.
Proof.
  intros Hne Hn Hout. unfold bvhtree_new_common.
  destruct (Z.eqb_spec elems_num_active (-1)); [contradiction |]. run_M.
  destruct (IN_RANGE_INCL elems_num_active 0 elems_num) eqn:E; [| reflexivity].
  apply IN_RANGE_INCL_spec in E; [contradiction | assumption].
Qed.

End NewCommon.

Section ZeroActive.
Context {F : Type} `{!BLI_math F}.

(** C6: when the active count is zero (given as 0, or recomputed from a
    total of zero when -1 is passed), [bvhtree_new_common] and with it every
    builder returns a null tree handle at once, and the store of trees is as
    it was: no tree is constructed.  Balancing a null tree does nothing.  A
    given active count other than -1 passes the assertion exactly when it
    lies between 0 and the total count; outside, the builder stops at the
    assertion. *)
Theorem zero_active_null_tree (epsilon : F) (tree_type axis : Z) (w : World.t F) :
  (forall elems_num elems_num_active,
      zero_active elems_num elems_num_active ->
      bvhtree_new_common epsilon tree_type axis elems_num elems_num_active w
      = Ok ((None, 0), w))
  /\ (forall positions verts_mask verts_num_active,
        zero_active (span_size positions) verts_num_active ->
        bvhtree_from_mesh_verts_create_tree
          epsilon tree_type axis positions verts_mask verts_num_active w
        = Ok (None, w))
  /\ (forall positions edges edges_mask edges_num_active,
        zero_active (span_size edges) edges_num_active ->
        bvhtree_from_mesh_edges_create_tree
          positions edges edges_mask edges_num_active epsilon tree_type axis w
        = Ok (None, w))
  /\ (forall positions face faces_num faces_mask faces_num_active,
        zero_active faces_num faces_num_active ->
        bvhtree_from_mesh_faces_create_tree
          epsilon tree_type axis positions face faces_num faces_mask
          faces_num_active w
        = Ok (None, w))
  /\ (forall positions corner_verts corner_tris corner_tris_mask
             corner_tris_num_active,
        zero_active (span_size corner_tris) corner_tris_num_active ->
        bvhtree_from_mesh_corner_tris_create_tree
          epsilon tree_type axis positions corner_verts corner_tris
          corner_tris_mask corner_tris_num_active w
        = Ok (None, w))
  /\ (forall positions r_data,
        exists r,
          BKE_bvhtree_from_pointcloud_get positions [] r_data w = Ok (r, w)
          /\ pc_tree r = None)
  /\ (forall mesh,
        Mesh.verts_num mesh <> 0 ->
        exists r,
          BKE_bvhtree_from_mesh_verts_init mesh [] w = Ok (r, w)
          /\ BVHTreeFromMesh.tree r = None)
  /\ (forall mesh,
        Mesh.edges_num mesh <> 0 ->
        exists r,
          BKE_bvhtree_from_mesh_edges_init mesh [] w = Ok (r, w)
          /\ BVHTreeFromMesh.tree r = None)
  /\ (forall mesh,
        Mesh.faces_num mesh <> 0 ->
        exists r,
          BKE_bvhtree_from_mesh_tris_init mesh [] w = Ok (r, w)
          /\ BVHTreeFromMesh.tree r = None)
  /\ bvhtree_balance None w = Ok (tt, w)
  /\ (forall elems_num elems_num_active,
        elems_num_active <> -1 -> 0 <= elems_num ->
        (0 <= elems_num_active <= elems_num ->
         exists r, bvhtree_new_common
                     epsilon tree_type axis elems_num elems_num_active w = Ok r)
        /\ (~ 0 <= elems_num_active <= elems_num ->
            bvhtree_new_common epsilon tree_type axis elems_num elems_num_active w
            = Abort AssertionFailed)).
Proof.
  split; [intros; apply bvhtree_new_common_zero; assumption |].
  split.
  { intros positions verts_mask verts_num_active Hz.
    unfold bvhtree_from_mesh_verts_create_tree.
    erewrite M_bind_Ok by (apply bvhtree_new_common_zero; exact Hz).
    reflexivity. }
  split.
  { intros positions edges edges_mask edges_num_active Hz.
    unfold bvhtree_from_mesh_edges_create_tree.
    erewrite M_bind_Ok by (apply bvhtree_new_common_zero; exact Hz).
    reflexivity. }
  split.
  { intros positions face faces_num faces_mask faces_num_active Hz.
    unfold bvhtree_from_mesh_faces_create_tree.
    erewrite M_bind_Ok by (apply bvhtree_new_common_zero; exact Hz).
    reflexivity. }
  split.
  { intros positions corner_verts corner_tris corner_tris_mask n Hz.
    unfold bvhtree_from_mesh_corner_tris_create_tree.
    destruct positions; [reflexivity |].
    erewrite M_bind_Ok by (apply bvhtree_new_common_zero; exact Hz).
    reflexivity. }
  split.
  { intros positions r_data.
    unfold BKE_bvhtree_from_pointcloud_get.
    erewrite M_bind_Ok
      by (apply bvhtree_new_common_zero; right; split; reflexivity).
    eexists. split; reflexivity. }
  split.
  { intros mesh Hn. unfold BKE_bvhtree_from_mesh_verts_init.
    change (span_size []) with 0.
    destruct (Z.eqb_spec 0 (Mesh.verts_num mesh)); [congruence |].
    eexists. split; reflexivity. }
  split.
  { intros mesh Hn. unfold BKE_bvhtree_from_mesh_edges_init.
    change (span_size []) with 0.
    destruct (Z.eqb_spec 0 (Mesh.edges_num mesh)); [congruence |].
    eexists. split; reflexivity. }
  split.
  { intros mesh Hn. unfold BKE_bvhtree_from_mesh_tris_init.
    change (span_size []) with 0.
    destruct (Z.eqb_spec 0 (Mesh.faces_num mesh)); [congruence |].
    eexists. split; reflexivity. }
  split; [reflexivity |].
  intros elems_num elems_num_active Hne Hn. split.
  - intros Hin. destruct (Z.eq_dec elems_num_active 0) as [-> | Hnz].
    + eexists. apply bvhtree_new_common_zero. left. reflexivity.
    + eexists. apply bvhtree_new_common_some. lia.
  - intros Hout. apply bvhtree_new_common_assert; assumption.
Qed.

End ZeroActive.

Lemma zero_active_null_tree_witness :
  let w := World.init float in
  let positions := Mesh.vert_positions Samples.mesh in
  bvhtree_from_mesh_verts_create_tree 0%float 2 6 positions
    (replicate 8 false) 0 w = Ok (None, w)
  /\ bvhtree_from_mesh_verts_create_tree 0%float 2 6 [] [] (-1) w = Ok (None, w)
  /\ bvhtree_from_mesh_edges_create_tree positions [] [] (-1) 0%float 2 6 w
     = Ok (None, w)
  /\ bvhtree_from_mesh_faces_create_tree 0%float 2 6 positions None 0 [] (-1) w
     = Ok (None, w)
  /\ bvhtree_from_mesh_corner_tris_create_tree 0%float 2 6 positions [] [] [] (-1) w
     = Ok (None, w)
  /\ bvhtree_new_common 0%float 2 6 8 9 w = Abort AssertionFailed
  /\ bvhtree_new_common 0%float 2 6 8 (-2) w = Abort AssertionFailed.
Proof.
  intros w positions.
  destruct (zero_active_null_tree 0%float 2 6 w)
    as (_ & Hverts & Hedges & Hfaces & Htris & _ & _ & _ & _ & _ & Hassert).
  split; [apply Hverts; left; reflexivity |].
  split; [apply (Hverts [] [] (-1)); right; split; reflexivity |].
  split; [apply (Hedges positions [] [] (-1)); right; split; reflexivity |].
  split; [apply Hfaces; right; split; reflexivity |].
  split; [apply (Htris positions [] [] [] (-1)); right; split; reflexivity |].
  split.
  - apply (Hassert 8 9); [discriminate | discriminate |].
    intros [_ H]. apply H. reflexivity.
  - apply (Hassert 8 (-2)); [discriminate | discriminate |].
    intros [H _]. apply H. reflexivity.
Defined.

(** ** Masks *)

Lemma count_true_nonneg (mask : list bool) : 0 <= count_true mask.
Proof. induction mask as [| [] mask IH]; simpl; lia. Qed.

Lemma count_true_replicate (n : nat) : count_true (replicate n true) = Z.of_nat n.
Proof. induction n as [| n IH]; simpl replicate; simpl count_true; lia. Qed.

Lemma count_true_insert_false (mask : list bool) (i : nat) :
  mask !! i = Some true ->
  count_true (<[i := false]> mask) = count_true mask - 1.
Proof.
  revert i. induction mask as [| b mask IH]; intros [| i] H; simpl in *;
    try discriminate.
  - inversion H; subst. lia.
  - rewrite IH by assumption. lia.
Qed.

Lemma count_true_zero (mask : list bool) (i : nat) :
  count_true mask = 0 -> mask !! i <> Some true.
Proof.
  revert i. induction mask as [| b mask IH]; intros [| i] H; simpl in *;
    try discriminate.
  - destruct b; [| discriminate]. pose proof (count_true_nonneg mask). lia.
  - apply IH. pose proof (count_true_nonneg mask). destruct b; lia.
Qed.

Lemma lookup_insert_false (mask : list bool) (i v : nat) :
  <[i := false]> mask !! v = Some true <-> v <> i /\ mask !! v = Some true.
Proof.
  destruct (decide (v = i)) as [-> | Hne].
  - split; [| tauto]. intros H.
    destruct (decide (i < length mask)%nat) as [Hlt | Hge].
    + rewrite list_lookup_insert_eq in H by assumption. discriminate.
    + rewrite list_insert_ge in H by lia. apply lookup_lt_Some in H. lia.
  - rewrite list_lookup_insert_ne by congruence. tauto.
Qed.

Lemma mask_reset_run (mask : list bool) (i : Z) :
  0 <= i < span_size mask ->
  mask_reset (mask, count_true mask) i
  = Ok (<[Z.to_nat i := false]> mask, count_true (<[Z.to_nat i := false]> mask)).
Proof.
  intros Hi. unfold mask_reset; cbn.
  destruct (span_get_in_range mask i Hi) as [b Hb]. rewrite Hb; cbn.
  apply span_get_Ok in Hb as [_ Hb]. destruct b.
  - rewrite (count_true_insert_false _ _ Hb). reflexivity.
  - rewrite list_insert_id by assumption. reflexivity.
Qed.

(** A loop that only fails, by an invariant over the elements done. *)
Lemma fold_result_invariant {A St : Type} (f : St -> A -> result St)
    (Inv : list A -> St -> Prop) (l : list A) :
  (forall done x s, In x l -> Inv done s ->
     exists s', f s x = Ok s' /\ Inv (done ++ [x]) s') ->
  forall pre s, Inv pre s ->
  exists s', fold_result f l s = Ok s' /\ Inv (pre ++ l) s'.
Proof.
  induction l as [| x l IH]; intros Hstep pre s Hinv.
  - exists s. rewrite app_nil_r. auto.
  - destruct (Hstep pre x s (or_introl eq_refl) Hinv) as (s1 & Hf & Hinv1).
    destruct (IH (fun done y s0 Hy => Hstep done y s0 (or_intror Hy))
                 (pre ++ [x]) s1 Hinv1) as (s' & Hfold & Hinv').
    exists s'. split.
    + simpl. rewrite Hf. exact Hfold.
    + rewrite <- app_assoc in Hinv'. exact Hinv'.
Qed.

Lemma elem_of_index_range {A : Type} (s : list A) (i : Z) :
  In i (index_range s) <-> 0 <= i < span_size s.
Proof.
  unfold index_range, span_size. rewrite <- list_elem_of_In, list_elem_of_fmap. split.
  - intros (k & -> & Hk). apply elem_of_seq in Hk. lia.
  - intros Hi. exists (Z.to_nat i). split; [lia |]. apply elem_of_seq. lia.
Qed.

Lemma varray_get_total {A : Type} (attribute : option (list A)) (n : Z)
    (d : A) (i : Z) :
  attribute_fits attribute n -> 0 <= i < n ->
  exists a, varray_get (lookup_or_default attribute n d) i = Ok a.
Proof.
  intros Hfit Hi. destruct attribute as [data |]; cbn in *.
  - apply span_get_in_range. lia.
  - exists d. destruct (Z.leb_spec 0 i); [| lia].
    destruct (Z.ltb_spec i n); [reflexivity | lia].
Qed.

Section LooseVertsMask.
Context {F : Type}.

Lemma loose_verts_first_pass (mesh : Mesh.t F) :
  edges_in_range mesh ->
  attribute_fits (Mesh.hide_edge mesh) (Mesh.edges_num mesh) ->
  let hide_edge :=
    lookup_or_default (Mesh.hide_edge mesh) (Mesh.edges_num mesh) false in
  exists mask,
    fold_result (fun st i =>
        hidden ← varray_get hide_edge i;
        if (hidden : bool) then Ok st
        else
          edge ← span_get (Mesh.edges mesh) i;
          fold_result mask_reset [fst edge; snd edge] st)
      (index_range (Mesh.edges mesh))
      (replicate (Z.to_nat (Mesh.verts_num mesh)) true, Mesh.verts_num mesh)
    = Ok (mask, count_true mask)
    /\ span_size mask = Mesh.verts_num mesh
    /\ forall v : nat,
         mask !! v = Some true
         <-> (Z.of_nat v < Mesh.verts_num mesh
              /\ ~ touched_by_visible_edge mesh (Z.of_nat v)).
Proof.
  intros Hrange Hfit hide_edge.
  set (n := Mesh.verts_num mesh).
  set (step := fun (st : list bool * Z) (i : Z) => _).
  set (Inv := fun (done : list Z) (st : list bool * Z) =>
    span_size (fst st) = n /\ snd st = count_true (fst st)
    /\ forall v : nat,
         fst st !! v = Some true
         <-> (Z.of_nat v < n
              /\ ~ exists i, In i done /\ visible_edge_at mesh i (Z.of_nat v))).
  assert (Hn : 0 <= n) by (unfold n, Mesh.verts_num, span_size; lia).
  destruct (fold_result_invariant step Inv (index_range (Mesh.edges mesh)))
    with (pre := @nil Z) (s := (replicate (Z.to_nat n) true, n))
    as ([mask count] & Hfold & Hlen & Hcount & Hbits).
  - (* one edge *)
    intros done i [mask count] Hi (Hlen & Hcount & Hbits); cbn in Hlen, Hcount, Hbits.
    subst count. apply elem_of_index_range in Hi.
    destruct (varray_get_total (Mesh.hide_edge mesh) (Mesh.edges_num mesh) false i
                Hfit Hi) as [hidden Hhidden].
    destruct (span_get_in_range (Mesh.edges mesh) i Hi) as [edge Hedge].
    unfold step. fold hide_edge in Hhidden. rewrite Hhidden; cbn.
    destruct hidden.
    + exists (mask, count_true mask). split; [reflexivity |].
      split; [exact Hlen |]. split; [reflexivity |]. cbn.
      intros v. rewrite Hbits. split; intros [Hv Hno]; split; try exact Hv.
      * intros (j & Hj & Hvis). apply in_app_or in Hj as [Hj | [<- | []]].
        -- apply Hno. eauto.
        -- destruct Hvis as (e & _ & Hvis & _). unfold edge_hidden in Hvis.
           fold hide_edge in Hvis. congruence.
      * intros (j & Hj & Hvis). apply Hno. exists j. split; [| exact Hvis].
        apply in_or_app. auto.
    + rewrite Hedge; cbn.
      assert (Hin : In edge (Mesh.edges mesh)).
      { apply span_get_Ok in Hedge as [_ Hedge].
        apply list_elem_of_In. eapply list_elem_of_lookup_2, Hedge. }
      destruct (Hrange edge Hin) as [Ha Hb]. fold n in Ha, Hb.
      rewrite mask_reset_run by lia. cbn.
      rewrite mask_reset_run by (unfold span_size in *; rewrite length_insert; lia).
      cbn. eexists. split; [reflexivity |].
      split; [unfold span_size in *; cbn; rewrite !length_insert; exact Hlen |].
      split; [reflexivity |]. cbn.
      intros v. rewrite !lookup_insert_false, Hbits.
      split.
      * intros (Hvb & Hva & Hv & Hno). split; [exact Hv |].
        intros (j & Hj & Hvis). apply in_app_or in Hj as [Hj | [<- | []]].
        -- apply Hno. eauto.
        -- destruct Hvis as (e & He & _ & Hends).
           rewrite Hedge in He. inversion He; subst e. lia.
      * intros (Hv & Hno).
        assert (Hends : ~ (fst edge = Z.of_nat v \/ snd edge = Z.of_nat v)).
        { intros Hends. apply Hno. exists i. split; [apply in_or_app; simpl; auto |].
          exists edge. auto. }
        split; [lia |]. split; [lia |]. split; [exact Hv |].
        intros (j & Hj & Hvis). apply Hno. exists j. split; [| exact Hvis].
        apply in_or_app. auto.
  - (* before the loop *)
    unfold Inv; cbn. split; [unfold span_size; rewrite length_replicate; lia |].
    split; [rewrite count_true_replicate; lia |].
    intros v. rewrite lookup_replicate. split.
    + intros [_ Hv]. split; [lia |]. intros (j & [] & _).
    + intros [Hv _]. split; [reflexivity | lia].
  - cbn in Hlen, Hcount, Hbits. subst count. exists mask.
    split; [exact Hfold |]. split; [exact Hlen |].
    intros v. rewrite Hbits. split; intros [Hv Hno]; split; try exact Hv.
    + intros (i & Hvis). apply Hno. exists i. split; [| exact Hvis].
      destruct Hvis as (e & He & _). apply elem_of_index_range.
      apply span_get_Ok in He as [H0 He]. apply lookup_lt_Some in He.
      unfold span_size. lia.
    + intros (i & _ & Hvis). apply Hno. exists i. exact Hvis.
Qed.

Lemma mask_reset_hidden_run (hide : VArray bool) (mask : list bool) (v : Z)
    (h : bool) :
  0 <= v < span_size mask ->
  varray_get hide v = Ok h ->
  exists mask',
    mask_reset_hidden hide (mask, count_true mask) v = Ok (mask', count_true mask')
    /\ length mask' = length mask
    /\ forall u : nat,
         mask' !! u = Some true
         <-> mask !! u = Some true /\ ~ (u = Z.to_nat v /\ h = true).
Proof.
  intros Hv Hh. unfold mask_reset_hidden; cbn.
  destruct (span_get_in_range mask v Hv) as [b Hb]. rewrite Hb; cbn.
  apply span_get_Ok in Hb as [_ Hb]. destruct b.
  - rewrite Hh; cbn. destruct h.
    + eexists. split; [rewrite (count_true_insert_false _ _ Hb); reflexivity |].
      split; [apply length_insert |].
      intros u. rewrite lookup_insert_false. tauto.
    + exists mask. split; [reflexivity |]. split; [reflexivity |].
      intros u. split; [| tauto]. intros H. split; [exact H |].
      intros [_ H']. discriminate.
  - exists mask. split; [reflexivity |]. split; [reflexivity |].
    intros u. split; [| tauto]. intros H. split; [exact H |].
    intros [-> _]. congruence.
Qed.

Lemma loose_verts_second_pass (mesh : Mesh.t F) (mask : list bool) :
  attribute_fits (Mesh.hide_vert mesh) (Mesh.verts_num mesh) ->
  span_size mask = Mesh.verts_num mesh ->
  let hide_vert :=
    lookup_or_default (Mesh.hide_vert mesh) (Mesh.verts_num mesh) false in
  exists mask',
    fold_result (mask_reset_hidden hide_vert) (index_range mask)
      (mask, count_true mask)
    = Ok (mask', count_true mask')
    /\ span_size mask' = Mesh.verts_num mesh
    /\ forall v : nat,
         mask' !! v = Some true
         <-> mask !! v = Some true /\ vert_hidden mesh (Z.of_nat v) = Ok false.
Proof.
  intros Hfit Hlen hide_vert.
  set (n := Mesh.verts_num mesh) in *.
  set (Inv := fun (done : list Z) (st : list bool * Z) =>
    span_size (fst st) = n /\ snd st = count_true (fst st)
    /\ forall v : nat,
         fst st !! v = Some true
         <-> mask !! v = Some true
             /\ ~ (In (Z.of_nat v) done /\ vert_hidden mesh (Z.of_nat v) = Ok true)).
  destruct (fold_result_invariant (mask_reset_hidden hide_vert) Inv (index_range mask))
    with (pre := @nil Z) (s := (mask, count_true mask))
    as ([mask' count] & Hfold & Hlen' & Hcount & Hbits).
  - intros done v [m count] Hv (Hm & Hcount & Hbits); cbn in Hm, Hcount, Hbits.
    subst count. apply elem_of_index_range in Hv. rewrite Hlen in Hv.
    destruct (varray_get_total (Mesh.hide_vert mesh) n false v Hfit Hv) as [h Hh].
    fold hide_vert in Hh.
    destruct (mask_reset_hidden_run hide_vert m v h) as (m' & Hrun & Hlen' & Hm');
      [lia | exact Hh |].
    exists (m', count_true m'). split; [exact Hrun |].
    split; [cbn; unfold span_size in *; lia |]. split; [reflexivity |]. cbn.
    intros u. rewrite Hm', Hbits. split.
    + intros [[Hu Hno] Hnew]. split; [exact Hu |].
      intros [Hin Hhid]. apply in_app_or in Hin as [Hin | [Heq | []]].
      * apply Hno. auto.
      * apply Hnew. subst v. rewrite Nat2Z.id. split; [reflexivity |].
        unfold vert_hidden in Hhid. fold n hide_vert in Hhid. congruence.
    + intros [Hu Hno]. split; [split; [exact Hu |] |].
      * intros [Hin Hhid]. apply Hno. split; [apply in_or_app; auto | exact Hhid].
      * intros [-> ->]. apply Hno. rewrite Z2Nat.id by lia.
        split; [apply in_or_app; simpl; auto | exact Hh].
  - unfold Inv; cbn. split; [exact Hlen |]. split; [reflexivity |].
    intros v. split; [| tauto]. intros H. split; [exact H |]. intros [[] _].
  - cbn in Hlen', Hcount, Hbits. subst count. exists mask'.
    split; [exact Hfold |]. split; [exact Hlen' |].
    intros v. rewrite Hbits. split.
    + intros [Hv Hno]. split; [exact Hv |].
      assert (Hin : 0 <= Z.of_nat v < n).
      { apply lookup_lt_Some in Hv. unfold span_size in Hlen. lia. }
      destruct (varray_get_total (Mesh.hide_vert mesh) n false (Z.of_nat v) Hfit Hin)
        as [[] Hh]; [| exact Hh].
      exfalso. apply Hno. split; [| exact Hh].
      apply elem_of_index_range. lia.
    + intros [Hv Hvis]. split; [exact Hv |]. intros [_ Hhid]. congruence.
Qed.

(** C5: on a mesh whose edges join vertices of the mesh and whose stored
    hide attributes have one value per element, the derivation of the
    loose-vertex-excluding-hidden mask returns a mask with one bit per
    vertex together with the number of its set bits.  A vertex that a
    non-hidden edge touches is never active, whatever its own hidden flag; a
    vertex that no non-hidden edge touches and that is not hidden itself is
    active; and no other vertex is.  (All vertices start active, the first
    pass clears both ends of every non-hidden edge, and the second pass,
    which runs only if a vertex is left, clears the hidden ones.) *)
Theorem loose_verts_no_hidden_mask_spec (mesh : Mesh.t F) :
  edges_in_range mesh ->
  attribute_fits (Mesh.hide_edge mesh) (Mesh.edges_num mesh) ->
  attribute_fits (Mesh.hide_vert mesh) (Mesh.verts_num mesh) ->
  exists mask count,
    loose_verts_no_hidden_mask_get mesh = Ok (mask, count)
    /\ span_size mask = Mesh.verts_num mesh
    /\ count = count_true mask
    /\ forall v, 0 <= v < Mesh.verts_num mesh ->
         (touched_by_visible_edge mesh v -> mask !! Z.to_nat v = Some false)
         /\ (~ touched_by_visible_edge mesh v -> vert_hidden mesh v = Ok false ->
             mask !! Z.to_nat v = Some true)
         /\ (mask !! Z.to_nat v = Some true ->
             ~ touched_by_visible_edge mesh v /\ vert_hidden mesh v = Ok false).
Proof.
  intros Hrange Hfit_e Hfit_v.
  destruct (loose_verts_first_pass mesh Hrange Hfit_e) as (mask1 & Hpass1 & Hlen1 & Hbits1).
  destruct (loose_verts_second_pass mesh mask1 Hfit_v Hlen1)
    as (mask2 & Hpass2 & Hlen2 & Hbits2).
  assert (Hfinal : exists mask,
    loose_verts_no_hidden_mask_get mesh = Ok (mask, count_true mask)
    /\ span_size mask = Mesh.verts_num mesh
    /\ forall v : nat,
         mask !! v = Some true
         <-> (Z.of_nat v < Mesh.verts_num mesh
              /\ ~ touched_by_visible_edge mesh (Z.of_nat v))
             /\ vert_hidden mesh (Z.of_nat v) = Ok false).
  { unfold loose_verts_no_hidden_mask_get. cbv zeta.
    rewrite Hpass1; cbn.
    destruct (Z.eqb_spec (count_true mask1) 0) as [Hzero | Hsome]; cbn.
    - exists mask1. split; [reflexivity |]. split; [exact Hlen1 |].
      intros v. split.
      + intros Hv. exfalso. eapply count_true_zero; eassumption.
      + intros [Hv _]. apply Hbits1 in Hv.
        exfalso. eapply count_true_zero; eassumption.
    - exists mask2. split; [exact Hpass2 |]. split; [exact Hlen2 |].
      intros v. rewrite Hbits2, Hbits1. tauto. }
  destruct Hfinal as (mask & Hrun & Hlen & Hbits).
  exists mask, (count_true mask).
  split; [exact Hrun |]. split; [exact Hlen |]. split; [reflexivity |].
  intros v Hv.
  assert (Hbits' := Hbits (Z.to_nat v)). rewrite Z2Nat.id in Hbits' by lia.
  split; [| split].
  - intros Htouched.
    destruct (lookup_lt_is_Some_2 mask (Z.to_nat v)) as [b Hb];
      [unfold span_size in Hlen; lia |].
    destruct b; [| exact Hb]. apply Hbits' in Hb. tauto.
  - intros Hloose Hvis. apply Hbits'. split; [split; [lia | exact Hloose] | exact Hvis].
  - intros Hb. apply Hbits' in Hb. tauto.
Qed.

End LooseVertsMask.

Example loose_verts_no_hidden_mask_sample :
  loose_verts_no_hidden_mask_get Samples.mesh
  = Ok ([false; false; false; false; false; false; false; true], 1)
  /\ loose_verts_no_hidden_mask_get Samples.mesh_all_visible
     = Ok ([false; false; false; false; false; false; false; true], 1).
Proof. split; reflexivity. Qed.

Lemma sample_edges_in_range : edges_in_range Samples.mesh.
Proof.
  intros edge Hin. cbn in Hin.
  repeat (destruct Hin as [<- | Hin];
          [unfold Mesh.verts_num, span_size; cbn; lia |]).
  destruct Hin.
Defined.

Lemma loose_verts_no_hidden_mask_spec_witness :
  exists mask count,
    loose_verts_no_hidden_mask_get Samples.mesh = Ok (mask, count)
    /\ span_size mask = Mesh.verts_num Samples.mesh
    /\ count = count_true mask
    /\ forall v, 0 <= v < Mesh.verts_num Samples.mesh ->
         (touched_by_visible_edge Samples.mesh v -> mask !! Z.to_nat v = Some false)
         /\ (~ touched_by_visible_edge Samples.mesh v ->
             vert_hidden Samples.mesh v = Ok false ->
             mask !! Z.to_nat v = Some true)
         /\ (mask !! Z.to_nat v = Some true ->
             ~ touched_by_visible_edge Samples.mesh v
             /\ vert_hidden Samples.mesh v = Ok false).
Proof.
  apply (loose_verts_no_hidden_mask_spec Samples.mesh sample_edges_in_range).
  - reflexivity.
  - reflexivity.
Defined.

(** ** Trees over face subsets *)

Lemma result_bind_inv {A B : Type} (m : result A) (f : A -> result B) (b : B) :
  (x ← m; f x) = Ok b -> exists a, m = Ok a /\ f a = Ok b.
Proof. destruct m as [a | e]; [| discriminate]. cbn. eauto. Qed.

Lemma map_result_cons_inv {A B : Type} (f : A -> result B) (x : A) (l : list A)
    (ys : list B) :
  map_result f (x :: l) = Ok ys ->
  exists y ys', f x = Ok y /\ map_result f l = Ok ys' /\ ys = y :: ys'.
Proof.
  cbn. intros H.
  apply result_bind_inv in H as (y & Hy & H).
  apply result_bind_inv in H as (ys' & Hys & H).
  inversion H. eauto 6.
Qed.

Lemma map_result_length {A B : Type} (f : A -> result B) (l : list A)
    (ys : list B) :
  map_result f l = Ok ys -> length ys = length l.
Proof.
  revert ys. induction l as [| x l IH]; intros ys H.
  - inversion H. reflexivity.
  - apply map_result_cons_inv in H as (y & ys' & _ & H & ->).
    simpl. f_equal. apply IH, H.
Qed.

Lemma IndexRange_length (start size : Z) :
  length (IndexRange start size) = Z.to_nat size.
Proof. unfold IndexRange. rewrite length_fmap, length_seq. reflexivity. Qed.

Section TrisInit.
Context {F : Type} `{!BLI_math F}.

Lemma with_leafs_nil (t : BVHTree.t F) : with_leafs t (BVHTree.leafs t ++ []) = t.
Proof. destruct t. unfold with_leafs; cbn. rewrite app_nil_r. reflexivity. Qed.

Lemma insert_last {A : Type} (l : list A) (x y : A) :
  <[length l := y]> (l ++ [x]) = l ++ [y].
Proof.
  rewrite insert_app_r_alt by lia. rewrite Nat.sub_diag. reflexivity.
Qed.

Lemma lookup_last {A : Type} (l : list A) (x : A) :
  (l ++ [x]) !! length l = Some x.
Proof. rewrite lookup_app_r by lia. rewrite Nat.sub_diag. reflexivity. Qed.

(** Inserting into the tree allocated last. *)
Lemma BLI_bvhtree_insert_last (ts : list (BVHTree.t F)) (t : BVHTree.t F)
    (rt : MeshRuntime.t) (index : Z) (co : list (float3 F)) :
  BLI_bvhtree_insert (length ts) index co (World.Build (ts ++ [t]) rt)
  = Ok (tt, World.Build
              (ts ++ [with_leafs t (BVHTree.leafs t ++ [(index, co)])]) rt).
Proof.
  unfold BLI_bvhtree_insert, update_tree; cbn.
  rewrite lookup_last, insert_last. reflexivity.
Qed.

Lemma BLI_bvhtree_balance_last (ts : list (BVHTree.t F)) (t : BVHTree.t F)
    (rt : MeshRuntime.t) :
  BLI_bvhtree_balance (length ts) (World.Build (ts ++ [t]) rt)
  = Ok (tt, World.Build
              (ts ++ [BVHTree.Build (BVHTree.maxsize t) (BVHTree.epsilon t)
                        (BVHTree.tree_type t) (BVHTree.axis t)
                        (BVHTree.leafs t) true]) rt).
Proof.
  unfold BLI_bvhtree_balance, update_tree; cbn.
  rewrite lookup_last, insert_last. reflexivity.
Qed.

(** The inner loop: the triangles of one face. *)
Lemma insert_triangles_run (mesh : Mesh.t F) (range : list Z)
    (items : list (Z * list (float3 F))) (ts : list (BVHTree.t F))
    (t : BVHTree.t F) (rt : MeshRuntime.t) :
  map_result (fun tri_i =>
      co ← corner_tri_points (Mesh.vert_positions mesh) (Mesh.corner_verts mesh)
             (Mesh.corner_tris mesh) tri_i;
      Ok (tri_i, co)) range = Ok items ->
  for_each range (fun tri_i =>
      co ← lift (corner_tri_points (Mesh.vert_positions mesh)
                   (Mesh.corner_verts mesh) (Mesh.corner_tris mesh) tri_i);
      BLI_bvhtree_insert (length ts) tri_i co)
    (World.Build (ts ++ [t]) rt)
  = Ok (tt, World.Build (ts ++ [with_leafs t (BVHTree.leafs t ++ items)]) rt).
Proof.
  revert items t. induction range as [| tri_i range IH]; intros items t H.
  - inversion H. rewrite with_leafs_nil. reflexivity.
  - apply map_result_cons_inv in H as (y & items' & Hy & Hrest & ->).
    apply result_bind_inv in Hy as (co & Hco & Hy). inversion Hy; subst y.
    cbn [for_each].
    erewrite M_bind_Ok.
    2: { erewrite M_bind_Ok by (apply lift_Ok, Hco).
         apply BLI_bvhtree_insert_last. }
    rewrite (IH items' _ Hrest).
    unfold with_leafs; cbn. rewrite <- app_assoc. reflexivity.
Qed.

(** The outer loop: the faces of the subset. *)
Lemma insert_faces_run (mesh : Mesh.t F) (faces_mask : list Z)
    (leafs : list (list (Z * list (float3 F)))) (ts : list (BVHTree.t F))
    (t : BVHTree.t F) (rt : MeshRuntime.t) :
  map_result (face_triangle_leafs mesh) faces_mask = Ok leafs ->
  for_each faces_mask (fun face_i =>
      triangles_range ← lift (face_triangles_range (Mesh.face_offsets mesh) face_i);
      for_each triangles_range (fun tri_i =>
        co ← lift (corner_tri_points (Mesh.vert_positions mesh)
                     (Mesh.corner_verts mesh) (Mesh.corner_tris mesh) tri_i);
        BLI_bvhtree_insert (length ts) tri_i co))
    (World.Build (ts ++ [t]) rt)
  = Ok (tt, World.Build (ts ++ [with_leafs t (BVHTree.leafs t ++ concat leafs)]) rt).
Proof.
  revert leafs t. induction faces_mask as [| face_i faces_mask IH]; intros leafs t H.
  - inversion H. cbn [concat]. rewrite with_leafs_nil. reflexivity.
  - apply map_result_cons_inv in H as (items & leafs' & Hface & Hrest & ->).
    unfold face_triangle_leafs in Hface.
    apply result_bind_inv in Hface as (range & Hrange & Hitems).
    cbn [for_each].
    erewrite M_bind_Ok.
    2: { erewrite M_bind_Ok by (apply lift_Ok, Hrange).
         apply insert_triangles_run, Hitems. }
    rewrite (IH leafs' _ Hrest).
    unfold with_leafs; cbn. rewrite <- app_assoc. reflexivity.
Qed.

(** The count of triangles the subset is sized with. *)
Lemma tris_num_run (mesh : Mesh.t F) (faces_mask : list Z)
    (leafs : list (list (Z * list (float3 F)))) (acc : Z) :
  faces_have_triangles mesh faces_mask ->
  map_result (face_triangle_leafs mesh) faces_mask = Ok leafs ->
  fold_result (fun tris_num i =>
      face ← offsets_range (Mesh.face_offsets mesh) i;
      Ok (tris_num + face_triangles_num (snd face)))
    faces_mask acc
  = Ok (acc + Z.of_nat (length (concat leafs))).
Proof.
  revert leafs acc. induction faces_mask as [| face_i faces_mask IH];
    intros leafs acc Hvalid H.
  - inversion H. cbn. f_equal. lia.
  - apply map_result_cons_inv in H as (items & leafs' & Hface & Hrest & ->).
    unfold face_triangle_leafs, face_triangles_range in Hface.
    apply result_bind_inv in Hface as (range & Hrange & Hitems).
    apply result_bind_inv in Hrange as (face & Hface & Hrange).
    inversion Hrange; subst range; clear Hrange.
    apply map_result_length in Hitems. rewrite IndexRange_length in Hitems.
    pose proof (Hvalid face_i face (or_introl eq_refl) Hface) as Hsize.
    cbn [fold_result]. rewrite Hface; cbn.
    rewrite (IH leafs' _ (fun i f Hi => Hvalid i f (or_intror Hi)) Hrest).
    f_equal. cbn [concat]. rewrite length_app. unfold face_triangles_num in *. lia.
Qed.

Lemma concat_nil_length {A : Type} (l : list A) : length l = 0%nat -> l = [].
Proof. destruct l; [reflexivity | discriminate]. Qed.

(** C9: when the subset has as many faces as the mesh, the operation is the
    cached triangulated-face tree.  Otherwise, on a subset whose faces have
    at least three corners and whose triangles and corners are in range, it
    returns a bundle whose tree is owned by the bundle, leaves the cache of
    the mesh as it was, and puts into the tree exactly the triangles of the
    listed faces, face after face, each face expanded to its triangle range
    and each triangle under its index in [corner_tris].  The tree is a new
    one, allocated after all the trees there were and balanced; when the
    subset has no triangle the handle is null and nothing is allocated. *)
Theorem tris_init_spec (mesh : Mesh.t F) (faces_mask : list Z) (w : World.t F) :
  (span_size faces_mask = Mesh.faces_num mesh ->
   BKE_bvhtree_from_mesh_tris_init mesh faces_mask w = bvh_corner_tris mesh w)
  /\ (span_size faces_mask <> Mesh.faces_num mesh ->
      faces_have_triangles mesh faces_mask ->
      forall leafs,
        subset_triangle_leafs mesh faces_mask = Ok leafs ->
        exists r w',
          BKE_bvhtree_from_mesh_tris_init mesh faces_mask w = Ok (r, w')
          /\ World.runtime w' = World.runtime w
          /\ BVHTreeFromMesh.owned_tree r = BVHTreeFromMesh.tree r
          /\ tree_leafs w' (BVHTreeFromMesh.tree r) = leafs
          /\ (forall tri_i co, In (tri_i, co) leafs ->
                corner_tri_points (Mesh.vert_positions mesh)
                  (Mesh.corner_verts mesh) (Mesh.corner_tris mesh) tri_i = Ok co)
          /\ (if decide (leafs = []) then
                BVHTreeFromMesh.tree r = None /\ w' = w
              else
                BVHTreeFromMesh.tree r = Some (length (World.trees w))
                /\ World.trees w'
                   = World.trees w
                     ++ [BVHTree.Build (Z.of_nat (length leafs)) f_zero 2 6 leafs true])).
Proof.
  split.
  - intros Hall. unfold BKE_bvhtree_from_mesh_tris_init.
    rewrite Hall, Z.eqb_refl. reflexivity.
  - intros Hsub Hvalid leafs Hleafs.
    unfold subset_triangle_leafs in Hleafs.
    apply result_bind_inv in Hleafs as (leafss & Hleafss & Hleafs).
    inversion Hleafs; subst leafs; clear Hleafs.
    unfold BKE_bvhtree_from_mesh_tris_init.
    destruct (Z.eqb_spec (span_size faces_mask) (Mesh.faces_num mesh));
      [contradiction |].
    erewrite M_bind_Ok by (apply lift_Ok; reflexivity).
    erewrite M_bind_Ok
      by (apply lift_Ok, (tris_num_run mesh faces_mask leafss 0 Hvalid Hleafss)).
    rewrite Z.add_0_l.
    destruct (decide (concat leafss = [])) as [Hnil | Hsome].
    + rewrite Hnil. cbn [length Z.of_nat].
      erewrite M_bind_Ok
        by (apply bvhtree_new_common_zero; right; split; reflexivity).
      eexists _, w. split; [reflexivity |].
      split; [reflexivity |]. split; [reflexivity |]. split; [reflexivity |].
      split; [intros ? ? [] |]. split; reflexivity.
    + assert (Hlen : Z.of_nat (length (concat leafss)) <> 0).
      { intros Hlen. apply Hsome, concat_nil_length. lia. }
      erewrite M_bind_Ok by (apply bvhtree_new_common_all, Hlen).
      destruct w as [ts rt]. cbn [World.trees World.runtime].
      erewrite M_bind_Ok by (apply insert_faces_run, Hleafss).
      erewrite M_bind_Ok by (apply BLI_bvhtree_balance_last).
      eexists _, _. split; [reflexivity |]. cbn.
      split; [reflexivity |]. split; [reflexivity |].
      split; [rewrite lookup_last; reflexivity |].
      split; [| split; reflexivity].
      intros tri_i co Hin. apply in_concat in Hin as (items & Hitems & Hin).
      clear - Hleafss Hitems Hin. revert leafss Hleafss Hitems.
      induction faces_mask as [| face_i faces_mask IH]; intros leafss Hleafss Hitems.
      * inversion Hleafss; subst. destruct Hitems.
      * apply map_result_cons_inv in Hleafss as (its & leafs' & Hface & Hrest & ->).
        destruct Hitems as [-> | Hitems]; [| eapply IH; eassumption].
        unfold face_triangle_leafs in Hface.
        apply result_bind_inv in Hface as (range & _ & Hface).
        clear - Hface Hin. revert items Hface Hin.
        induction range as [| i range IH]; intros items Hface Hin.
        -- inversion Hface; subst. destruct Hin.
        -- apply map_result_cons_inv in Hface as (y & items' & Hy & Hrest & ->).
           apply result_bind_inv in Hy as (c & Hc & Hy). inversion Hy; subst y.
           destruct Hin as [Heq | Hin]; [| eapply IH; eassumption].
           inversion Heq; subst. exact Hc.
Qed.
End TrisInit.

Lemma sample_faces_have_triangles : faces_have_triangles Samples.mesh [1].
Proof.
  intros face_i face [<- | []] Hface. inversion Hface. cbn. lia.
Defined.

Lemma tris_init_spec_witness :
  exists r w',
    BKE_bvhtree_from_mesh_tris_init Samples.mesh [1] (World.init float) = Ok (r, w')
    /\ World.runtime w' = MeshRuntime.empty
    /\ BVHTreeFromMesh.owned_tree r = Some 0%nat
    /\ BVHTreeFromMesh.tree r = Some 0%nat
    /\ tree_leafs w' (BVHTreeFromMesh.tree r)
       = [(2, [Samples.P 0 0 0; Samples.P 0 1 0; Samples.P 0 2 0])].
Proof.
  assert (Hsub : span_size [1] <> Mesh.faces_num Samples.mesh) by discriminate.
  destruct (proj2 (tris_init_spec Samples.mesh [1] (World.init float))
              Hsub sample_faces_have_triangles
              [(2, [Samples.P 0 0 0; Samples.P 0 1 0; Samples.P 0 2 0])] eq_refl)
    as (r & w' & Hrun & Hruntime & Howned & Hleafs & _ & Htree).
  exists r, w'. destruct Htree as [Htree _].
  split; [exact Hrun |]. split; [exact Hruntime |].
  split; [rewrite Howned; exact Htree |]. split; [exact Htree | exact Hleafs].
Defined.

(** ** The vertex builder *)

Lemma masked_out_run (mask : list bool) (i : nat) :
  mask = [] \/ (i < length mask)%nat ->
  masked_out mask (Z.of_nat i) = Ok (negb (mask_bit mask i)).
Proof.
  intros [-> | Hi]; [reflexivity |].
  destruct (lookup_lt_is_Some_2 mask i Hi) as [b Hb].
  unfold masked_out, mask_bit. destruct mask as [| b0 mask]; [simpl in Hi; lia |].
  rewrite (span_get_of_nat _ _ _ Hb), Hb. reflexivity.
Qed.

Section VertexBuilder.
Context {F : Type}.

Lemma insert_verts_run (positions : list (float3 F)) (mask : list bool)
    (indices : list nat) (ts : list (BVHTree.t F)) (t : BVHTree.t F)
    (rt : MeshRuntime.t) :
  mask = [] \/ length mask = length positions ->
  (forall i, In i indices -> (i < length positions)%nat) ->
  for_each (Z.of_nat <$> indices) (fun i =>
      skip ← lift (masked_out mask i);
      if (skip : bool) then mret tt
      else
        co ← lift (span_get positions i);
        BLI_bvhtree_insert (length ts) i [co])
    (World.Build (ts ++ [t]) rt)
  = Ok (tt, World.Build
              (ts ++ [with_leafs t (BVHTree.leafs t
                                    ++ flat_map (vert_leaf positions mask) indices)])
              rt).
Proof.
  intros Hmask. revert t.
  induction indices as [| i indices IH]; intros t Hin.
  - cbn. rewrite with_leafs_nil. reflexivity.
  - assert (Hi : (i < length positions)%nat) by (apply Hin; left; reflexivity).
    destruct (lookup_lt_is_Some_2 positions i Hi) as [p Hp].
    cbn [fmap list_fmap for_each flat_map].
    assert (Hskip : masked_out mask (Z.of_nat i) = Ok (negb (mask_bit mask i))).
    { apply masked_out_run. destruct Hmask as [-> | Hlen]; [left | right; lia]; auto. }
    unfold vert_leaf at 1. rewrite Hp.
    destruct (mask_bit mask i); cbn [negb] in Hskip.
    + erewrite M_bind_Ok.
      2: { erewrite M_bind_Ok by (apply lift_Ok, Hskip). cbv beta iota.
           erewrite M_bind_Ok by (apply lift_Ok, span_get_of_nat, Hp).
           apply BLI_bvhtree_insert_last. }
      rewrite IH by (intros j Hj; apply Hin; right; exact Hj).
      unfold with_leafs; cbn. rewrite <- app_assoc. reflexivity.
    + erewrite M_bind_Ok.
      2: { erewrite M_bind_Ok by (apply lift_Ok, Hskip). reflexivity. }
      rewrite IH by (intros j Hj; apply Hin; right; exact Hj). reflexivity.
Qed.

Lemma vert_leafs_length_from (positions : list (float3 F)) (mask : list bool)
    (m k : nat) :
  length mask = length positions ->
  (k + m = length positions)%nat ->
  Z.of_nat (length (flat_map (vert_leaf positions mask) (seq k m)))
  = count_true (drop k mask).
Proof.
  intros Hlen. revert k. induction m as [| m IH]; intros k Hk.
  - rewrite drop_ge by lia. reflexivity.
  - destruct (lookup_lt_is_Some_2 positions k) as [p Hp]; [lia |].
    destruct (lookup_lt_is_Some_2 mask k) as [b Hb]; [lia |].
    cbn [seq flat_map]. rewrite length_app, Nat2Z.inj_add, IH by lia.
    rewrite (drop_S mask b k Hb). cbn [count_true].
    unfold vert_leaf, mask_bit. rewrite Hp.
    destruct mask as [| b0 mask0]; [discriminate |].
    rewrite Hb. destruct b; reflexivity.
Qed.

Lemma vert_leafs_length (positions : list (float3 F)) (mask : list bool) :
  length mask = length positions ->
  span_size (vert_leafs positions mask) = count_true mask.
Proof.
  intros Hlen. unfold span_size, vert_leafs.
  rewrite (vert_leafs_length_from positions mask (length positions) 0 Hlen) by lia.
  reflexivity.
Qed.

Lemma vert_leafs_all_length (positions : list (float3 F)) :
  span_size (vert_leafs positions []) = span_size positions.
Proof.
  unfold span_size, vert_leafs. f_equal.
  assert (H : forall m k, (k + m = length positions)%nat ->
              length (flat_map (vert_leaf positions []) (seq k m)) = m).
  { induction m as [| m IH]; intros k Hk; [reflexivity |].
    destruct (lookup_lt_is_Some_2 positions k) as [p Hp]; [lia |].
    cbn [seq flat_map]. rewrite length_app, IH by lia.
    unfold vert_leaf. rewrite Hp. reflexivity. }
  apply H. lia.
Qed.

Lemma vert_leafs_bound (positions : list (float3 F)) (mask : list bool) :
  span_size (vert_leafs positions mask) <= span_size positions.
Proof.
  unfold span_size, vert_leafs.
  assert (H : forall m k,
            (length (flat_map (vert_leaf positions mask) (seq k m)) <= m)%nat).
  { induction m as [| m IH]; intros k; [reflexivity |].
    cbn [seq flat_map]. rewrite length_app. specialize (IH (S k)).
    unfold vert_leaf at 1.
    destruct (positions !! k); [destruct (mask_bit _ _) |]; simpl; lia. }
  specialize (H (length positions) 0%nat). lia.
Qed.

Lemma index_range_seq (positions : list (float3 F)) :
  index_range positions = Z.of_nat <$> seq 0 (length positions)
  /\ forall i, In i (seq 0 (length positions)) -> (i < length positions)%nat.
Proof. split; [reflexivity |]. intros i Hi. apply in_seq in Hi. lia. Qed.

(** The builder with a mask of one bit per vertex and the number of its set
    bits. *)
Lemma verts_create_tree_masked (epsilon : F) (tree_type axis : Z)
    (positions : list (float3 F)) (verts_mask : list bool) (w : World.t F) :
  length verts_mask = length positions -> count_true verts_mask <> 0 ->
  bvhtree_from_mesh_verts_create_tree epsilon tree_type axis positions
    verts_mask (count_true verts_mask) w
  = Ok (Some (length (World.trees w)),
        World.Build
          (World.trees w
           ++ [BVHTree.Build (count_true verts_mask) epsilon tree_type axis
                 (vert_leafs positions verts_mask) false])
          (World.runtime w)).
Proof.
  intros Hlen Hcount.
  destruct (index_range_seq positions) as [Hidx Hin].
  destruct w as [ts rt]. cbn [World.trees World.runtime].
  unfold bvhtree_from_mesh_verts_create_tree.
  erewrite M_bind_Ok.
  2: { apply bvhtree_new_common_some.
       pose proof (count_true_nonneg verts_mask).
       pose proof (vert_leafs_bound positions verts_mask).
       rewrite (vert_leafs_length positions verts_mask Hlen) in *. lia. }
  cbn [World.trees World.runtime]. rewrite Hidx.
  erewrite M_bind_Ok by (apply insert_verts_run; [right; exact Hlen | exact Hin]).
  unfold BLI_bvhtree_get_len, with_leafs; cbn.
  run_M. rewrite lookup_last; cbn.
  fold (vert_leafs positions verts_mask).
  rewrite (vert_leafs_length positions verts_mask Hlen), Z.eqb_refl. reflexivity.
Qed.

(** The builder with the empty mask and the count -1. *)
Lemma verts_create_tree_all (epsilon : F) (tree_type axis : Z)
    (positions : list (float3 F)) (w : World.t F) :
  positions <> [] ->
  bvhtree_from_mesh_verts_create_tree epsilon tree_type axis positions [] (-1) w
  = Ok (Some (length (World.trees w)),
        World.Build
          (World.trees w
           ++ [BVHTree.Build (span_size positions) epsilon tree_type axis
                 (vert_leafs positions []) false])
          (World.runtime w)).
Proof.
  intros Hne.
  destruct (index_range_seq positions) as [Hidx Hin].
  destruct w as [ts rt]. cbn [World.trees World.runtime].
  unfold bvhtree_from_mesh_verts_create_tree.
  erewrite M_bind_Ok.
  2: { apply bvhtree_new_common_all. unfold span_size.
       destruct positions; [contradiction | simpl; lia]. }
  cbn [World.trees World.runtime]. rewrite Hidx.
  erewrite M_bind_Ok by (apply insert_verts_run; [left; reflexivity | exact Hin]).
  unfold BLI_bvhtree_get_len, with_leafs; cbn.
  run_M. rewrite lookup_last; cbn.
  fold (vert_leafs positions []).
  rewrite (vert_leafs_all_length positions), Z.eqb_refl. reflexivity.
Qed.

(** X1: the vertex builder keeps its contract.  Given a mask with one bit
    per vertex and the number of its set bits, not zero, it allocates one
    tree, sized by that number, and inserts exactly the vertices whose bit
    is set, each under its own index; given the empty mask and -1 over at
    least one vertex, it inserts all vertices.  In both cases the number of
    leaves is the active count, as the assertion after the loop demands. *)
Theorem verts_create_tree_leafs (epsilon : F) (tree_type axis : Z)
    (positions : list (float3 F)) (verts_mask : list bool) (w : World.t F) :
  (length verts_mask = length positions -> count_true verts_mask <> 0 ->
   bvhtree_from_mesh_verts_create_tree epsilon tree_type axis positions
     verts_mask (count_true verts_mask) w
   = Ok (Some (length (World.trees w)),
         World.Build
           (World.trees w
            ++ [BVHTree.Build (count_true verts_mask) epsilon tree_type axis
                  (vert_leafs positions verts_mask) false])
           (World.runtime w))
   /\ span_size (vert_leafs positions verts_mask) = count_true verts_mask)
  /\ (positions <> [] ->
      bvhtree_from_mesh_verts_create_tree epsilon tree_type axis positions [] (-1) w
      = Ok (Some (length (World.trees w)),
            World.Build
              (World.trees w
               ++ [BVHTree.Build (span_size positions) epsilon tree_type axis
                     (vert_leafs positions []) false])
              (World.runtime w))
      /\ span_size (vert_leafs positions []) = span_size positions).
Proof.
  split.
  - intros Hlen Hcount. split.
    + apply verts_create_tree_masked; assumption.
    + apply vert_leafs_length, Hlen.
  - intros Hne. split.
    + apply verts_create_tree_all, Hne.
    + apply vert_leafs_all_length.
Qed.

End VertexBuilder.

Lemma verts_create_tree_leafs_witness :
  bvhtree_from_mesh_verts_create_tree 0%float 2 6
    (Mesh.vert_positions Samples.mesh)
    (LooseVertCache.is_loose_bits (Mesh.loose_verts Samples.mesh)) 1
    (World.init float)
  = Ok (Some 0%nat,
        World.Build
          [BVHTree.Build 1 0%float 2 6 [(7, [Samples.P 9 9 9])] false]
          MeshRuntime.empty).
Proof.
  apply (proj1 (verts_create_tree_leafs 0%float 2 6
                  (Mesh.vert_positions Samples.mesh)
                  (LooseVertCache.is_loose_bits (Mesh.loose_verts Samples.mesh))
                  (World.init float))
               eq_refl).
  discriminate.
Defined.

(** ** Reuse of a built slot *)

Section CacheReuse.
Context {F : Type} `{!BLI_math F}.

(** What every cached getter does with its slot. *)
Lemma cached_getter_reuse (slot : CacheSlot) (compute_fn : M F BVHCacheItem.t)
    (finish : BVHCacheItem.t -> result (BVHTreeFromMesh.t F))
    (w w' : World.t F) (data : BVHTreeFromMesh.t F) :
  (_ ← SharedCache_ensure slot compute_fn;
   tree ← SharedCache_data slot;
   lift (finish tree)) w = Ok (data, w') ->
  (_ ← SharedCache_ensure slot compute_fn;
   tree ← SharedCache_data slot;
   lift (finish tree)) w' = Ok (data, w')
  /\ exists item,
       slot_get slot (World.runtime w') = Some item /\ finish item = Ok data.
Proof.
  intros H.
  apply M_bind_inv in H as ([] & w1 & _ & H).
  apply M_bind_inv in H as (item & w2 & Hdata & H).
  apply lift_inv in H as [Hfinish ->].
  unfold SharedCache_data in Hdata.
  destruct (slot_get slot (World.runtime w1)) as [item' |] eqn:Hslot; [| discriminate].
  inversion Hdata; subst item' w2; clear Hdata.
  split; [| eauto].
  erewrite M_bind_Ok by (unfold SharedCache_ensure; rewrite Hslot; reflexivity).
  erewrite M_bind_Ok by (unfold SharedCache_data; rewrite Hslot; reflexivity).
  apply lift_Ok, Hfinish.
Qed.

(** X2: calling the getter of a kind again, with no invalidation in between,
    builds nothing and returns the same bundle: the same tree handle, in a
    world that is as it was. *)
Theorem get_bvh_idempotent (kind : BVHCacheType) (mesh : Mesh.t F)
    (w w' : World.t F) (data : BVHTreeFromMesh.t F) :
  get_bvh kind mesh w = Ok (data, w') ->
  get_bvh kind mesh w' = Ok (data, w').
Proof.
  destruct kind; cbn [get_bvh]; intros H;
    try (eapply cached_getter_reuse; exact H).
  - (* legacy faces: the assertion comes first *)
    unfold bvh_legacy_faces in *.
    apply M_bind_inv in H as ([] & w1 & Hassert & H).
    apply lift_inv in Hassert as [Hassert ->].
    erewrite M_bind_Ok by (apply lift_Ok, Hassert).
    eapply cached_getter_reuse; exact H.
  - discriminate.
Qed.

End CacheReuse.

Lemma get_bvh_idempotent_witness :
  exists data w',
    get_bvh BVHTREE_FROM_EDGES Samples.mesh (World.init float) = Ok (data, w')
    /\ get_bvh BVHTREE_FROM_EDGES Samples.mesh w' = Ok (data, w')
    /\ BVHTreeFromMesh.tree data = Some 0%nat.
Proof.
  eexists _, _. split; [vm_compute; reflexivity |].
  split; [| reflexivity].
  apply (get_bvh_idempotent BVHTREE_FROM_EDGES Samples.mesh (World.init float)).
  vm_compute; reflexivity.
Defined.

(** ** The getters where they depart from their siblings *)

Lemma bvh_cache_verts_not_no_hidden :
  bvh_cache_verts <> bvh_cache_corner_tris_no_hidden.
Proof.
  intros H.
  apply (f_equal (fun slot =>
           slot_get slot (slot_set bvh_cache_verts
                            (Some (BVHCacheItem.Build None)) MeshRuntime.empty)))
    in H.
  discriminate H.
Qed.

Lemma slot_used_own (kind : BVHCacheType) :
  slot_used kind = slot_of_kind kind <-> kind <> BVHTREE_FROM_CORNER_TRIS_NO_HIDDEN.
Proof.
  destruct kind; unfold slot_used, slot_of_kind; split; try congruence; try tauto.
  intros H Hkind. apply bvh_cache_verts_not_no_hidden. congruence.
Qed.

Section Departures.
Context {F : Type} `{!BLI_math F}.

Lemma setup_data_fields (tree : option BVHTreePtr) (kind : BVHCacheType)
    (positions : list (float3 F)) (edges : list (Z * Z)) (corner_verts : list Z)
    (corner_tris : list (Z * Z * Z)) (face : option (list MFace.t))
    (data : BVHTreeFromMesh.t F) :
  bvhtree_from_mesh_setup_data tree kind positions edges corner_verts corner_tris face
  = Ok data ->
  BVHTreeFromMesh.tree data = tree
  /\ BVHTreeFromMesh.vert_positions data = positions
  /\ BVHTreeFromMesh.edges data = edges
  /\ BVHTreeFromMesh.corner_verts data = corner_verts
  /\ BVHTreeFromMesh.corner_tris data = corner_tris
  /\ BVHTreeFromMesh.face data = face
  /\ BVHTreeFromMesh.owned_tree data = None.
Proof.
  intros H. destruct kind; cbn in H; inversion H; subst; cbn; auto 10.
Qed.

(** After the getter of a kind has returned, the slot it works on holds the
    tree of the bundle.  For the triangulated faces excluding hidden this is
    the slot of the plain vertices; for every other kind it is the slot
    named for the kind. *)
Lemma get_bvh_slot_used (kind : BVHCacheType) (mesh : Mesh.t F)
    (w w' : World.t F) (data : BVHTreeFromMesh.t F) :
  get_bvh kind mesh w = Ok (data, w') ->
  exists slot,
    slot_used kind = Some slot
    /\ slot_get slot (World.runtime w')
       = Some (BVHCacheItem.Build (BVHTreeFromMesh.tree data)).
Proof.
  assert (Hfinish : forall slot (item : BVHCacheItem.t) k positions edges cv ct face,
            slot_get slot (World.runtime w') = Some item ->
            bvhtree_from_mesh_setup_data (BVHCacheItem.tree item) k positions edges
              cv ct face = Ok data ->
            slot_get slot (World.runtime w')
            = Some (BVHCacheItem.Build (BVHTreeFromMesh.tree data))).
  { intros slot [tree] k positions edges cv ct face Hslot Hsetup.
    apply setup_data_fields in Hsetup as (-> & _). exact Hslot. }
  destruct kind; cbn [get_bvh slot_used slot_of_kind]; intros H;
    try (apply cached_getter_reuse in H as (_ & item & Hslot & Hsetup);
         eexists; split; [reflexivity | eapply Hfinish; eassumption]).
  - unfold bvh_legacy_faces in H.
    apply M_bind_inv in H as ([] & w1 & _ & H).
    apply cached_getter_reuse in H as (_ & item & Hslot & Hsetup).
    eexists; split; [reflexivity | eapply Hfinish; eassumption].
  - discriminate.
Qed.

(** Whatever mask was derived, the tree of the loose vertices excluding
    hidden holds every vertex of the mesh. *)
Lemma bvh_loose_no_hidden_verts_all_verts (mesh : Mesh.t F) (w : World.t F)
    (st : list bool * Z) :
  slot_get bvh_cache_loose_verts_no_hidden (World.runtime w) = None ->
  Mesh.vert_positions mesh <> [] ->
  loose_verts_no_hidden_mask_get mesh = Ok st ->
  exists data w',
    bvh_loose_no_hidden_verts mesh w = Ok (data, w')
    /\ BVHTreeFromMesh.tree data = Some (length (World.trees w))
    /\ tree_leafs w' (BVHTreeFromMesh.tree data)
       = vert_leafs (Mesh.vert_positions mesh) [].
Proof.
  intros Hslot Hne Hmask. destruct w as [ts rt]; cbn [World.runtime] in Hslot.
  pose proof (verts_create_tree_all f_zero 2 6 (Mesh.vert_positions mesh)
                (World.Build ts rt) Hne) as Hbuild.
  cbn [World.trees World.runtime] in Hbuild.
  unfold bvh_loose_no_hidden_verts.
  erewrite M_bind_Ok.
  2: { unfold SharedCache_ensure. cbn [World.runtime]. rewrite Hslot.
       erewrite M_bind_Ok by (apply lift_Ok, Hmask). destruct st as [mask n].
       erewrite M_bind_Ok by (exact Hbuild).
       unfold cache_item_of.
       erewrite M_bind_Ok by (apply BLI_bvhtree_balance_last).
       reflexivity. }
  cbn [World.trees World.runtime BVHTree.maxsize BVHTree.epsilon BVHTree.tree_type
       BVHTree.axis BVHTree.leafs].
  unfold SharedCache_data. run_M.
  eexists _, _. split; [reflexivity |]. cbn.
  split; [reflexivity |]. rewrite lookup_last. reflexivity.
Qed.

(** The bundle of the loose edges excluding hidden never has an edge list;
    the bundles of the two other edge kinds have the edge list of the
    mesh. *)
Lemma edge_bundles_edges (mesh : Mesh.t F) (w w' : World.t F)
    (data : BVHTreeFromMesh.t F) :
  (bvh_loose_no_hidden_edges mesh w = Ok (data, w') ->
   BVHTreeFromMesh.edges data = [])
  /\ (bvh_loose_edges mesh w = Ok (data, w') ->
      BVHTreeFromMesh.edges data = Mesh.edges mesh)
  /\ (bvh_edges mesh w = Ok (data, w') ->
      BVHTreeFromMesh.edges data = Mesh.edges mesh).
Proof.
  repeat split; intros H;
    apply cached_getter_reuse in H as (_ & item & _ & Hsetup);
    apply setup_data_fields in Hsetup as (_ & _ & Hedges & _); exact Hedges.
Qed.

End Departures.

(** ** The cached getters, run on the sample mesh *)

Lemma bundle_callbacks_by_kind_witness :
  (exists data,
      bvhtree_from_mesh_setup_data (F := float) None BVHTREE_FROM_EDGES [] [] [] [] None
      = Ok data
      /\ callbacks_fit BVHTREE_FROM_EDGES data)
  /\ (exists data w',
        get_bvh BVHTREE_FROM_LOOSEVERTS Samples.mesh (World.init float) = Ok (data, w')
        /\ callbacks_fit BVHTREE_FROM_LOOSEVERTS data).
Proof.
  split.
  - apply (proj1 (bundle_callbacks_by_kind BVHTREE_FROM_EDGES None [] [] [] [] None)).
    reflexivity.
  - eexists _, _. split; [vm_compute; reflexivity |].
    eapply (proj2 (bundle_callbacks_by_kind BVHTREE_FROM_LOOSEVERTS None [] [] [] [] None)
              Samples.mesh (World.init float)).
    vm_compute; reflexivity.
Defined.

(** C2, where the code departs from it: [Mesh::bvh_corner_tris_no_hidden]
    builds into and reads from the slot of the plain vertices.  On a mesh
    that has no tree yet it leaves its triangle tree (the two triangles of
    the visible quad) in [bvh_cache_verts] and its own slot empty, and
    [Mesh::bvh_verts] then returns that triangle tree; when the vertex tree
    was built first, it returns the vertex tree (eight leaves of one point
    each) with the triangle callbacks, and builds nothing. *)
Lemma bvh_corner_tris_no_hidden_shares_verts_slot :
  (exists d w1 dv,
      bvh_corner_tris_no_hidden Samples.mesh (World.init float) = Ok (d, w1)
      /\ slot_get bvh_cache_corner_tris_no_hidden (World.runtime w1) = None
      /\ slot_get bvh_cache_verts (World.runtime w1)
         = Some (BVHCacheItem.Build (BVHTreeFromMesh.tree d))
      /\ tree_leafs w1 (BVHTreeFromMesh.tree d)
         = [(0, [Samples.P 0 0 0; Samples.P 1 0 0; Samples.P 1 1 0]);
            (1, [Samples.P 0 0 0; Samples.P 1 1 0; Samples.P 0 1 0])]
      /\ bvh_verts Samples.mesh w1 = Ok (dv, w1)
      /\ BVHTreeFromMesh.tree dv = BVHTreeFromMesh.tree d)
  /\ (exists dv w1 d,
        bvh_verts Samples.mesh (World.init float) = Ok (dv, w1)
        /\ bvh_corner_tris_no_hidden Samples.mesh w1 = Ok (d, w1)
        /\ BVHTreeFromMesh.tree d = BVHTreeFromMesh.tree dv
        /\ BVHTreeFromMesh.nearest_callback d = Some cb_mesh_corner_tris_nearest_point
        /\ tree_leafs w1 (BVHTreeFromMesh.tree d)
           = [(0, [Samples.P 0 0 0]); (1, [Samples.P 1 0 0]); (2, [Samples.P 1 1 0]);
              (3, [Samples.P 0 1 0]); (4, [Samples.P 0 2 0]); (5, [Samples.P 5 0 0]);
              (6, [Samples.P 6 0 0]); (7, [Samples.P 9 9 9])]).
Proof.
  split.
  - eexists _, _, _. split; [vm_compute; reflexivity |].
    repeat split; vm_compute; reflexivity.
  - eexists _, _, _. split; [vm_compute; reflexivity |].
    repeat split; vm_compute; reflexivity.
Qed.

(** C3, where the code departs from it: [Mesh::bvh_loose_no_hidden_verts]
    derives the mask (one active vertex of eight on the sample mesh) and
    then builds the tree with an empty mask and the count -1: the tree holds
    all eight vertices. *)
Lemma bvh_loose_no_hidden_verts_ignores_mask :
  loose_verts_no_hidden_mask_get Samples.mesh
  = Ok ([false; false; false; false; false; false; false; true], 1)
  /\ exists d w',
       bvh_loose_no_hidden_verts Samples.mesh (World.init float) = Ok (d, w')
       /\ tree_leafs w' (BVHTreeFromMesh.tree d)
          = [(0, [Samples.P 0 0 0]); (1, [Samples.P 1 0 0]); (2, [Samples.P 1 1 0]);
             (3, [Samples.P 0 1 0]); (4, [Samples.P 0 2 0]); (5, [Samples.P 5 0 0]);
             (6, [Samples.P 6 0 0]); (7, [Samples.P 9 9 9])]
       /\ span_size (tree_leafs w' (BVHTreeFromMesh.tree d)) = 8.
Proof.
  split; [reflexivity |].
  eexists _, _. split; [vm_compute; reflexivity |].
  split; vm_compute; reflexivity.
Qed.

(** C4, where the code departs from it: the bundle
    [Mesh::bvh_loose_no_hidden_edges] returns has an empty edge list, where
    the mesh has seven edges and the two sibling getters pass them on; its
    tree holds the loose edge 6, and its nearest-point callback, called on
    that leaf, reads the empty edge list out of range. *)
Lemma bvh_loose_no_hidden_edges_drops_edges :
  exists d w',
    bvh_loose_no_hidden_edges Samples.mesh (World.init float) = Ok (d, w')
    /\ BVHTreeFromMesh.edges d = []
    /\ span_size (Mesh.edges Samples.mesh) = 7
    /\ tree_leafs w' (BVHTreeFromMesh.tree d)
       = [(6, [Samples.P 5 0 0; Samples.P 6 0 0])]
    /\ BVHTreeFromMesh.nearest_callback d = Some cb_mesh_edges_nearest_point
    /\ call_nearest_callback cb_mesh_edges_nearest_point d 6 (Samples.P 5 1 0)
         Samples.no_nearest
       = Abort OutOfBounds
    /\ (exists d1 w1,
          bvh_loose_edges Samples.mesh (World.init float) = Ok (d1, w1)
          /\ BVHTreeFromMesh.edges d1 = Mesh.edges Samples.mesh
          /\ call_nearest_callback cb_mesh_edges_nearest_point d1 6 (Samples.P 5 1 0)
               Samples.no_nearest
             = Ok (BVHTreeNearest.Build 6 (Samples.P 5 0 0) (Samples.P (-1) 0 0) 1%float))
    /\ (exists d2 w2,
          bvh_edges Samples.mesh (World.init float) = Ok (d2, w2)
          /\ BVHTreeFromMesh.edges d2 = Mesh.edges Samples.mesh).
Proof.
  eexists _, _. split; [vm_compute; reflexivity |].
  split; [reflexivity |]. split; [reflexivity |]. split; [vm_compute; reflexivity |].
  split; [reflexivity |]. split; [vm_compute; reflexivity |].
  split.
  - eexists _, _. split; [vm_compute; reflexivity |].
    split; vm_compute; reflexivity.
  - eexists _, _. split; [vm_compute; reflexivity |]. reflexivity.
Qed.

(** ** Builders over a mask of active elements *)

(** *** Loops that insert the active elements *)

Section MaskedInsert.
Context {F : Type}.

Lemma for_each_ext {A : Type} (l : list A) (f g : A -> M F unit) (w : World.t F) :
  (forall x w0, In x l -> f x w0 = g x w0) ->
  for_each l f w = for_each l g w.
Proof.
  revert w. induction l as [| x l IH]; intros w H; [reflexivity |].
  cbn [for_each]. unfold mbind, M_bind.
  rewrite (H x w (or_introl eq_refl)).
  destruct (g x w) as [[[] w1] | e]; [| reflexivity].
  apply IH. intros y w0 Hy. apply H. right. exact Hy.
Qed.

(** The loop of the builders over the elements [indices], for elements
    whose points [points] reads. *)
Lemma insert_masked_run (points : Z -> result (list (float3 F)))
    (mask : list bool) (n : nat) (indices : list nat)
    (ts : list (BVHTree.t F)) (t : BVHTree.t F) (rt : MeshRuntime.t) :
  mask_fits mask n ->
  active_in_range points mask n ->
  (forall i, In i indices -> (i < n)%nat) ->
  for_each (Z.of_nat <$> indices) (fun i =>
      skip ← lift (masked_out mask i);
      if (skip : bool) then mret tt
      else
        co ← lift (points i);
        BLI_bvhtree_insert (length ts) i co)
    (World.Build (ts ++ [t]) rt)
  = Ok (tt, World.Build
              (ts ++ [with_leafs t (BVHTree.leafs t
                                    ++ flat_map (masked_leaf points mask) indices)])
              rt).
Proof.
  intros Hmask Hpoints. revert t.
  induction indices as [| i indices IH]; intros t Hin.
  - cbn. rewrite with_leafs_nil. reflexivity.
  - assert (Hi : (i < n)%nat) by (apply Hin; left; reflexivity).
    cbn [fmap list_fmap for_each flat_map].
    assert (Hskip : masked_out mask (Z.of_nat i) = Ok (negb (mask_bit mask i))).
    { apply masked_out_run. destruct Hmask as [-> | Hlen]; [left | right; lia]; auto. }
    unfold masked_leaf at 1.
    destruct (mask_bit mask i) eqn:Hbit; cbn [negb] in Hskip.
    + destruct (Hpoints i Hi Hbit) as [co Hco]. rewrite Hco.
      erewrite M_bind_Ok.
      2: { erewrite M_bind_Ok by (apply lift_Ok, Hskip). cbv beta iota.
           erewrite M_bind_Ok by (apply lift_Ok; reflexivity).
           apply BLI_bvhtree_insert_last. }
      rewrite IH by (intros j Hj; apply Hin; right; exact Hj).
      unfold with_leafs; cbn. rewrite <- app_assoc. reflexivity.
    + erewrite M_bind_Ok.
      2: { erewrite M_bind_Ok by (apply lift_Ok, Hskip). reflexivity. }
      rewrite IH by (intros j Hj; apply Hin; right; exact Hj). reflexivity.
Qed.

Lemma masked_leafs_length_from (points : Z -> result (list (float3 F)))
    (mask : list bool) (n m k : nat) :
  length mask = n -> active_in_range points mask n -> (k + m = n)%nat ->
  Z.of_nat (length (flat_map (masked_leaf points mask) (seq k m)))
  = count_true (drop k mask).
Proof.
  intros Hlen Hpoints. revert k. induction m as [| m IH]; intros k Hk.
  - rewrite drop_ge by lia. reflexivity.
  - destruct (lookup_lt_is_Some_2 mask k) as [b Hb]; [lia |].
    cbn [seq flat_map]. rewrite length_app, Nat2Z.inj_add, IH by lia.
    rewrite (drop_S mask b k Hb). cbn [count_true].
    unfold masked_leaf.
    assert (Hbit : mask_bit mask k = b).
    { unfold mask_bit. destruct mask; [discriminate |]. rewrite Hb. reflexivity. }
    rewrite Hbit. destruct b; [| reflexivity].
    destruct (Hpoints k ltac:(lia) Hbit) as [co ->]. reflexivity.
Qed.

(** With a mask of one bit per element, the leaves are as many as the mask
    has set bits. *)
Lemma masked_leafs_length (points : Z -> result (list (float3 F)))
    (mask : list bool) (n : nat) :
  length mask = n -> active_in_range points mask n ->
  span_size (masked_leafs points mask n) = count_true mask.
Proof.
  intros Hlen Hpoints. unfold span_size, masked_leafs.
  rewrite (masked_leafs_length_from points mask n n 0 Hlen Hpoints) by lia.
  reflexivity.
Qed.

(** With the empty mask, every element has a leaf. *)
Lemma masked_leafs_all_length (points : Z -> result (list (float3 F))) (n : nat) :
  active_in_range points [] n ->
  span_size (masked_leafs points [] n) = Z.of_nat n.
Proof.
  intros Hpoints. unfold span_size, masked_leafs. f_equal.
  assert (H : forall m k, (k + m = n)%nat ->
              length (flat_map (masked_leaf points []) (seq k m)) = m).
  { induction m as [| m IH]; intros k Hk; [reflexivity |].
    cbn [seq flat_map]. rewrite length_app, IH by lia.
    unfold masked_leaf. cbn [mask_bit].
    destruct (Hpoints k ltac:(lia) eq_refl) as [co ->]. reflexivity. }
  apply H. lia.
Qed.

(** A leaf of the active elements is the leaf of an active element, under
    the index of the element, and every active element has its leaf. *)
Lemma elem_of_masked_leafs (points : Z -> result (list (float3 F)))
    (mask : list bool) (n : nat) (index : Z) (co : list (float3 F)) :
  In (index, co) (masked_leafs points mask n)
  <-> exists i, (i < n)%nat /\ index = Z.of_nat i
                /\ mask_bit mask i = true /\ points index = Ok co.
Proof.
  unfold masked_leafs. rewrite in_flat_map. split.
  - intros (i & Hi & Hleaf). apply in_seq in Hi. unfold masked_leaf in Hleaf.
    destruct (mask_bit mask i) eqn:Hbit; [| destruct Hleaf].
    destruct (points (Z.of_nat i)) as [c |] eqn:Hc; [| destruct Hleaf].
    destruct Hleaf as [Heq | []]. inversion Heq; subst.
    exists i. repeat split; [lia | assumption | assumption].
  - intros (i & Hi & -> & Hbit & Hco). exists i.
    split; [apply in_seq; lia |]. unfold masked_leaf. rewrite Hbit, Hco.
    left. reflexivity.
Qed.

End MaskedInsert.

Lemma count_true_le_length (mask : list bool) :
  count_true mask <= Z.of_nat (length mask).
Proof. induction mask as [| [] mask IH]; cbn [count_true length]; lia. Qed.

Section MaskedBuilders.
Context {F : Type}.

Lemma mask_count_fits_mask (mask : list bool) (elems : nat) (n : Z) :
  mask_count_fits mask elems n -> mask_fits mask elems.
Proof. intros [(-> & _) | (H & _)]; [left | right]; auto. Qed.

(** What [bvhtree_new_common] allocates for a builder. *)
Lemma bvhtree_new_common_mask_count (epsilon : F) (tree_type axis : Z)
    (mask : list bool) (elems : nat) (n : Z) (w : World.t F) :
  mask_count_fits mask elems n ->
  bvhtree_new_common epsilon tree_type axis (Z.of_nat elems) n w
  = Ok ((Some (length (World.trees w)), active_count (Z.of_nat elems) n),
        World.Build
          (World.trees w
           ++ [BVHTree.Build (active_count (Z.of_nat elems) n) epsilon tree_type
                 axis [] false])
          (World.runtime w)).
Proof.
  intros [(-> & -> & Hne) | (Hlen & -> & Hne)]; unfold active_count.
  - cbn. apply bvhtree_new_common_all. lia.
  - pose proof (count_true_nonneg mask). pose proof (count_true_le_length mask).
    destruct (Z.eqb_spec (count_true mask) (-1)); [lia |].
    apply bvhtree_new_common_some. lia.
Qed.

(** The leaves are as many as the tree was sized for. *)
Lemma masked_leafs_count (points : Z -> result (list (float3 F)))
    (mask : list bool) (elems : nat) (n : Z) :
  mask_count_fits mask elems n -> active_in_range points mask elems ->
  span_size (masked_leafs points mask elems) = active_count (Z.of_nat elems) n.
Proof.
  intros [(-> & -> & Hne) | (Hlen & -> & Hne)] Hpoints; unfold active_count.
  - cbn. apply masked_leafs_all_length, Hpoints.
  - pose proof (count_true_nonneg mask).
    destruct (Z.eqb_spec (count_true mask) (-1)); [lia |].
    apply masked_leafs_length; assumption.
Qed.

Lemma seq_in_range (n : nat) : forall i, In i (seq 0 n) -> (i < n)%nat.
Proof. intros i Hi. apply in_seq in Hi. lia. Qed.

(** *** Edge builder *)

Lemma edges_loop_body (positions : list (float3 F)) (edges : list (Z * Z))
    (mask : list bool) (tree : BVHTreePtr) (i : Z) (w : World.t F) :
  (skip ← lift (masked_out mask i);
   if (skip : bool) then mret tt
   else
     edge ← lift (span_get edges i);
     co0 ← lift (span_get positions (fst edge));
     co1 ← lift (span_get positions (snd edge));
     BLI_bvhtree_insert tree i [co0; co1]) w
  = (skip ← lift (masked_out mask i);
     if (skip : bool) then mret tt
     else
       co ← lift (edge_points positions edges i);
       BLI_bvhtree_insert tree i co) w.
Proof.
  unfold edge_points, mbind, M_bind, lift, result_bind.
  destruct (masked_out mask i) as [[] |]; try reflexivity.
  destruct (span_get edges i) as [edge |]; [| reflexivity].
  destruct (span_get positions (fst edge)); [| reflexivity].
  destruct (span_get positions (snd edge)); reflexivity.
Qed.

Lemma edges_create_tree_run (positions : list (float3 F)) (edges : list (Z * Z))
    (edges_mask : list bool) (edges_num_active : Z) (epsilon : F)
    (tree_type axis : Z) (w : World.t F) :
  mask_count_fits edges_mask (length edges) edges_num_active ->
  active_in_range (edge_points positions edges) edges_mask (length edges) ->
  bvhtree_from_mesh_edges_create_tree positions edges edges_mask edges_num_active
    epsilon tree_type axis w
  = Ok (Some (length (World.trees w)),
        World.Build
          (World.trees w
           ++ [BVHTree.Build (active_count (span_size edges) edges_num_active)
                 epsilon tree_type axis
                 (masked_leafs (edge_points positions edges) edges_mask
                    (length edges))
                 false])
          (World.runtime w)).
Proof.
  intros Hfits Hpoints. destruct w as [ts rt]. cbn [World.trees World.runtime].
  unfold bvhtree_from_mesh_edges_create_tree, span_size.
  erewrite M_bind_Ok by (eapply bvhtree_new_common_mask_count, Hfits).
  cbn [World.trees World.runtime].
  erewrite M_bind_Ok.
  2: { erewrite for_each_ext by (intros; apply edges_loop_body).
       apply (insert_masked_run _ edges_mask (length edges));
         [eapply mask_count_fits_mask, Hfits | exact Hpoints | apply seq_in_range]. }
  reflexivity.
Qed.

End MaskedBuilders.

Lemma count_true_some (mask : list bool) :
  count_true mask <> 0 -> exists i, mask !! i = Some true.
Proof.
  induction mask as [| b mask IH]; cbn [count_true]; [intros H; contradiction |].
  destruct b; [exists 0%nat; reflexivity |].
  intros H. destruct IH as [i Hi]; [lia |]. exists (S i). exact Hi.
Qed.

(** A builder that is given a fitting mask and count has an active
    element. *)
Lemma mask_count_fits_active (mask : list bool) (elems : nat) (n : Z) :
  mask_count_fits mask elems n ->
  exists i, (i < elems)%nat /\ mask_bit mask i = true.
Proof.
  intros [(-> & -> & Hne) | (Hlen & -> & Hne)].
  - exists 0%nat. split; [lia | reflexivity].
  - destruct (count_true_some mask Hne) as [i Hi]. exists i. split.
    + apply lookup_lt_Some in Hi. lia.
    + unfold mask_bit. destruct mask; [discriminate |]. rewrite Hi. reflexivity.
Qed.

Section FaceMaskedBuilders.
Context {F : Type}.

(** The end of a builder: the number of leaves is checked against the number
    the tree was sized for. *)
Lemma builder_finish (ts : list (BVHTree.t F)) (t : BVHTree.t F)
    (rt : MeshRuntime.t) (n : Z) :
  (len ← BLI_bvhtree_get_len (length ts);
   _ ← lift (BLI_assert (len =? n));
   mret (Some (length ts))) (World.Build (ts ++ [t]) rt)
  = if span_size (BVHTree.leafs t) =? n
    then Ok (Some (length ts), World.Build (ts ++ [t]) rt)
    else Abort AssertionFailed.
Proof.
  unfold BLI_bvhtree_get_len. run_M. rewrite lookup_last; cbn.
  destruct (span_size (BVHTree.leafs t) =? n); reflexivity.
Qed.

Lemma IndexRange_seq (size : Z) : IndexRange 0 size = Z.of_nat <$> seq 0 (Z.to_nat size).
Proof. reflexivity. Qed.

(** *** corner_tri face builder *)

Lemma corner_tri_points_positions (positions : list (float3 F))
    (corner_verts : list Z) (corner_tris : list (Z * Z * Z)) (i : Z)
    (co : list (float3 F)) :
  corner_tri_points positions corner_verts corner_tris i = Ok co ->
  positions <> [].
Proof.
  intros H ->. unfold corner_tri_points in H.
  destruct (span_get corner_tris i) as [[[c0 c1] c2] |]; [| discriminate].
  cbn in H. destruct (span_get corner_verts c0); [| discriminate].
  cbn in H. unfold span_get in H. cbn in H.
  repeat case_match; discriminate.
Qed.

Lemma corner_tris_create_tree_run (epsilon : F) (tree_type axis : Z)
    (positions : list (float3 F)) (corner_verts : list Z)
    (corner_tris : list (Z * Z * Z)) (corner_tris_mask : list bool)
    (corner_tris_num_active : Z) (w : World.t F) :
  mask_count_fits corner_tris_mask (length corner_tris) corner_tris_num_active ->
  active_in_range (corner_tri_points positions corner_verts corner_tris)
    corner_tris_mask (length corner_tris) ->
  bvhtree_from_mesh_corner_tris_create_tree epsilon tree_type axis positions
    corner_verts corner_tris corner_tris_mask corner_tris_num_active w
  = Ok (Some (length (World.trees w)),
        World.Build
          (World.trees w
           ++ [BVHTree.Build
                 (active_count (span_size corner_tris) corner_tris_num_active)
                 epsilon tree_type axis
                 (masked_leafs (corner_tri_points positions corner_verts corner_tris)
                    corner_tris_mask (length corner_tris))
                 false])
          (World.runtime w)).
Proof.
  intros Hfits Hpoints. destruct w as [ts rt]. cbn [World.trees World.runtime].
  assert (Hpos : positions <> []).
  { destruct (mask_count_fits_active _ _ _ Hfits) as (i & Hi & Hbit).
    destruct (Hpoints i Hi Hbit) as [co Hco].
    eapply corner_tri_points_positions, Hco. }
  unfold bvhtree_from_mesh_corner_tris_create_tree, span_size.
  destruct positions as [| p positions']; [contradiction |].
  erewrite M_bind_Ok by (eapply bvhtree_new_common_mask_count, Hfits).
  cbn [World.trees World.runtime].
  erewrite M_bind_Ok.
  2: { apply (insert_masked_run _ corner_tris_mask (length corner_tris));
         [eapply mask_count_fits_mask, Hfits | exact Hpoints | apply seq_in_range]. }
  cbv beta. rewrite builder_finish.
  unfold with_leafs; cbn [BVHTree.leafs BVHTree.maxsize BVHTree.epsilon
                          BVHTree.tree_type BVHTree.axis BVHTree.balanced app].
  fold (masked_leafs (corner_tri_points (p :: positions') corner_verts corner_tris)
          corner_tris_mask (length corner_tris)).
  rewrite (masked_leafs_count _ _ _ _ Hfits Hpoints), Z.eqb_refl. reflexivity.
Qed.

(** *** Tessellated face builder *)

Lemma faces_loop_body (positions : list (float3 F)) (face : list MFace.t)
    (mask : list bool) (tree : BVHTreePtr) (i : Z) (w : World.t F) :
  (skip ← lift (masked_out mask i);
   if (skip : bool) then mret tt
   else
     f ← lift (span_get face i);
     co0 ← lift (span_get positions (MFace.v1 f));
     co1 ← lift (span_get positions (MFace.v2 f));
     co2 ← lift (span_get positions (MFace.v3 f));
     if MFace.v4 f =? 0 then BLI_bvhtree_insert tree i [co0; co1; co2]
     else
       co3 ← lift (span_get positions (MFace.v4 f));
       BLI_bvhtree_insert tree i [co0; co1; co2; co3]) w
  = (skip ← lift (masked_out mask i);
     if (skip : bool) then mret tt
     else
       co ← lift (face_points positions face i);
       BLI_bvhtree_insert tree i co) w.
Proof.
  unfold face_points, mbind, M_bind, lift, result_bind.
  destruct (masked_out mask i) as [[] |]; try reflexivity.
  destruct (span_get face i) as [f |]; [| reflexivity].
  destruct (span_get positions (MFace.v1 f)); [| reflexivity].
  destruct (span_get positions (MFace.v2 f)); [| reflexivity].
  destruct (span_get positions (MFace.v3 f)); [| reflexivity].
  destruct (MFace.v4 f =? 0); [reflexivity |].
  destruct (span_get positions (MFace.v4 f)); reflexivity.
Qed.

Lemma face_points_positions (positions : list (float3 F)) (face : list MFace.t)
    (i : Z) (co : list (float3 F)) :
  face_points positions face i = Ok co -> positions <> [].
Proof.
  intros H ->. unfold face_points in H.
  destruct (span_get face i) as [f |]; [| discriminate].
  cbn in H. unfold span_get in H. cbn in H.
  repeat case_match; discriminate.
Qed.

Lemma mask_count_fits_faces_num (mask : list bool) (faces_num n : Z) :
  mask_count_fits mask (Z.to_nat faces_num) n ->
  Z.of_nat (Z.to_nat faces_num) = faces_num.
Proof.
  intros Hfits. destruct (mask_count_fits_active _ _ _ Hfits) as (i & Hi & _). lia.
Qed.

Lemma faces_create_tree_run (epsilon : F) (tree_type axis : Z)
    (positions : list (float3 F)) (face : list MFace.t) (faces_num : Z)
    (faces_mask : list bool) (faces_num_active : Z) (w : World.t F) :
  mask_count_fits faces_mask (Z.to_nat faces_num) faces_num_active ->
  active_in_range (face_points positions face) faces_mask (Z.to_nat faces_num) ->
  bvhtree_from_mesh_faces_create_tree epsilon tree_type axis positions
    (Some face) faces_num faces_mask faces_num_active w
  = Ok (Some (length (World.trees w)),
        World.Build
          (World.trees w
           ++ [BVHTree.Build (active_count faces_num faces_num_active)
                 epsilon tree_type axis
                 (masked_leafs (face_points positions face) faces_mask
                    (Z.to_nat faces_num))
                 false])
          (World.runtime w)).
Proof.
  intros Hfits Hpoints. destruct w as [ts rt]. cbn [World.trees World.runtime].
  pose proof (mask_count_fits_faces_num _ _ _ Hfits) as Hnum.
  assert (Hpos : positions <> []).
  { destruct (mask_count_fits_active _ _ _ Hfits) as (i & Hi & Hbit).
    destruct (Hpoints i Hi Hbit) as [co Hco].
    eapply face_points_positions, Hco. }
  pose proof (masked_leafs_count _ _ _ _ Hfits Hpoints) as Hcount.
  pose proof (bvhtree_new_common_mask_count epsilon tree_type axis _ _ _
                (World.Build ts rt) Hfits) as Hnew.
  rewrite Hnum in Hnew, Hcount.
  unfold bvhtree_from_mesh_faces_create_tree.
  destruct positions as [| p positions']; [contradiction |].
  erewrite M_bind_Ok by exact Hnew.
  cbn [World.trees World.runtime].
  erewrite M_bind_Ok.
  2: { rewrite IndexRange_seq.
       erewrite for_each_ext by (intros; apply faces_loop_body).
       apply (insert_masked_run _ faces_mask (Z.to_nat faces_num));
         [eapply mask_count_fits_mask, Hfits | exact Hpoints | apply seq_in_range]. }
  cbv beta. rewrite builder_finish.
  unfold with_leafs; cbn [BVHTree.leafs BVHTree.maxsize BVHTree.epsilon
                          BVHTree.tree_type BVHTree.axis BVHTree.balanced app].
  fold (masked_leafs (face_points (p :: positions') face) faces_mask
          (Z.to_nat faces_num)).
  rewrite Hcount, Z.eqb_refl. reflexivity.
Qed.

(** Without positions or without the legacy face layer nothing is inserted,
    and the builder stops at the assertion on the number of leaves. *)
Lemma faces_create_tree_no_data (epsilon : F) (tree_type axis : Z)
    (positions : list (float3 F)) (face : option (list MFace.t)) (faces_num : Z)
    (faces_mask : list bool) (faces_num_active : Z) (w : World.t F) :
  mask_count_fits faces_mask (Z.to_nat faces_num) faces_num_active ->
  positions = [] \/ face = None ->
  bvhtree_from_mesh_faces_create_tree epsilon tree_type axis positions
    face faces_num faces_mask faces_num_active w
  = Abort AssertionFailed.
Proof.
  intros Hfits Hnone. destruct w as [ts rt].
  pose proof (mask_count_fits_faces_num _ _ _ Hfits) as Hnum.
  pose proof (bvhtree_new_common_mask_count epsilon tree_type axis _ _ _
                (World.Build ts rt) Hfits) as Hnew.
  rewrite Hnum in Hnew.
  assert (Hcount : active_count faces_num faces_num_active <> 0).
  { unfold active_count. destruct Hfits as [(_ & -> & Hne) | (_ & Hn & Hne)].
    - cbn. lia.
    - pose proof (count_true_nonneg faces_mask).
      destruct (Z.eqb_spec faces_num_active (-1)); lia. }
  unfold bvhtree_from_mesh_faces_create_tree.
  erewrite M_bind_Ok by exact Hnew.
  cbn [World.trees World.runtime].
  assert (Hend : (len ← BLI_bvhtree_get_len (length ts);
                  _ ← lift (BLI_assert (len =? active_count faces_num faces_num_active));
                  mret (Some (length ts)))
                   (World.Build
                      (ts ++ [BVHTree.Build (active_count faces_num faces_num_active)
                                epsilon tree_type axis [] false]) rt)
                 = Abort AssertionFailed).
  { rewrite builder_finish. cbn [BVHTree.leafs].
    change (span_size (@nil (Z * list (float3 F)))) with 0.
    destruct (Z.eqb_spec 0 (active_count faces_num faces_num_active)); [lia |].
    reflexivity. }
  destruct Hnone as [-> | ->]; [| destruct positions];
    (erewrite M_bind_Ok by reflexivity); exact Hend.
Qed.

End FaceMaskedBuilders.

(** *** The contracts of the edge, triangle and legacy face builders *)

Section BuilderContracts.
Context {F : Type}.

(** X3: the edge builder keeps its contract.  Given a mask and a count
    that fit the edges (the empty mask with -1 over at least one edge, or
    one bit per edge with the number of set bits, not zero), and active
    edges that end at vertices of the mesh, [bvhtree_from_mesh_edges_ex]
    allocates one tree after those there were, sized by the active count,
    inserts exactly the active edges, each under its own index with the
    positions of its two ends, balances the tree and, when asked for a
    bundle, sets it up as an edge bundle over the tree, the positions and
    the edges.  The number of leaves is the active count. *)
Theorem edges_ex_leafs (data : bool) (vert_positions : list (float3 F))
    (edges : list (Z * Z)) (edges_mask : list bool) (edges_num_active : Z)
    (epsilon : F) (tree_type axis : Z) (w : World.t F) :
  mask_count_fits edges_mask (length edges) edges_num_active ->
  active_in_range (edge_points vert_positions edges) edges_mask (length edges) ->
  bvhtree_from_mesh_edges_ex data vert_positions edges edges_mask
    edges_num_active epsilon tree_type axis w
  = Ok ((Some (length (World.trees w)),
         if data then
           Some {| BVHTreeFromMesh.tree := Some (length (World.trees w));
                   BVHTreeFromMesh.nearest_callback := Some cb_mesh_edges_nearest_point;
                   BVHTreeFromMesh.raycast_callback := Some cb_mesh_edges_spherecast;
                   BVHTreeFromMesh.vert_positions := vert_positions;
                   BVHTreeFromMesh.edges := edges;
                   BVHTreeFromMesh.face := None;
                   BVHTreeFromMesh.corner_verts := [];
                   BVHTreeFromMesh.corner_tris := [];
                   BVHTreeFromMesh.owned_tree := None |}
         else None),
        World.Build
          (World.trees w
           ++ [BVHTree.Build (active_count (span_size edges) edges_num_active)
                 epsilon tree_type axis
                 (masked_leafs (edge_points vert_positions edges) edges_mask
                    (length edges))
                 true])
          (World.runtime w))
  /\ span_size (masked_leafs (edge_points vert_positions edges) edges_mask
                  (length edges))
     = active_count (span_size edges) edges_num_active.
Proof.
  intros Hfits Hpoints. split; [| apply masked_leafs_count; assumption].
  unfold bvhtree_from_mesh_edges_ex.
  erewrite M_bind_Ok by (apply edges_create_tree_run; assumption).
  destruct w as [ts rt]. cbn [World.trees World.runtime bvhtree_balance].
  erewrite M_bind_Ok by apply BLI_bvhtree_balance_last.
  destruct data; reflexivity.
Qed.

(** X4: the corner-triangle builder keeps its contract.  Given a mask and
    a count that fit the triangles, and active triangles whose corners and
    vertices are in range, [bvhtree_from_mesh_corner_tris_ex] allocates one
    tree after those there were, sized by the active count, inserts exactly
    the active triangles, each under its own index with the positions of
    its three corners, passes the assertion on the number of leaves,
    balances the tree and, when asked for a bundle, sets it up as a
    corner-triangle bundle.  The number of leaves is the active count. *)
Theorem corner_tris_ex_leafs (data : bool) (vert_positions : list (float3 F))
    (corner_verts : list Z) (corner_tris : list (Z * Z * Z))
    (corner_tris_mask : list bool) (corner_tris_num_active : Z)
    (epsilon : F) (tree_type axis : Z) (w : World.t F) :
  mask_count_fits corner_tris_mask (length corner_tris) corner_tris_num_active ->
  active_in_range (corner_tri_points vert_positions corner_verts corner_tris)
    corner_tris_mask (length corner_tris) ->
  bvhtree_from_mesh_corner_tris_ex data vert_positions corner_verts corner_tris
    corner_tris_mask corner_tris_num_active epsilon tree_type axis w
  = Ok ((Some (length (World.trees w)),
         if data then
           Some {| BVHTreeFromMesh.tree := Some (length (World.trees w));
                   BVHTreeFromMesh.nearest_callback :=
                     Some cb_mesh_corner_tris_nearest_point;
                   BVHTreeFromMesh.raycast_callback :=
                     Some cb_mesh_corner_tris_spherecast;
                   BVHTreeFromMesh.vert_positions := vert_positions;
                   BVHTreeFromMesh.edges := [];
                   BVHTreeFromMesh.face := None;
                   BVHTreeFromMesh.corner_verts := corner_verts;
                   BVHTreeFromMesh.corner_tris := corner_tris;
                   BVHTreeFromMesh.owned_tree := None |}
         else None),
        World.Build
          (World.trees w
           ++ [BVHTree.Build
                 (active_count (span_size corner_tris) corner_tris_num_active)
                 epsilon tree_type axis
                 (masked_leafs
                    (corner_tri_points vert_positions corner_verts corner_tris)
                    corner_tris_mask (length corner_tris))
                 true])
          (World.runtime w))
  /\ span_size (masked_leafs
                  (corner_tri_points vert_positions corner_verts corner_tris)
                  corner_tris_mask (length corner_tris))
     = active_count (span_size corner_tris) corner_tris_num_active.
Proof.
  intros Hfits Hpoints. split; [| apply masked_leafs_count; assumption].
  unfold bvhtree_from_mesh_corner_tris_ex.
  erewrite M_bind_Ok by (apply corner_tris_create_tree_run; assumption).
  destruct w as [ts rt]. cbn [World.trees World.runtime bvhtree_balance].
  erewrite M_bind_Ok by apply BLI_bvhtree_balance_last.
  destruct data; reflexivity.
Qed.

(** X5: the legacy face builder.  Given a mask and a count that fit
    [faces_num] faces: with a face layer whose active faces have their
    vertices in range, the builder allocates one tree sized by the active
    count and inserts exactly the active faces, each under its own index,
    with four points when [v4] is not 0 and three when it is, and passes the
    assertion on the number of leaves; without positions or without a face
    layer it inserts nothing and stops at that assertion. *)
Theorem faces_create_tree_leafs (epsilon : F) (tree_type axis : Z)
    (positions : list (float3 F)) (face : option (list MFace.t)) (faces_num : Z)
    (faces_mask : list bool) (faces_num_active : Z) (w : World.t F) :
  mask_count_fits faces_mask (Z.to_nat faces_num) faces_num_active ->
  (forall faces,
      face = Some faces ->
      active_in_range (face_points positions faces) faces_mask (Z.to_nat faces_num) ->
      bvhtree_from_mesh_faces_create_tree epsilon tree_type axis positions
        face faces_num faces_mask faces_num_active w
      = Ok (Some (length (World.trees w)),
            World.Build
              (World.trees w
               ++ [BVHTree.Build (active_count faces_num faces_num_active)
                     epsilon tree_type axis
                     (masked_leafs (face_points positions faces) faces_mask
                        (Z.to_nat faces_num))
                     false])
              (World.runtime w))
      /\ forall index co,
           In (index, co)
              (masked_leafs (face_points positions faces) faces_mask
                 (Z.to_nat faces_num)) ->
           exists f, span_get faces index = Ok f
                     /\ length co = if MFace.v4 f =? 0 then 3%nat else 4%nat)
  /\ (positions = [] \/ face = None ->
      bvhtree_from_mesh_faces_create_tree epsilon tree_type axis positions
        face faces_num faces_mask faces_num_active w
      = Abort AssertionFailed).
Proof.
  intros Hfits. split.
  - intros faces -> Hpoints. split; [apply faces_create_tree_run; assumption |].
    intros index co Hin. apply elem_of_masked_leafs in Hin.
    destruct Hin as (i & _ & _ & _ & Hco). unfold face_points in Hco.
    destruct (span_get faces index) as [f |]; [| discriminate].
    exists f. split; [reflexivity |]. cbn in Hco.
    destruct (span_get positions (MFace.v1 f)); [| discriminate].
    destruct (span_get positions (MFace.v2 f)); [| discriminate].
    destruct (span_get positions (MFace.v3 f)); [| discriminate].
    cbn in Hco. destruct (MFace.v4 f =? 0).
    + inversion Hco. reflexivity.
    + destruct (span_get positions (MFace.v4 f)); [| discriminate].
      inversion Hco. reflexivity.
  - apply faces_create_tree_no_data, Hfits.
Qed.

End BuilderContracts.

Lemma edges_ex_leafs_witness :
  bvhtree_from_mesh_edges_ex true
    (Mesh.vert_positions Samples.mesh) (Mesh.edges Samples.mesh)
    (LooseEdgeCache.is_loose_bits (Mesh.loose_edges Samples.mesh)) 1
    0%float 2 6 (World.init float)
  = Ok ((Some 0%nat,
         Some {| BVHTreeFromMesh.tree := Some 0%nat;
                 BVHTreeFromMesh.nearest_callback := Some cb_mesh_edges_nearest_point;
                 BVHTreeFromMesh.raycast_callback := Some cb_mesh_edges_spherecast;
                 BVHTreeFromMesh.vert_positions := Mesh.vert_positions Samples.mesh;
                 BVHTreeFromMesh.edges := Mesh.edges Samples.mesh;
                 BVHTreeFromMesh.face := None;
                 BVHTreeFromMesh.corner_verts := [];
                 BVHTreeFromMesh.corner_tris := [];
                 BVHTreeFromMesh.owned_tree := None |}),
        World.Build
          [BVHTree.Build 1 0%float 2 6
             [(6, [Samples.P 5 0 0; Samples.P 6 0 0])] true]
          MeshRuntime.empty).
Proof.
  apply (proj1 (edges_ex_leafs true
                  (Mesh.vert_positions Samples.mesh) (Mesh.edges Samples.mesh)
                  (LooseEdgeCache.is_loose_bits (Mesh.loose_edges Samples.mesh)) 1
                  0%float 2 6 (World.init float)
                  ltac:(right; repeat split; discriminate)
                  ltac:(intros i Hi Hbit;
                        do 7 (destruct i as [| i];
                              [first [discriminate Hbit | eexists; reflexivity] |]);
                        simpl in Hi; lia))).
Defined.

Lemma corner_tris_ex_leafs_witness :
  bvhtree_from_mesh_corner_tris_ex false
    (Mesh.vert_positions Samples.mesh) (Mesh.corner_verts Samples.mesh)
    (Mesh.corner_tris Samples.mesh) [true; true; false] 2
    0%float 2 6 (World.init float)
  = Ok ((Some 0%nat, None),
        World.Build
          [BVHTree.Build 2 0%float 2 6
             [(0, [Samples.P 0 0 0; Samples.P 1 0 0; Samples.P 1 1 0]);
              (1, [Samples.P 0 0 0; Samples.P 1 1 0; Samples.P 0 1 0])] true]
          MeshRuntime.empty).
Proof.
  apply (proj1 (corner_tris_ex_leafs false
                  (Mesh.vert_positions Samples.mesh) (Mesh.corner_verts Samples.mesh)
                  (Mesh.corner_tris Samples.mesh) [true; true; false] 2
                  0%float 2 6 (World.init float)
                  ltac:(right; repeat split; discriminate)
                  ltac:(intros i Hi Hbit;
                        do 3 (destruct i as [| i];
                              [first [discriminate Hbit | eexists; reflexivity] |]);
                        simpl in Hi; lia))).
Defined.

Lemma faces_create_tree_leafs_witness :
  bvhtree_from_mesh_faces_create_tree 0%float 2 6
    (Mesh.vert_positions Samples.mesh) (Mesh.mface Samples.mesh) 2 [] (-1)
    (World.init float)
  = Ok (Some 0%nat,
        World.Build
          [BVHTree.Build 2 0%float 2 6
             [(0, [Samples.P 0 0 0; Samples.P 1 0 0; Samples.P 1 1 0; Samples.P 0 1 0]);
              (1, [Samples.P 0 1 0; Samples.P 0 2 0; Samples.P 0 0 0])] false]
          MeshRuntime.empty).
Proof.
  apply (proj1 (proj1 (faces_create_tree_leafs 0%float 2 6
                  (Mesh.vert_positions Samples.mesh) (Mesh.mface Samples.mesh) 2
                  [] (-1) (World.init float)
                  ltac:(left; repeat split; discriminate))
                _ eq_refl
                ltac:(intros i Hi Hbit;
                      do 2 (destruct i as [| i]; [eexists; reflexivity |]);
                      simpl in Hi; lia))).
Defined.

(** ** The mask of the loose edges excluding hidden *)

Lemma elem_of_IndexRange (start size i : Z) :
  In i (IndexRange start size) <-> start <= i < start + size.
Proof.
  unfold IndexRange. rewrite <- list_elem_of_In, list_elem_of_fmap. split.
  - intros (k & -> & Hk). apply elem_of_seq in Hk. lia.
  - intros Hi. exists (Z.to_nat (i - start)). split; [lia |]. apply elem_of_seq. lia.
Qed.

Lemma elem_of_offsets_index_range (offsets : list Z) (i : Z) :
  In i (offsets_index_range offsets) <-> 0 <= i < Z.max 0 (span_size offsets - 1).
Proof. unfold offsets_index_range. rewrite elem_of_IndexRange. lia. Qed.

(** Clearing the bits of a list of elements. *)
Lemma mask_reset_list_run (es : list Z) (mask : list bool) :
  (forall e, In e es -> 0 <= e < span_size mask) ->
  exists mask',
    fold_result mask_reset es (mask, count_true mask) = Ok (mask', count_true mask')
    /\ length mask' = length mask
    /\ forall u : nat,
         mask' !! u = Some true
         <-> mask !! u = Some true /\ ~ In (Z.of_nat u) es.
Proof.
  revert mask. induction es as [| e es IH]; intros mask Hes.
  - exists mask. split; [reflexivity |]. split; [reflexivity |].
    intros u. cbn. tauto.
  - cbn [fold_result].
    rewrite mask_reset_run by (apply Hes; left; reflexivity). cbn.
    destruct (IH (<[Z.to_nat e := false]> mask)) as (mask' & Hrun & Hlen & Hbits).
    { intros e' He'. unfold span_size. rewrite length_insert.
      apply Hes. right. exact He'. }
    exists mask'. split; [exact Hrun |].
    split; [rewrite Hlen; apply length_insert |].
    intros u. rewrite Hbits, lookup_insert_false. cbn [In].
    pose proof (Hes e (or_introl eq_refl)). split.
    + intros [[Hne Hu] Hno]. split; [exact Hu |]. intros [-> | Hin]; [| tauto].
      apply Hne. lia.
    + intros [Hu Hno]. split; [split; [| exact Hu] |]; [intros -> | tauto].
      apply Hno. left. lia.
Qed.

(** The second pass of the masks: the bits of the hidden elements are
    cleared. *)
Lemma mask_reset_hidden_pass (hide : VArray bool) (mask : list bool) :
  (forall i, 0 <= i < span_size mask -> exists h, varray_get hide i = Ok h) ->
  exists mask',
    fold_result (mask_reset_hidden hide) (index_range mask) (mask, count_true mask)
    = Ok (mask', count_true mask')
    /\ span_size mask' = span_size mask
    /\ forall v : nat,
         mask' !! v = Some true
         <-> mask !! v = Some true /\ varray_get hide (Z.of_nat v) = Ok false.
Proof.
  intros Hhide.
  set (n := span_size mask).
  set (Inv := fun (done : list Z) (st : list bool * Z) =>
    span_size (fst st) = n /\ snd st = count_true (fst st)
    /\ forall v : nat,
         fst st !! v = Some true
         <-> mask !! v = Some true
             /\ ~ (In (Z.of_nat v) done /\ varray_get hide (Z.of_nat v) = Ok true)).
  destruct (fold_result_invariant (mask_reset_hidden hide) Inv (index_range mask))
    with (pre := @nil Z) (s := (mask, count_true mask))
    as ([mask' count] & Hfold & Hlen' & Hcount & Hbits).
  - intros done v [m count] Hv (Hm & Hcount & Hbits); cbn in Hm, Hcount, Hbits.
    subst count. apply elem_of_index_range in Hv. fold n in Hv.
    destruct (Hhide v Hv) as [h Hh].
    destruct (mask_reset_hidden_run hide m v h) as (m' & Hrun & Hlen' & Hm');
      [lia | exact Hh |].
    exists (m', count_true m'). split; [exact Hrun |].
    split; [cbn; unfold span_size in *; lia |]. split; [reflexivity |]. cbn.
    intros u. rewrite Hm', Hbits. split.
    + intros [[Hu Hno] Hnew]. split; [exact Hu |].
      intros [Hin Hhid]. apply in_app_or in Hin as [Hin | [Heq | []]].
      * apply Hno. auto.
      * apply Hnew. subst v. rewrite Nat2Z.id. split; [reflexivity |]. congruence.
    + intros [Hu Hno]. split; [split; [exact Hu |] |].
      * intros [Hin Hhid]. apply Hno. split; [apply in_or_app; auto | exact Hhid].
      * intros [-> ->]. apply Hno. rewrite Z2Nat.id by lia.
        split; [apply in_or_app; simpl; auto | exact Hh].
  - unfold Inv; cbn. split; [reflexivity |]. split; [reflexivity |].
    intros v. split; [| tauto]. intros H. split; [exact H |]. intros [[] _].
  - cbn in Hlen', Hcount, Hbits. subst count. exists mask'.
    split; [exact Hfold |]. split; [exact Hlen' |].
    intros v. rewrite Hbits. split.
    + intros [Hv Hno]. split; [exact Hv |].
      assert (Hin : 0 <= Z.of_nat v < n).
      { apply lookup_lt_Some in Hv. unfold n, span_size. lia. }
      destruct (Hhide (Z.of_nat v) Hin) as [[] Hh]; [| exact Hh].
      exfalso. apply Hno. split; [| exact Hh].
      apply elem_of_index_range. exact Hin.
    + intros [Hv Hvis]. split; [exact Hv |]. intros [_ Hhid]. congruence.
Qed.

Section LooseEdgesMask.
Context {F : Type}.

Lemma loose_edges_first_pass (mesh : Mesh.t F) :
  face_edges_in_range mesh ->
  attribute_fits (Mesh.hide_poly mesh) (Mesh.faces_num mesh) ->
  let hide_poly :=
    lookup_or_default (Mesh.hide_poly mesh) (Mesh.faces_num mesh) false in
  exists mask,
    fold_result (fun st i =>
        hidden ← varray_get hide_poly i;
        if (hidden : bool) then Ok st
        else
          face ← offsets_range (Mesh.face_offsets mesh) i;
          face_edges ← span_slice (Mesh.corner_edges mesh) face;
          fold_result mask_reset face_edges st)
      (offsets_index_range (Mesh.face_offsets mesh))
      (replicate (Z.to_nat (Mesh.edges_num mesh)) true, Mesh.edges_num mesh)
    = Ok (mask, count_true mask)
    /\ span_size mask = Mesh.edges_num mesh
    /\ forall e : nat,
         mask !! e = Some true
         <-> (Z.of_nat e < Mesh.edges_num mesh
              /\ ~ used_by_visible_face mesh (Z.of_nat e)).
Proof.
  intros Hrange Hfit hide_poly.
  set (n := Mesh.edges_num mesh).
  set (step := fun (st : list bool * Z) (i : Z) => _).
  set (Inv := fun (done : list Z) (st : list bool * Z) =>
    span_size (fst st) = n /\ snd st = count_true (fst st)
    /\ forall e : nat,
         fst st !! e = Some true
         <-> (Z.of_nat e < n
              /\ ~ exists i, In i done /\ visible_face_at mesh i (Z.of_nat e))).
  assert (Hn : 0 <= n) by (unfold n, Mesh.edges_num, span_size; lia).
  destruct (fold_result_invariant step Inv
              (offsets_index_range (Mesh.face_offsets mesh)))
    with (pre := @nil Z) (s := (replicate (Z.to_nat n) true, n))
    as ([mask count] & Hfold & Hlen & Hcount & Hbits).
  - (* one face *)
    intros done i [mask count] Hi (Hlen & Hcount & Hbits); cbn in Hlen, Hcount, Hbits.
    subst count. apply elem_of_offsets_index_range in Hi.
    fold (Mesh.faces_num mesh) in Hi.
    destruct (varray_get_total (Mesh.hide_poly mesh) (Mesh.faces_num mesh) false i
                Hfit Hi) as [hidden Hhidden].
    unfold step. fold hide_poly in Hhidden. rewrite Hhidden; cbn.
    destruct hidden.
    + exists (mask, count_true mask). split; [reflexivity |].
      split; [exact Hlen |]. split; [reflexivity |]. cbn.
      intros e. rewrite Hbits. split; intros [He Hno]; split; try exact He.
      * intros (j & Hj & Hvis). apply in_app_or in Hj as [Hj | [<- | []]].
        -- apply Hno. eauto.
        -- destruct Hvis as (face & face_edges & Hvis & _).
           unfold face_hidden in Hvis. fold hide_poly in Hvis. congruence.
      * intros (j & Hj & Hvis). apply Hno. exists j. split; [| exact Hvis].
        apply in_or_app. auto.
    + destruct (Hrange i Hi Hhidden) as (face & face_edges & Hface & Hslice & Hin).
      rewrite Hface; cbn. rewrite Hslice; cbn.
      destruct (mask_reset_list_run face_edges mask) as (mask' & Hrun & Hlen' & Hbits').
      { intros e He. rewrite Hlen. apply Hin, He. }
      exists (mask', count_true mask'). split; [exact Hrun |].
      split; [cbn; unfold span_size in *; lia |]. split; [reflexivity |]. cbn.
      intros e. rewrite Hbits', Hbits. split.
      * intros [(He & Hno) Hnew]. split; [exact He |].
        intros (j & Hj & Hvis). apply in_app_or in Hj as [Hj | [<- | []]].
        -- apply Hno. eauto.
        -- destruct Hvis as (face' & face_edges' & _ & Hface' & Hslice' & Hin').
           rewrite Hface in Hface'. inversion Hface'; subst face'.
           rewrite Hslice in Hslice'. inversion Hslice'; subst face_edges'.
           contradiction.
      * intros (He & Hno). split; [split; [exact He |] |].
        -- intros (j & Hj & Hvis). apply Hno. exists j. split; [| exact Hvis].
           apply in_or_app. auto.
        -- intros Hin'. apply Hno. exists i.
           split; [apply in_or_app; simpl; auto |].
           exists face, face_edges. auto.
  - (* before the loop *)
    unfold Inv; cbn. split; [unfold span_size; rewrite length_replicate; lia |].
    split; [rewrite count_true_replicate; lia |].
    intros e. rewrite lookup_replicate. split.
    + intros [_ He]. split; [lia |]. intros (j & [] & _).
    + intros [He _]. split; [reflexivity | lia].
  - cbn in Hlen, Hcount, Hbits. subst count. exists mask.
    split; [exact Hfold |]. split; [exact Hlen |].
    intros e. rewrite Hbits. split; intros [He Hno]; split; try exact He.
    + intros (i & Hvis). apply Hno. exists i. split; [| exact Hvis].
      destruct Hvis as (face & face_edges & _ & Hface & _).
      apply elem_of_offsets_index_range.
      unfold offsets_range in Hface.
      destruct (span_get (Mesh.face_offsets mesh) i) as [first |] eqn:H1;
        [| discriminate].
      cbn in Hface.
      destruct (span_get (Mesh.face_offsets mesh) (i + 1)) as [next |] eqn:H2;
        [| discriminate].
      apply span_get_Ok in H1 as [H0 _].
      apply span_get_Ok in H2 as [_ H2]. apply lookup_lt_Some in H2.
      unfold span_size. lia.
    + intros (i & _ & Hvis). apply Hno. exists i. exact Hvis.
Qed.

(** The mask of [loose_edges_no_hidden_mask_get], bit by bit. *)
Lemma loose_edges_no_hidden_mask_run (mesh : Mesh.t F) :
  face_edges_in_range mesh ->
  attribute_fits (Mesh.hide_poly mesh) (Mesh.faces_num mesh) ->
  attribute_fits (Mesh.hide_edge mesh) (Mesh.edges_num mesh) ->
  exists mask,
    loose_edges_no_hidden_mask_get mesh = Ok (mask, count_true mask)
    /\ span_size mask = Mesh.edges_num mesh
    /\ forall e : nat,
         mask !! e = Some true
         <-> (Z.of_nat e < Mesh.edges_num mesh
              /\ ~ used_by_visible_face mesh (Z.of_nat e))
             /\ edge_hidden mesh (Z.of_nat e) = Ok false.
Proof.
  intros Hrange Hfit_p Hfit_e.
  destruct (loose_edges_first_pass mesh Hrange Hfit_p) as (mask1 & Hpass1 & Hlen1 & Hbits1).
  destruct (mask_reset_hidden_pass
              (lookup_or_default (Mesh.hide_edge mesh) (Mesh.edges_num mesh) false)
              mask1)
    as (mask2 & Hpass2 & Hlen2 & Hbits2).
  { intros i Hi. apply varray_get_total; [exact Hfit_e | lia]. }
  unfold loose_edges_no_hidden_mask_get. cbv zeta.
  rewrite Hpass1; cbn.
  destruct (Z.eqb_spec (count_true mask1) 0) as [Hzero | Hsome]; cbn.
  - exists mask1. split; [reflexivity |]. split; [exact Hlen1 |].
    intros e. split.
    + intros He. exfalso. eapply count_true_zero; eassumption.
    + intros [He _]. apply Hbits1 in He.
      exfalso. eapply count_true_zero; eassumption.
  - exists mask2. split; [exact Hpass2 |]. split; [lia |].
    intros e. rewrite Hbits2, Hbits1. unfold edge_hidden. tauto.
Qed.

(** X6: on a mesh whose visible faces have their corners in range and
    edges among the edges of the mesh, and whose stored hide attributes
    have one value per element, the derivation of the
    loose-edge-excluding-hidden mask returns a mask with one bit per edge
    together with the number of its set bits.  An edge that a non-hidden
    face uses is never active, whatever its own hidden flag; an edge that
    no non-hidden face uses and that is not hidden itself is active; and no
    other edge is. *)
Theorem loose_edges_no_hidden_mask_spec (mesh : Mesh.t F) :
  face_edges_in_range mesh ->
  attribute_fits (Mesh.hide_poly mesh) (Mesh.faces_num mesh) ->
  attribute_fits (Mesh.hide_edge mesh) (Mesh.edges_num mesh) ->
  exists mask count,
    loose_edges_no_hidden_mask_get mesh = Ok (mask, count)
    /\ span_size mask = Mesh.edges_num mesh
    /\ count = count_true mask
    /\ forall e, 0 <= e < Mesh.edges_num mesh ->
         (used_by_visible_face mesh e -> mask !! Z.to_nat e = Some false)
         /\ (~ used_by_visible_face mesh e -> edge_hidden mesh e = Ok false ->
             mask !! Z.to_nat e = Some true)
         /\ (mask !! Z.to_nat e = Some true ->
             ~ used_by_visible_face mesh e /\ edge_hidden mesh e = Ok false).
Proof.
  intros Hrange Hfit_p Hfit_e.
  destruct (loose_edges_no_hidden_mask_run mesh Hrange Hfit_p Hfit_e)
    as (mask & Hrun & Hlen & Hbits).
  exists mask, (count_true mask).
  split; [exact Hrun |]. split; [exact Hlen |]. split; [reflexivity |].
  intros e He.
  assert (Hbits' := Hbits (Z.to_nat e)). rewrite Z2Nat.id in Hbits' by lia.
  split; [| split].
  - intros Hused.
    destruct (lookup_lt_is_Some_2 mask (Z.to_nat e)) as [b Hb];
      [unfold span_size in Hlen; lia |].
    destruct b; [| exact Hb]. apply Hbits' in Hb. tauto.
  - intros Hloose Hvis. apply Hbits'. split; [split; [lia | exact Hloose] | exact Hvis].
  - intros Hb. apply Hbits' in Hb. tauto.
Qed.

End LooseEdgesMask.

(** ** The mask of the triangles of non-hidden faces *)

Lemma result_bind_Ok {A B : Type} (a : A) (f : A -> result B) :
  (x ← Ok a; f x) = f a.
Proof. reflexivity. Qed.

Lemma count_true_app (a b : list bool) :
  count_true (a ++ b) = count_true a + count_true b.
Proof. induction a as [| x a IH]; cbn [app count_true]; lia. Qed.

Lemma count_true_replicate_false (n : nat) : count_true (replicate n false) = 0.
Proof. induction n as [| n IH]; simpl replicate; simpl count_true; lia. Qed.

Lemma mask_set_next (pre : list bool) (rest : nat) :
  mask_set (pre ++ replicate (S rest) false) (Z.of_nat (length pre))
  = Ok ((pre ++ [true]) ++ replicate rest false).
Proof.
  unfold mask_set.
  rewrite (span_get_of_nat _ _ false)
    by (rewrite lookup_app_r, Nat.sub_diag by lia; reflexivity).
  cbn. rewrite Nat2Z.id.
  rewrite insert_app_r_alt, Nat.sub_diag by lia. cbn.
  rewrite <- app_assoc. reflexivity.
Qed.

(** The inner loop: one bit set for each triangle of a face that is not
    hidden. *)
Lemma set_triangles_run {A : Type} (l : list A) (pre : list bool) (rest : nat)
    (count : Z) :
  (length l <= rest)%nat ->
  fold_result (fun '(mask, tri_index, no_hidden_len) _ =>
      mask ← mask_set mask tri_index;
      Ok (mask, tri_index + 1, no_hidden_len + 1))
    l (pre ++ replicate rest false, Z.of_nat (length pre), count)
  = Ok ((pre ++ replicate (length l) true) ++ replicate (rest - length l) false,
        Z.of_nat (length (pre ++ replicate (length l) true)),
        count + Z.of_nat (length l)).
Proof.
  revert pre rest count. induction l as [| x l IH]; intros pre rest count Hlen.
  - cbn. rewrite app_nil_r, Nat.sub_0_r, Z.add_0_r. reflexivity.
  - cbn [length] in Hlen. destruct rest as [| rest]; [lia |].
    cbn [fold_result]. rewrite mask_set_next. cbn.
    replace (Z.of_nat (length pre) + 1) with (Z.of_nat (length (pre ++ [true])))
      by (rewrite length_app; cbn; lia).
    rewrite IH by lia.
    replace ((pre ++ [true]) ++ replicate (length l) true)
      with (pre ++ replicate (length (x :: l)) true)
      by (rewrite <- app_assoc; reflexivity).
    replace (rest - length l)%nat with (S rest - length (x :: l))%nat by reflexivity.
    replace (count + 1 + Z.of_nat (length l))
      with (count + Z.of_nat (length (x :: l))) by (cbn [length]; lia).
    reflexivity.
Qed.

Section NoHiddenMap.

Variable faces : list Z.
Variable hide_poly : VArray bool.

(** The loop over the faces, from the state after the faces before. *)
Lemma no_hidden_faces_run (l : list Z) (bits : list (list bool))
    (pre : list bool) (rest : nat) :
  (forall i face, In i l -> offsets_range faces i = Ok face ->
     0 <= face_triangles_num (snd face)) ->
  map_result (face_triangle_bits faces hide_poly) l = Ok bits ->
  (length (concat bits) <= rest)%nat ->
  fold_result (fun '(mask, tri_index, no_hidden_len) i =>
      face ← offsets_range faces i;
      let triangles_num := face_triangles_num (snd face) in
      hidden ← varray_get hide_poly i;
      if (hidden : bool) then Ok (mask, tri_index + triangles_num, no_hidden_len)
      else
        fold_result (fun '(mask, tri_index, no_hidden_len) _ =>
            mask ← mask_set mask tri_index;
            Ok (mask, tri_index + 1, no_hidden_len + 1))
          (IndexRange 0 triangles_num) (mask, tri_index, no_hidden_len))
    l (pre ++ replicate rest false, Z.of_nat (length pre), count_true pre)
  = Ok ((pre ++ concat bits) ++ replicate (rest - length (concat bits)) false,
        Z.of_nat (length (pre ++ concat bits)),
        count_true (pre ++ concat bits)).
Proof.
  revert bits pre rest. induction l as [| i l IH]; intros bits pre rest Hsize Hbits Hlen.
  - inversion Hbits; subst bits. cbn. rewrite app_nil_r, Nat.sub_0_r. reflexivity.
  - apply map_result_cons_inv in Hbits as (b & bits' & Hb & Hbits & ->).
    cbn [concat] in *. rewrite length_app in Hlen.
    unfold face_triangle_bits in Hb.
    apply result_bind_inv in Hb as (face & Hface & Hb).
    apply result_bind_inv in Hb as (hidden & Hhidden & Hb).
    inversion Hb; subst b; clear Hb.
    pose proof (Hsize i face (or_introl eq_refl) Hface) as Hnum.
    set (k := Z.to_nat (face_triangles_num (snd face))) in *.
    rewrite length_replicate in Hlen.
    cbn [fold_result]. rewrite Hface; cbn. rewrite Hhidden; cbn.
    assert (Hrest : replicate rest false
                    = replicate k false ++ replicate (rest - k) false).
    { rewrite <- replicate_add. f_equal. lia. }
    destruct hidden; cbn [negb].
    + replace (Z.of_nat (length pre) + face_triangles_num (snd face))
        with (Z.of_nat (length (pre ++ replicate k false)))
        by (rewrite length_app, length_replicate; lia).
      replace (count_true pre) with (count_true (pre ++ replicate k false))
        by (rewrite count_true_app, count_true_replicate_false; lia).
      rewrite Hrest, app_assoc, result_bind_Ok.
      rewrite (IH bits' (pre ++ replicate k false) (rest - k)%nat);
        [| intros j f Hj; apply Hsize; right; exact Hj | exact Hbits | lia].
      cbn [negb]. rewrite <- !app_assoc, !length_app, !length_replicate.
      replace (rest - k - length (concat bits'))%nat
        with (rest - (k + length (concat bits')))%nat by lia.
      reflexivity.
    + rewrite (set_triangles_run (IndexRange 0 (face_triangles_num (snd face))))
        by (rewrite IndexRange_length; fold k; lia).
      rewrite IndexRange_length. fold k.
      replace (count_true pre + Z.of_nat k)
        with (count_true (pre ++ replicate k true))
        by (rewrite count_true_app, count_true_replicate; lia).
      rewrite result_bind_Ok.
      rewrite (IH bits' (pre ++ replicate k true) (rest - k)%nat);
        [| intros j f Hj; apply Hsize; right; exact Hj | exact Hbits | lia].
      cbn [negb]. rewrite <- !app_assoc, !length_app, !length_replicate.
      replace (rest - k - length (concat bits'))%nat
        with (rest - (k + length (concat bits')))%nat by lia.
      reflexivity.
Qed.

End NoHiddenMap.

(** The mask and the count when the fast path is not taken. *)
Lemma corner_tris_no_hidden_map_run (faces : list Z) (hide_poly : VArray bool)
    (corner_tris_len corner_tris_active_len : Z) (bits : list bool) :
  single_false hide_poly = false ->
  faces_triangles_nonneg faces ->
  no_hidden_bits faces hide_poly = Ok bits ->
  span_size bits = corner_tris_len ->
  corner_tris_no_hidden_map_get faces hide_poly corner_tris_len
    corner_tris_active_len
  = Ok (bits, count_true bits).
Proof.
  intros Hsingle Hsize Hbits Hlen.
  unfold no_hidden_bits in Hbits.
  apply result_bind_inv in Hbits as (bitsl & Hbitsl & Hbits).
  inversion Hbits; subst bits; clear Hbits.
  pose proof (no_hidden_faces_run faces hide_poly (offsets_index_range faces)
                bitsl [] (Z.to_nat corner_tris_len) Hsize Hbitsl) as Hrun.
  cbn [app length count_true] in Hrun. change (Z.of_nat 0) with 0 in Hrun.
  unfold span_size in Hlen.
  assert (Hmask : forall m : result (list bool * Z),
            match hide_poly with
            | VArraySingle false _ => Ok ([], corner_tris_active_len)
            | _ => m
            end = m).
  { intros m. destruct hide_poly as [[] size | data]; try reflexivity.
    discriminate. }
  unfold corner_tris_no_hidden_map_get. rewrite Hmask. cbv zeta.
  rewrite Hrun by lia. rewrite result_bind_Ok.
  replace (Z.to_nat corner_tris_len - length (concat bitsl))%nat with 0%nat by lia.
  cbn. rewrite app_nil_r. reflexivity.
Qed.

(** X7: the mask of the triangles of non-hidden faces.  When the hide
    attribute is a single value, false, the function returns the empty mask
    at once and leaves the active count as the caller had it.  Otherwise,
    when no face has fewer than two corners and the triangles of the faces
    are as many as [corner_tris_len], it returns one bit per triangle, face
    after face, the bits of a face set exactly when the face is not hidden,
    together with the number of set bits. *)
Theorem corner_tris_no_hidden_map_spec (faces : list Z) (hide_poly : VArray bool)
    (corner_tris_len corner_tris_active_len : Z) :
  (single_false hide_poly = true ->
   corner_tris_no_hidden_map_get faces hide_poly corner_tris_len
     corner_tris_active_len
   = Ok ([], corner_tris_active_len))
  /\ (single_false hide_poly = false ->
      faces_triangles_nonneg faces ->
      forall bits,
        no_hidden_bits faces hide_poly = Ok bits ->
        span_size bits = corner_tris_len ->
        corner_tris_no_hidden_map_get faces hide_poly corner_tris_len
          corner_tris_active_len
        = Ok (bits, count_true bits)).
Proof.
  split.
  - destruct hide_poly as [[] size | data]; try discriminate. reflexivity.
  - intros Hsingle Hsize bits Hbits Hlen.
    apply corner_tris_no_hidden_map_run; assumption.
Qed.

(** ** Trees over vertex, edge and point subsets *)

Section Subsets.
Context {F : Type} `{!BLI_math F}.

(** The loop of the subset builders. *)
Lemma insert_listed_run (points : Z -> result (list (float3 F)))
    (indices : list Z) (items : list (Z * list (float3 F)))
    (ts : list (BVHTree.t F)) (t : BVHTree.t F) (rt : MeshRuntime.t) :
  listed_leafs points indices = Ok items ->
  for_each indices (fun i =>
      co ← lift (points i);
      BLI_bvhtree_insert (length ts) i co)
    (World.Build (ts ++ [t]) rt)
  = Ok (tt, World.Build (ts ++ [with_leafs t (BVHTree.leafs t ++ items)]) rt).
Proof.
  unfold listed_leafs.
  revert items t. induction indices as [| i indices IH]; intros items t H.
  - inversion H. rewrite with_leafs_nil. reflexivity.
  - apply map_result_cons_inv in H as (y & items' & Hy & Hrest & ->).
    apply result_bind_inv in Hy as (co & Hco & Hy). inversion Hy; subst y.
    cbn [for_each].
    erewrite M_bind_Ok.
    2: { erewrite M_bind_Ok by (apply lift_Ok, Hco).
         apply BLI_bvhtree_insert_last. }
    rewrite (IH items' _ Hrest).
    unfold with_leafs; cbn. rewrite <- app_assoc. reflexivity.
Qed.

Lemma listed_leafs_points (points : Z -> result (list (float3 F)))
    (indices : list Z) (items : list (Z * list (float3 F))) :
  listed_leafs points indices = Ok items ->
  fst <$> items = indices
  /\ forall i co, In (i, co) items -> points i = Ok co.
Proof.
  unfold listed_leafs.
  revert items. induction indices as [| i indices IH]; intros items H.
  - inversion H. split; [reflexivity | intros ? ? []].
  - apply map_result_cons_inv in H as (y & items' & Hy & Hrest & ->).
    apply result_bind_inv in Hy as (co & Hco & Hy). inversion Hy; subst y.
    destruct (IH items' Hrest) as [Hfst Hin]. split.
    + cbn. rewrite Hfst. reflexivity.
    + intros j c [Heq | Hj]; [inversion Heq; subst; exact Hco | apply Hin, Hj].
Qed.

Lemma verts_loop_body (positions : list (float3 F)) (tree : BVHTreePtr) (i : Z)
    (w : World.t F) :
  (position ← lift (span_get positions i);
   BLI_bvhtree_insert tree i [position]) w
  = (co ← lift (vert_points positions i);
     BLI_bvhtree_insert tree i co) w.
Proof.
  unfold vert_points, mbind, M_bind, lift, result_bind.
  destruct (span_get positions i); reflexivity.
Qed.

Lemma edges_listed_body (positions : list (float3 F)) (edges : list (Z * Z))
    (tree : BVHTreePtr) (i : Z) (w : World.t F) :
  (edge ← lift (span_get edges i);
   co0 ← lift (span_get positions (fst edge));
   co1 ← lift (span_get positions (snd edge));
   BLI_bvhtree_insert tree i [co0; co1]) w
  = (co ← lift (edge_points positions edges i);
     BLI_bvhtree_insert tree i co) w.
Proof.
  unfold edge_points, mbind, M_bind, lift, result_bind.
  destruct (span_get edges i) as [edge |]; [| reflexivity].
  destruct (span_get positions (fst edge)); [| reflexivity].
  destruct (span_get positions (snd edge)); reflexivity.
Qed.

(** X8: when the subset has as many vertices as the mesh, the operation
    is the cached vertex tree.  Otherwise, on a subset of vertices of the
    mesh, it leaves the cache of the mesh as it was and returns a vertex
    bundle that owns its tree: a new tree, after those there were, sized by
    the subset, holding exactly the listed vertices in the order of the
    subset, each under its own index, and balanced; on the empty subset no
    tree is allocated and the handle is null. *)
Theorem verts_init_spec (mesh : Mesh.t F) (verts_mask : list Z) (w : World.t F) :
  (span_size verts_mask = Mesh.verts_num mesh ->
   BKE_bvhtree_from_mesh_verts_init mesh verts_mask w = bvh_verts mesh w)
  /\ (span_size verts_mask <> Mesh.verts_num mesh ->
      forall leafs,
        listed_leafs (vert_points (Mesh.vert_positions mesh)) verts_mask = Ok leafs ->
        BKE_bvhtree_from_mesh_verts_init mesh verts_mask w
        = if decide (verts_mask = []) then
            Ok (owned_bundle None (Some cb_mesh_verts_spherecast)
                  (Mesh.vert_positions mesh) [] None, w)
          else
            Ok (owned_bundle None (Some cb_mesh_verts_spherecast)
                  (Mesh.vert_positions mesh) [] (Some (length (World.trees w))),
                World.Build
                  (World.trees w
                   ++ [BVHTree.Build (span_size verts_mask) f_zero 2 6 leafs true])
                  (World.runtime w))).
Proof.
  split.
  - intros Hall. unfold BKE_bvhtree_from_mesh_verts_init.
    rewrite Hall, Z.eqb_refl. reflexivity.
  - intros Hsub leafs Hleafs. unfold BKE_bvhtree_from_mesh_verts_init.
    destruct (Z.eqb_spec (span_size verts_mask) (Mesh.verts_num mesh));
      [contradiction |].
    erewrite M_bind_Ok by (apply lift_Ok; reflexivity).
    destruct (decide (verts_mask = [])) as [-> | Hne].
    + erewrite M_bind_Ok
        by (apply bvhtree_new_common_zero; right; split; reflexivity).
      reflexivity.
    + erewrite M_bind_Ok.
      2: { apply bvhtree_new_common_all. unfold span_size.
           destruct verts_mask; [contradiction | simpl; lia]. }
      destruct w as [ts rt]. cbn [World.trees World.runtime].
      erewrite M_bind_Ok.
      2: { erewrite for_each_ext by (intros; apply verts_loop_body).
           apply insert_listed_run, Hleafs. }
      erewrite M_bind_Ok by (apply BLI_bvhtree_balance_last).
      reflexivity.
Qed.

(** X9: when the subset has as many edges as the mesh, the operation is
    the cached edge tree.  Otherwise, on a subset of edges of the mesh that
    end at vertices of the mesh, it leaves the cache of the mesh as it was
    and returns an edge bundle, with the edges of the mesh, that owns its
    tree: a new tree, after those there were, sized by the subset, holding
    exactly the listed edges in the order of the subset, each under its own
    index with the positions of its two ends, and balanced; on the empty
    subset no tree is allocated and the handle is null. *)
Theorem edges_init_spec (mesh : Mesh.t F) (edges_mask : list Z) (w : World.t F) :
  (span_size edges_mask = Mesh.edges_num mesh ->
   BKE_bvhtree_from_mesh_edges_init mesh edges_mask w = bvh_edges mesh w)
  /\ (span_size edges_mask <> Mesh.edges_num mesh ->
      forall leafs,
        listed_leafs (edge_points (Mesh.vert_positions mesh) (Mesh.edges mesh))
          edges_mask = Ok leafs ->
        BKE_bvhtree_from_mesh_edges_init mesh edges_mask w
        = if decide (edges_mask = []) then
            Ok (owned_bundle (Some cb_mesh_edges_nearest_point)
                  (Some cb_mesh_edges_spherecast)
                  (Mesh.vert_positions mesh) (Mesh.edges mesh) None, w)
          else
            Ok (owned_bundle (Some cb_mesh_edges_nearest_point)
                  (Some cb_mesh_edges_spherecast)
                  (Mesh.vert_positions mesh) (Mesh.edges mesh)
                  (Some (length (World.trees w))),
                World.Build
                  (World.trees w
                   ++ [BVHTree.Build (span_size edges_mask) f_zero 2 6 leafs true])
                  (World.runtime w))).
Proof.
  split.
  - intros Hall. unfold BKE_bvhtree_from_mesh_edges_init.
    rewrite Hall, Z.eqb_refl. reflexivity.
  - intros Hsub leafs Hleafs. unfold BKE_bvhtree_from_mesh_edges_init.
    destruct (Z.eqb_spec (span_size edges_mask) (Mesh.edges_num mesh));
      [contradiction |].
    erewrite M_bind_Ok by (apply lift_Ok; reflexivity).
    destruct (decide (edges_mask = [])) as [-> | Hne].
    + erewrite M_bind_Ok
        by (apply bvhtree_new_common_zero; right; split; reflexivity).
      reflexivity.
    + erewrite M_bind_Ok.
      2: { apply bvhtree_new_common_all. unfold span_size.
           destruct edges_mask; [contradiction | simpl; lia]. }
      destruct w as [ts rt]. cbn [World.trees World.runtime].
      erewrite M_bind_Ok.
      2: { erewrite for_each_ext by (intros; apply edges_listed_body).
           apply insert_listed_run, Hleafs. }
      erewrite M_bind_Ok by (apply BLI_bvhtree_balance_last).
      reflexivity.
Qed.

(** X10: the tree over a subset of the points of a point cloud.  On a
    subset of points of the cloud, the operation allocates one tree after
    those there were, sized by the subset, inserts exactly the listed
    points in the order of the subset, each under its own index, balances
    it, and fills the bundle with the tree, the positions of the cloud and
    a null nearest-point callback.  On the empty subset nothing is
    allocated: only the tree field is written (null), and the callback and
    the coordinates of the bundle stay as the caller passed them. *)
Theorem pointcloud_get_spec (positions : list (float3 F)) (points_mask : list Z)
    (r_data : BVHTreeFromPointCloud) (w : World.t F) :
  forall leafs,
    listed_leafs (vert_points positions) points_mask = Ok leafs ->
    BKE_bvhtree_from_pointcloud_get positions points_mask r_data w
    = if decide (points_mask = []) then
        Ok ({| pc_tree := None;
               pc_nearest_callback := pc_nearest_callback r_data;
               pc_coords := pc_coords r_data |}, w)
      else
        Ok ({| pc_tree := Some (length (World.trees w));
               pc_nearest_callback := None;
               pc_coords := Some positions |},
            World.Build
              (World.trees w
               ++ [BVHTree.Build (span_size points_mask) f_zero 2 6 leafs true])
              (World.runtime w)).
Proof.
  intros leafs Hleafs. unfold BKE_bvhtree_from_pointcloud_get.
  destruct (decide (points_mask = [])) as [-> | Hne].
  - erewrite M_bind_Ok
      by (apply bvhtree_new_common_zero; right; split; reflexivity).
    reflexivity.
  - erewrite M_bind_Ok.
    2: { apply bvhtree_new_common_all. unfold span_size.
         destruct points_mask; [contradiction | simpl; lia]. }
    destruct w as [ts rt]. cbn [World.trees World.runtime].
    erewrite M_bind_Ok.
    2: { erewrite for_each_ext by (intros; apply verts_loop_body).
         apply insert_listed_run, Hleafs. }
    erewrite M_bind_Ok by (apply BLI_bvhtree_balance_last).
    reflexivity.
Qed.

End Subsets.

(** ** What the cached getters may touch *)

Section Frame.
Context {F : Type} `{!BLI_math F}.

Lemma same_below_refl (p : nat) (w : World.t F) : same_below p w w.
Proof. repeat split. Qed.

Lemma same_below_trans (p : nat) (w1 w2 w3 : World.t F) :
  same_below p w1 w2 -> same_below p w2 w3 -> same_below p w1 w3.
Proof. intros (? & ? & ?) (? & ? & ?). repeat split; congruence. Qed.

Lemma only_tree_ret {A : Type} (p : nat) (a : A) : only_tree p (mret a : M F A).
Proof. intros w a' w' H. inversion H. apply same_below_refl. Qed.

Lemma only_tree_lift {A : Type} (p : nat) (r : result A) : only_tree p (lift r : M F A).
Proof. intros w a w' H. apply lift_inv in H as [_ ->]. apply same_below_refl. Qed.

Lemma only_tree_bind {A B : Type} (p : nat) (m : M F A) (f : A -> M F B) :
  only_tree p m -> (forall a, only_tree p (f a)) -> only_tree p (x ← m; f x).
Proof.
  intros Hm Hf w b w' H. apply M_bind_inv in H as (a & w1 & H1 & H2).
  eapply same_below_trans; [eapply Hm, H1 | eapply Hf, H2].
Qed.

Lemma only_tree_for_each {A : Type} (p : nat) (l : list A) (f : A -> M F unit) :
  (forall x, only_tree p (f x)) -> only_tree p (for_each l f).
Proof.
  intros Hf. induction l as [| x l IH]; cbn [for_each].
  - apply only_tree_ret.
  - apply only_tree_bind; [apply Hf | intros _; exact IH].
Qed.

Lemma only_tree_update (p : nat) (f : BVHTree.t F -> BVHTree.t F) :
  only_tree p (update_tree p f).
Proof.
  intros w a w' H. unfold update_tree in H.
  case_match; [| discriminate]. inversion H; subst; clear H.
  repeat split; cbn.
  - apply length_insert.
  - apply take_insert_ge. lia.
Qed.

Lemma only_tree_get_len (p q : nat) : only_tree p (BLI_bvhtree_get_len q : M F Z).
Proof.
  intros w a w' H. unfold BLI_bvhtree_get_len in H.
  case_match; [| discriminate]. inversion H.
  apply same_below_refl.
Qed.

Lemma only_tree_if {A : Type} (p : nat) (b : bool) (m1 m2 : M F A) :
  only_tree p m1 -> only_tree p m2 -> only_tree p (if b then m1 else m2).
Proof. destruct b; auto. Qed.

(** A world that differs from one with a last tree only in that tree has
    the same trees before it. *)
Lemma same_below_last (ts : list (BVHTree.t F)) (t : BVHTree.t F)
    (rt : MeshRuntime.t) (w' : World.t F) :
  same_below (length ts) (World.Build (ts ++ [t]) rt) w' ->
  World.runtime w' = rt /\ exists t', World.trees w' = ts ++ [t'].
Proof.
  intros (Hrt & Hlen & Htake). cbn in Hrt, Hlen, Htake. split; [exact Hrt |].
  rewrite take_app_length in Htake. rewrite length_app in Hlen. cbn in Hlen.
  destruct (lookup_lt_is_Some_2 (World.trees w') (length ts)) as [t' Ht']; [lia |].
  exists t'. rewrite <- (take_drop (length ts) (World.trees w')), Htake.
  f_equal. rewrite (drop_S _ _ _ Ht'), drop_ge by lia. reflexivity.
Qed.

(** What [bvhtree_new_common] leaves behind. *)
Lemma bvhtree_new_common_inv (epsilon : F) (tree_type axis elems_num : Z)
    (elems_num_active : Z) (w w' : World.t F) (tree : option BVHTreePtr) (n : Z) :
  bvhtree_new_common epsilon tree_type axis elems_num elems_num_active w
  = Ok ((tree, n), w') ->
  (tree = None /\ w' = w)
  \/ (tree = Some (length (World.trees w))
      /\ exists t, w' = World.Build (World.trees w ++ [t]) (World.runtime w)).
Proof.
  unfold bvhtree_new_common. intros H.
  apply M_bind_inv in H as (k & w1 & Hk & H).
  assert (w1 = w) as ->.
  { destruct (negb (elems_num_active =? -1)).
    - apply M_bind_inv in Hk as ([] & w2 & Hassert & Hk).
      apply lift_inv in Hassert as [_ ->]. inversion Hk. reflexivity.
    - inversion Hk. reflexivity. }
  destruct (k =? 0).
  - inversion H. left. auto.
  - apply M_bind_inv in H as (p & w2 & Hnew & H). inversion H; subst; clear H.
    unfold BLI_bvhtree_new in Hnew. inversion Hnew; subst. right. eauto.
Qed.

(** The rest of a builder, from the new tree on. *)
Lemma builder_rest_frame (w w0 w' : World.t F) (tree : option BVHTreePtr)
    (result : option BVHTreePtr)
    (rest : BVHTreePtr -> M F (option BVHTreePtr)) :
  (tree = None /\ w0 = w)
  \/ (tree = Some (length (World.trees w))
      /\ exists t, w0 = World.Build (World.trees w ++ [t]) (World.runtime w)) ->
  (forall p, only_tree p (rest p)) ->
  (forall p w1 r w2, rest p w1 = Ok (r, w2) -> r = Some p) ->
  match tree with
  | None => mret None
  | Some p => rest p
  end w0 = Ok (result, w') ->
  World.runtime w' = World.runtime w /\ adds_tree w w' result.
Proof.
  intros [(-> & ->) | (-> & t & ->)] Honly Hres H.
  - inversion H; subst. split; [reflexivity |]. left. auto.
  - pose proof (Hres _ _ _ _ H) as ->.
    apply Honly, same_below_last in H as (Hrt & t' & Ht').
    split; [exact Hrt |]. right. eauto.
Qed.

Ltac only_tree_tac :=
  repeat first
    [ apply only_tree_ret
    | apply only_tree_lift
    | apply only_tree_get_len
    | apply only_tree_update
    | apply only_tree_for_each; intros
    | apply only_tree_if
    | apply only_tree_bind; [| intros] ].

Ltac builder_result H :=
  repeat (apply M_bind_inv in H as (? & ? & _ & H)); inversion H; reflexivity.

Lemma verts_create_tree_frame (epsilon : F) (tree_type axis : Z)
    (positions : list (float3 F)) (verts_mask : list bool) (verts_num_active : Z)
    (w w' : World.t F) (tree : option BVHTreePtr) :
  bvhtree_from_mesh_verts_create_tree epsilon tree_type axis positions
    verts_mask verts_num_active w = Ok (tree, w') ->
  World.runtime w' = World.runtime w /\ adds_tree w w' tree.
Proof.
  unfold bvhtree_from_mesh_verts_create_tree. intros H.
  apply M_bind_inv in H as ([tree0 n] & w0 & Hnew & H).
  apply bvhtree_new_common_inv in Hnew. cbv beta iota in H.
  eapply builder_rest_frame; [exact Hnew | | | exact H].
  - intros p. only_tree_tac.
  - intros p w1 r w2 Hrest. builder_result Hrest.
Qed.

Lemma edges_create_tree_frame (positions : list (float3 F)) (edges : list (Z * Z))
    (edges_mask : list bool) (edges_num_active : Z) (epsilon : F)
    (tree_type axis : Z) (w w' : World.t F) (tree : option BVHTreePtr) :
  bvhtree_from_mesh_edges_create_tree positions edges edges_mask
    edges_num_active epsilon tree_type axis w = Ok (tree, w') ->
  World.runtime w' = World.runtime w /\ adds_tree w w' tree.
Proof.
  unfold bvhtree_from_mesh_edges_create_tree. intros H.
  apply M_bind_inv in H as ([tree0 n] & w0 & Hnew & H).
  apply bvhtree_new_common_inv in Hnew. cbv beta iota in H.
  eapply builder_rest_frame; [exact Hnew | | | exact H].
  - intros p. only_tree_tac.
  - intros p w1 r w2 Hrest. builder_result Hrest.
Qed.

Lemma faces_create_tree_frame (epsilon : F) (tree_type axis : Z)
    (positions : list (float3 F)) (face : option (list MFace.t)) (faces_num : Z)
    (faces_mask : list bool) (faces_num_active : Z)
    (w w' : World.t F) (tree : option BVHTreePtr) :
  bvhtree_from_mesh_faces_create_tree epsilon tree_type axis positions face
    faces_num faces_mask faces_num_active w = Ok (tree, w') ->
  World.runtime w' = World.runtime w /\ adds_tree w w' tree.
Proof.
  unfold bvhtree_from_mesh_faces_create_tree. intros H.
  apply M_bind_inv in H as ([tree0 n] & w0 & Hnew & H).
  apply bvhtree_new_common_inv in Hnew. cbv beta iota in H.
  eapply builder_rest_frame; [exact Hnew | | | exact H].
  - intros p. destruct positions, face; only_tree_tac.
  - intros p w1 r w2 Hrest. builder_result Hrest.
Qed.

Lemma corner_tris_create_tree_frame (epsilon : F) (tree_type axis : Z)
    (positions : list (float3 F)) (corner_verts : list Z)
    (corner_tris : list (Z * Z * Z)) (corner_tris_mask : list bool)
    (corner_tris_num_active : Z) (w w' : World.t F) (tree : option BVHTreePtr) :
  bvhtree_from_mesh_corner_tris_create_tree epsilon tree_type axis positions
    corner_verts corner_tris corner_tris_mask corner_tris_num_active w
  = Ok (tree, w') ->
  World.runtime w' = World.runtime w /\ adds_tree w w' tree.
Proof.
  unfold bvhtree_from_mesh_corner_tris_create_tree. intros H.
  destruct positions as [| p0 positions].
  { inversion H; subst. split; [reflexivity |]. left. auto. }
  apply M_bind_inv in H as ([tree0 n] & w0 & Hnew & H).
  apply bvhtree_new_common_inv in Hnew. cbv beta iota in H.
  eapply builder_rest_frame; [exact Hnew | | | exact H].
  - intros p. only_tree_tac.
  - intros p w1 r w2 Hrest. builder_result Hrest.
Qed.

(** Balancing the tree a builder returned. *)
Lemma cache_item_of_frame (w w1 w' : World.t F) (tree : option BVHTreePtr)
    (item : BVHCacheItem.t) :
  World.runtime w1 = World.runtime w /\ adds_tree w w1 tree ->
  cache_item_of tree w1 = Ok (item, w') ->
  World.runtime w' = World.runtime w
  /\ adds_tree w w' (BVHCacheItem.tree item).
Proof.
  intros [Hrt Hadds] H. unfold cache_item_of in H.
  apply M_bind_inv in H as ([] & w2 & Hbalance & H). inversion H; subst; clear H.
  cbn [BVHCacheItem.tree].
  destruct Hadds as [(-> & Hts) | (-> & t & Hts)].
  - inversion Hbalance; subst. split; [exact Hrt |]. left. auto.
  - destruct w1 as [ts1 rt1]. cbn in Hrt, Hts. subst ts1 rt1.
    apply only_tree_update, same_below_last in Hbalance as (Hrt' & t' & Ht').
    split; [exact Hrt' |]. right. eauto.
Qed.

(** What a getter does to the world, from what its [compute_fn] does. *)
Lemma cached_getter_frame (slot : CacheSlot) (compute_fn : M F BVHCacheItem.t)
    (finish : BVHCacheItem.t -> result (BVHTreeFromMesh.t F))
    (w w' : World.t F) (data : BVHTreeFromMesh.t F) :
  (forall x r, slot_get slot (slot_set slot x r) = x) ->
  (forall w0 item w1, compute_fn w0 = Ok (item, w1) ->
     World.runtime w1 = World.runtime w0
     /\ adds_tree w0 w1 (BVHCacheItem.tree item)) ->
  (forall item d, finish item = Ok d ->
     BVHTreeFromMesh.tree d = BVHCacheItem.tree item) ->
  (_ ← SharedCache_ensure slot compute_fn;
   tree ← SharedCache_data slot;
   lift (finish tree)) w = Ok (data, w') ->
  (slot_get slot (World.runtime w) <> None /\ w' = w)
  \/ (slot_get slot (World.runtime w) = None
      /\ World.runtime w'
         = slot_set slot (Some (BVHCacheItem.Build (BVHTreeFromMesh.tree data)))
             (World.runtime w)
      /\ adds_tree w w' (BVHTreeFromMesh.tree data)).
Proof.
  intros Hlens Hcompute Hfinish H.
  apply M_bind_inv in H as ([] & w1 & Hensure & H).
  apply M_bind_inv in H as (item & w2 & Hdata & H).
  apply lift_inv in H as [Hdone ->]. apply Hfinish in Hdone.
  unfold SharedCache_data in Hdata.
  destruct (slot_get slot (World.runtime w1)) as [item' |] eqn:Hslot1;
    [| discriminate].
  inversion Hdata; subst item' w2; clear Hdata.
  unfold SharedCache_ensure in Hensure.
  destruct (slot_get slot (World.runtime w)) as [item0 |] eqn:Hslot.
  - inversion Hensure; subst. left. split; [discriminate | reflexivity].
  - destruct (compute_fn w) as [[item' w0] |] eqn:Hrun; [| discriminate].
    inversion Hensure; subst w1; clear Hensure.
    cbn [World.runtime World.trees] in *. rewrite Hlens in Hslot1.
    inversion Hslot1; subst item'; clear Hslot1.
    destruct (Hcompute _ _ _ Hrun) as [Hrt Hadds].
    right. split; [reflexivity |]. rewrite Hdone, Hrt.
    split; [destruct item; reflexivity |].
    destruct Hadds as [(Htree & Hts) | (Htree & t & Hts)];
      [left | right]; cbn [World.trees]; eauto.
Qed.

Lemma setup_data_tree (tree : option BVHTreePtr) (kind : BVHCacheType)
    (positions : list (float3 F)) (edges : list (Z * Z)) (corner_verts : list Z)
    (corner_tris : list (Z * Z * Z)) (face : option (list MFace.t))
    (data : BVHTreeFromMesh.t F) :
  bvhtree_from_mesh_setup_data tree kind positions edges corner_verts corner_tris face
  = Ok data ->
  BVHTreeFromMesh.tree data = tree.
Proof. destruct kind; cbn; intros H; inversion H; reflexivity. Qed.

Ltac compute_frame H :=
  try (apply M_bind_inv in H as ([? ?] & ? & Hmask & H);
       apply lift_inv in Hmask as [_ ->]);
  apply M_bind_inv in H as (? & ? & Hbuild & H);
  eapply cache_item_of_frame; [| exact H];
  first [ eapply verts_create_tree_frame, Hbuild
        | eapply edges_create_tree_frame, Hbuild
        | eapply faces_create_tree_frame, Hbuild
        | eapply corner_tris_create_tree_frame, Hbuild ].

(** What a getter does to the world, by the slot it works on. *)
Lemma get_bvh_frame_run (kind : BVHCacheType) (mesh : Mesh.t F)
    (w w' : World.t F) (data : BVHTreeFromMesh.t F) (slot : CacheSlot) :
  slot_used kind = Some slot ->
  get_bvh kind mesh w = Ok (data, w') ->
  (slot_get slot (World.runtime w) <> None /\ w' = w)
  \/ (slot_get slot (World.runtime w) = None
      /\ World.runtime w'
         = slot_set slot (Some (BVHCacheItem.Build (BVHTreeFromMesh.tree data)))
             (World.runtime w)
      /\ adds_tree w w' (BVHTreeFromMesh.tree data)).
Proof.
  destruct kind; cbn [get_bvh slot_used slot_of_kind]; intros Hused H;
    try discriminate;
    inversion Hused; subst slot; clear Hused;
    try (unfold bvh_legacy_faces in H;
         apply M_bind_inv in H as ([] & w1 & Hassert & H);
         apply lift_inv in Hassert as [_ ->]);
    (eapply cached_getter_frame; [| | | exact H];
     [ intros x r; reflexivity
     | intros w0 item w1 Hrun; compute_frame Hrun
     | intros item d Hd; eapply setup_data_tree, Hd ]).
Qed.

(** X11: what a cached getter may touch.  A getter that returns works on
    one slot, the slot of its kind as the code has it.  When that slot was
    built, the world is left exactly as it was.  When it was empty, the
    runtime changes in that slot only, which now holds the handle of the
    returned bundle, every tree there was is as it was, and at most one tree
    is added after them: the one the bundle names, when its handle is not
    null. *)
Theorem get_bvh_frame (kind : BVHCacheType) (mesh : Mesh.t F)
    (w w' : World.t F) (data : BVHTreeFromMesh.t F) :
  get_bvh kind mesh w = Ok (data, w') ->
  exists slot,
    slot_used kind = Some slot
    /\ ((slot_get slot (World.runtime w) <> None /\ w' = w)
        \/ (slot_get slot (World.runtime w) = None
            /\ World.runtime w'
               = slot_set slot
                   (Some (BVHCacheItem.Build (BVHTreeFromMesh.tree data)))
                   (World.runtime w)
            /\ adds_tree w w' (BVHTreeFromMesh.tree data))).
Proof.
  intros H.
  destruct (get_bvh_slot_used kind mesh w w' data H) as (slot & Hused & _).
  exists slot. split; [exact Hused |].
  eapply get_bvh_frame_run; eassumption.
Qed.

End Frame.

(** ** The first access of a slot *)

Section FirstAccess.
Context {F : Type} `{!BLI_math F}.

(** A getter on an empty slot. *)
Lemma cached_getter_first_access (slot : CacheSlot)
    (compute_fn : M F BVHCacheItem.t)
    (finish : BVHCacheItem.t -> result (BVHTreeFromMesh.t F))
    (w w1 : World.t F) (item : BVHCacheItem.t) (data : BVHTreeFromMesh.t F) :
  slot_get slot (World.runtime w) = None ->
  (forall x r, slot_get slot (slot_set slot x r) = x) ->
  compute_fn w = Ok (item, w1) ->
  finish item = Ok data ->
  (_ ← SharedCache_ensure slot compute_fn;
   tree ← SharedCache_data slot;
   lift (finish tree)) w
  = Ok (data, World.Build (World.trees w1)
                (slot_set slot (Some item) (World.runtime w1))).
Proof.
  intros Hslot Hlens Hrun Hfinish.
  erewrite M_bind_Ok
    by (unfold SharedCache_ensure; rewrite Hslot, Hrun; reflexivity).
  erewrite M_bind_Ok
    by (unfold SharedCache_data; cbn [World.runtime]; rewrite Hlens; reflexivity).
  apply lift_Ok, Hfinish.
Qed.

(** The [compute_fn] of a getter whose builder made a tree. *)
Lemma compute_fn_run (build : M F (option BVHTreePtr)) (w : World.t F)
    (t : BVHTree.t F) :
  build w = Ok (Some (length (World.trees w)),
                World.Build (World.trees w ++ [t]) (World.runtime w)) ->
  (tree ← build; cache_item_of tree) w
  = Ok (BVHCacheItem.Build (Some (length (World.trees w))),
        World.Build
          (World.trees w
           ++ [BVHTree.Build (BVHTree.maxsize t) (BVHTree.epsilon t)
                 (BVHTree.tree_type t) (BVHTree.axis t) (BVHTree.leafs t) true])
          (World.runtime w)).
Proof.
  intros Hbuild. erewrite M_bind_Ok by exact Hbuild.
  unfold cache_item_of.
  erewrite M_bind_Ok by apply BLI_bvhtree_balance_last.
  reflexivity.
Qed.

(** X12: the first access of the two edge getters.  On an empty slot,
    [Mesh::bvh_edges] over at least one edge builds one tree of all the
    edges of the mesh, and [Mesh::bvh_loose_edges], given a loose-edge cache
    whose bits and count fit the edges, one tree of the edges the cache
    marks; in both the edges end at vertices of the mesh.  The tree is
    epsilon 0, tree type 2, axis 6, sized by the active count, holds each
    active edge under its index with the positions of its two ends, and is
    balanced; the slot of the getter holds its handle, and the bundle is the
    one [bvhtree_from_mesh_setup_data] makes for that handle, the kind, the
    positions and the edges of the mesh. *)
Theorem edge_getters_first_access (mesh : Mesh.t F) (w : World.t F) :
  let positions := Mesh.vert_positions mesh in
  let edges := Mesh.edges mesh in
  let loose_edges := Mesh.loose_edges mesh in
  let bundle kind :=
    bvhtree_from_mesh_setup_data (Some (length (World.trees w))) kind
      positions edges [] [] None in
  (slot_get bvh_cache_edges (World.runtime w) = None ->
   edges <> [] ->
   active_in_range (edge_points positions edges) [] (length edges) ->
   exists data,
     bundle BVHTREE_FROM_EDGES = Ok data
     /\ bvh_edges mesh w
        = Ok (data,
              built w bvh_cache_edges
                (BVHTree.Build (span_size edges) f_zero 2 6
                   (masked_leafs (edge_points positions edges) [] (length edges))
                   true)))
  /\ (slot_get bvh_cache_loose_edges (World.runtime w) = None ->
      mask_count_fits (LooseEdgeCache.is_loose_bits loose_edges) (length edges)
        (LooseEdgeCache.count loose_edges) ->
      active_in_range (edge_points positions edges)
        (LooseEdgeCache.is_loose_bits loose_edges) (length edges) ->
      exists data,
        bundle BVHTREE_FROM_LOOSEEDGES = Ok data
        /\ bvh_loose_edges mesh w
           = Ok (data,
                 built w bvh_cache_loose_edges
                   (BVHTree.Build
                      (active_count (span_size edges)
                         (LooseEdgeCache.count loose_edges))
                      f_zero 2 6
                      (masked_leafs (edge_points positions edges)
                         (LooseEdgeCache.is_loose_bits loose_edges) (length edges))
                      true))).
Proof.
  cbv zeta. split.
  - intros Hslot Hne Hpoints. eexists. split; [reflexivity |].
    unfold bvh_edges, built.
    eapply (cached_getter_first_access _ _ _ w
              (World.Build (World.trees w ++ [_]) (World.runtime w))
              (BVHCacheItem.Build (Some (length (World.trees w)))));
      [exact Hslot | reflexivity | | reflexivity].
    erewrite compute_fn_run
      by (apply edges_create_tree_run;
          [left; repeat split;
           destruct (Mesh.edges mesh); [contradiction | discriminate]
          | exact Hpoints]).
    reflexivity.
  - intros Hslot Hfits Hpoints. eexists. split; [reflexivity |].
    unfold bvh_loose_edges, built.
    eapply (cached_getter_first_access _ _ _ w
              (World.Build (World.trees w ++ [_]) (World.runtime w))
              (BVHCacheItem.Build (Some (length (World.trees w)))));
      [exact Hslot | reflexivity | | reflexivity].
    erewrite compute_fn_run by (apply edges_create_tree_run; assumption).
    reflexivity.
Qed.

(** X13: the first access of the two vertex getters.  On an empty slot,
    [Mesh::bvh_verts] over at least one vertex builds one tree of all the
    vertices of the mesh, and [Mesh::bvh_loose_verts], given a loose-vertex
    cache with one bit per vertex and the number of its set bits, not zero,
    one tree of the vertices the cache marks.  The tree is epsilon 0, tree
    type 2, axis 6, sized by the active count, holds each active vertex
    under its index with its position, and is balanced; the slot of the
    getter holds its handle, and the bundle is the one
    [bvhtree_from_mesh_setup_data] makes for that handle, the kind and the
    positions of the mesh. *)
Theorem vert_getters_first_access (mesh : Mesh.t F) (w : World.t F) :
  let positions := Mesh.vert_positions mesh in
  let loose_verts := Mesh.loose_verts mesh in
  (slot_get bvh_cache_verts (World.runtime w) = None ->
   positions <> [] ->
   exists data,
     bvhtree_from_mesh_setup_data (Some (length (World.trees w)))
       BVHTREE_FROM_VERTS positions [] [] [] None = Ok data
     /\ bvh_verts mesh w
        = Ok (data,
              built w bvh_cache_verts
                (BVHTree.Build (span_size positions) f_zero 2 6
                   (vert_leafs positions []) true)))
  /\ (slot_get bvh_cache_loose_verts (World.runtime w) = None ->
      length (LooseVertCache.is_loose_bits loose_verts) = length positions ->
      LooseVertCache.count loose_verts
      = count_true (LooseVertCache.is_loose_bits loose_verts) ->
      LooseVertCache.count loose_verts <> 0 ->
      exists data,
        bvhtree_from_mesh_setup_data (Some (length (World.trees w)))
          BVHTREE_FROM_LOOSEVERTS positions [] [] [] None = Ok data
        /\ bvh_loose_verts mesh w
           = Ok (data,
                 built w bvh_cache_loose_verts
                   (BVHTree.Build (LooseVertCache.count loose_verts) f_zero 2 6
                      (vert_leafs positions
                         (LooseVertCache.is_loose_bits loose_verts))
                      true))).
Proof.
  cbv zeta. split.
  - intros Hslot Hne. eexists. split; [reflexivity |].
    unfold bvh_verts, built.
    eapply (cached_getter_first_access _ _ _ w
              (World.Build (World.trees w ++ [_]) (World.runtime w))
              (BVHCacheItem.Build (Some (length (World.trees w)))));
      [exact Hslot | reflexivity | | reflexivity].
    erewrite compute_fn_run by (apply verts_create_tree_all, Hne).
    reflexivity.
  - intros Hslot Hlen Hcount Hsome. eexists. split; [reflexivity |].
    unfold bvh_loose_verts, built.
    eapply (cached_getter_first_access _ _ _ w
              (World.Build (World.trees w ++ [_]) (World.runtime w))
              (BVHCacheItem.Build (Some (length (World.trees w)))));
      [exact Hslot | reflexivity | | reflexivity].
    rewrite Hcount in *.
    erewrite compute_fn_run by (apply verts_create_tree_masked; assumption).
    reflexivity.
Qed.

(** X14: the first access of [Mesh::bvh_corner_tris].  On an empty slot,
    over at least one triangle, with all triangles in range, the getter
    builds one tree of all the corner triangles of the mesh: epsilon 0,
    tree type 2, axis 6, sized by the number of triangles, each triangle
    under its index with the positions of its three corners, balanced.  The
    slot for the corner triangles holds its handle, and the bundle is the
    one [bvhtree_from_mesh_setup_data] makes for that handle, the kind, the
    positions, the corner vertices and the corner triangles of the mesh. *)
Theorem corner_tris_first_access (mesh : Mesh.t F) (w : World.t F) :
  let positions := Mesh.vert_positions mesh in
  let corner_verts := Mesh.corner_verts mesh in
  let corner_tris := Mesh.corner_tris mesh in
  slot_get bvh_cache_corner_tris (World.runtime w) = None ->
  corner_tris <> [] ->
  active_in_range (corner_tri_points positions corner_verts corner_tris) []
    (length corner_tris) ->
  exists data,
    bvhtree_from_mesh_setup_data (Some (length (World.trees w)))
      BVHTREE_FROM_CORNER_TRIS positions [] corner_verts corner_tris None = Ok data
    /\ bvh_corner_tris mesh w
       = Ok (data,
             built w bvh_cache_corner_tris
               (BVHTree.Build (span_size corner_tris) f_zero 2 6
                  (masked_leafs
                     (corner_tri_points positions corner_verts corner_tris) []
                     (length corner_tris))
                  true)).
Proof.
  cbv zeta. intros Hslot Hne Hpoints. eexists. split; [reflexivity |].
  unfold bvh_corner_tris, built.
  eapply (cached_getter_first_access _ _ _ w
            (World.Build (World.trees w ++ [_]) (World.runtime w))
            (BVHCacheItem.Build (Some (length (World.trees w)))));
    [exact Hslot | reflexivity | | reflexivity].
  erewrite compute_fn_run
    by (apply corner_tris_create_tree_run;
        [left; repeat split;
         destruct (Mesh.corner_tris mesh); [contradiction | discriminate]
        | exact Hpoints]).
  reflexivity.
Qed.

(** X15: [Mesh::bvh_legacy_faces].  The getter starts with an assertion:
    on a mesh with faces but no legacy face it stops there, whatever the
    state of the cache.  On an empty slot, with at least one legacy face:
    given the legacy face layer and faces whose vertices are in range, it
    builds one balanced tree of all the legacy faces, sized by their number,
    each under its index with its three or four points, and the slot for the
    faces holds its handle; without positions or without the layer the
    builder stops at its assertion on the number of leaves. *)
Theorem legacy_faces_first_access (mesh : Mesh.t F) (w : World.t F) :
  let positions := Mesh.vert_positions mesh in
  let faces_num := Mesh.totface_legacy mesh in
  (faces_num = 0 -> Mesh.faces_num mesh <> 0 ->
   bvh_legacy_faces mesh w = Abort AssertionFailed)
  /\ (slot_get bvh_cache_faces (World.runtime w) = None ->
      0 < faces_num ->
      (forall faces,
          Mesh.mface mesh = Some faces ->
          active_in_range (face_points positions faces) [] (Z.to_nat faces_num) ->
          exists data,
            bvhtree_from_mesh_setup_data (Some (length (World.trees w)))
              BVHTREE_FROM_FACES positions [] [] [] None = Ok data
            /\ bvh_legacy_faces mesh w
               = Ok (data,
                     built w bvh_cache_faces
                       (BVHTree.Build faces_num f_zero 2 6
                          (masked_leafs (face_points positions faces) []
                             (Z.to_nat faces_num))
                          true)))
      /\ (positions = [] \/ Mesh.mface mesh = None ->
          bvh_legacy_faces mesh w = Abort AssertionFailed)).
Proof.
  cbv zeta. split.
  - intros Hzero Hfaces. unfold bvh_legacy_faces.
    rewrite Hzero. cbn [Z.eqb andb].
    destruct (Z.eqb_spec (Mesh.faces_num mesh) 0); [contradiction |].
    reflexivity.
  - intros Hslot Hnum.
    assert (Hassert : BLI_assert
                        (negb ((Mesh.totface_legacy mesh =? 0)
                               && negb (Mesh.faces_num mesh =? 0))) = Ok tt).
    { destruct (Z.eqb_spec (Mesh.totface_legacy mesh) 0); [lia | reflexivity]. }
    assert (Hfits : mask_count_fits [] (Z.to_nat (Mesh.totface_legacy mesh)) (-1))
      by (left; repeat split; lia).
    split.
    + intros faces Hmface Hpoints. eexists. split; [reflexivity |].
      unfold bvh_legacy_faces, built.
      erewrite M_bind_Ok by (apply lift_Ok, Hassert).
      eapply (cached_getter_first_access _ _ _ w
                (World.Build (World.trees w ++ [_]) (World.runtime w))
                (BVHCacheItem.Build (Some (length (World.trees w)))));
        [exact Hslot | reflexivity | | reflexivity].
      rewrite Hmface.
      erewrite compute_fn_run by (apply faces_create_tree_run; assumption).
      reflexivity.
    + intros Hnone. unfold bvh_legacy_faces.
      erewrite M_bind_Ok by (apply lift_Ok, Hassert).
      unfold mbind, M_bind, SharedCache_ensure. rewrite Hslot.
      rewrite (faces_create_tree_no_data _ _ _ _ _ _ _ _ _ Hfits Hnone).
      reflexivity.
Qed.

(** X16: the bundle [Mesh::bvh_legacy_faces] returns has the two
    legacy-face callbacks and a null face layer: the getter passes no layer
    on to [bvhtree_from_mesh_setup_data].  The two callbacks read the face
    at the given index from that layer first, so on this bundle both stop
    at the null layer, for every index, point, ray and running result. *)
Theorem legacy_faces_callbacks_null_face (mesh : Mesh.t F) (w w' : World.t F)
    (data : BVHTreeFromMesh.t F) :
  bvh_legacy_faces mesh w = Ok (data, w') ->
  BVHTreeFromMesh.nearest_callback data = Some cb_mesh_faces_nearest_point
  /\ BVHTreeFromMesh.raycast_callback data = Some cb_mesh_faces_spherecast
  /\ BVHTreeFromMesh.face data = None
  /\ (forall index co nearest,
        call_nearest_callback cb_mesh_faces_nearest_point data index co nearest
        = Abort NullPointer)
  /\ (forall index ray hit,
        call_raycast_callback cb_mesh_faces_spherecast data index ray hit
        = Abort NullPointer).
Proof.
  intros H. unfold bvh_legacy_faces in H.
  apply M_bind_inv in H as ([] & w1 & _ & H).
  apply cached_getter_reuse in H as (_ & item & _ & Hsetup).
  inversion Hsetup; subst data; clear Hsetup. cbn.
  repeat split.
Qed.


End FirstAccess.

(** ** Callbacks at the edges of their domain *)

Section CallbackEdges.
Context {F : Type} `{!BLI_math F}.

(** X18: a legacy face whose [v4] is 0 is a triangle to both legacy-face
    callbacks: with the three vertices in range, they test exactly the one
    triangle (v1, v2, v3), once, against the running result.  Vertex 0 can
    therefore never be the fourth corner of a quad. *)
Theorem mesh_faces_triangle (data : BVHTreeFromMesh.t F) (index : Z)
    (faces : list MFace.t) (face : MFace.t) (p1 p2 p3 : float3 F) :
  BVHTreeFromMesh.face data = Some faces ->
  span_get faces index = Ok face ->
  MFace.v4 face = 0 ->
  span_get (BVHTreeFromMesh.vert_positions data) (MFace.v1 face) = Ok p1 ->
  span_get (BVHTreeFromMesh.vert_positions data) (MFace.v2 face) = Ok p2 ->
  span_get (BVHTreeFromMesh.vert_positions data) (MFace.v3 face) = Ok p3 ->
  mesh_faces_tris data index = Ok [(p1, p2, p3)]
  /\ (forall co nearest,
        mesh_faces_nearest_point data index co nearest
        = Ok (tri_nearest_point index co p1 p2 p3 nearest))
  /\ (forall ray hit,
        mesh_faces_spherecast data index ray hit
        = Ok (tri_spherecast index ray p1 p2 p3 hit)).
Proof.
  intros Hfaces Hface Hv4 H1 H2 H3. repeat split; intros;
    unfold mesh_faces_tris, mesh_faces_nearest_point, mesh_faces_spherecast;
    erewrite mesh_faces_foreach_tri_tri by eassumption; reflexivity.
Qed.

Lemma tri_spherecast_missed (index : Z) (ray : BVHTreeRay.t F)
    (t0 t1 t2 : float3 F) (hit : BVHTreeRayHit.t F) :
  tri_missed ray hit t0 t1 t2 ->
  tri_spherecast index ray t0 t1 t2 hit
  = if f_le f_zero FLT_MAX && f_lt FLT_MAX (BVHTreeRayHit.dist hit) then
      {| BVHTreeRayHit.index := index;
         BVHTreeRayHit.dist := FLT_MAX;
         BVHTreeRayHit.co :=
           madd_v3_v3v3fl (BVHTreeRay.origin ray) (BVHTreeRay.direction ray)
             FLT_MAX;
         BVHTreeRayHit.no := normal_tri_v3 t0 t1 t2 |}
    else hit.
Proof.
  unfold tri_missed, tri_spherecast, bvhtree_ray_tri_intersection,
    bvhtree_sphereray_tri_intersection.
  destruct (f_eq (BVHTreeRay.radius ray) f_zero); intros ->; reflexivity.
Qed.

(** X19: a ray that misses the triangle.  The intersection helpers answer
    a miss with [FLT_MAX], which the callback then compares like a distance.
    When [FLT_MAX] is not below the distance of the running hit, the
    corner-triangle ray-cast callback leaves the hit as it was.  When 0 is at
    most [FLT_MAX] and [FLT_MAX] is below the distance of the running hit
    (a running distance of infinity), the miss is recorded as a hit of this
    triangle at distance [FLT_MAX]. *)
Theorem spherecast_miss (data : BVHTreeFromMesh.t F) (index : Z)
    (ray : BVHTreeRay.t F) (hit : BVHTreeRayHit.t F) (p0 p1 p2 : float3 F) :
  corner_tri_co data index = Ok (p0, p1, p2) ->
  tri_missed ray hit p0 p1 p2 ->
  (f_lt FLT_MAX (BVHTreeRayHit.dist hit) = false ->
   mesh_corner_tris_spherecast data index ray hit = Ok hit)
  /\ (f_le f_zero FLT_MAX = true ->
      f_lt FLT_MAX (BVHTreeRayHit.dist hit) = true ->
      mesh_corner_tris_spherecast data index ray hit
      = Ok {| BVHTreeRayHit.index := index;
              BVHTreeRayHit.dist := FLT_MAX;
              BVHTreeRayHit.co :=
                madd_v3_v3v3fl (BVHTreeRay.origin ray) (BVHTreeRay.direction ray)
                  FLT_MAX;
              BVHTreeRayHit.no := normal_tri_v3 p0 p1 p2 |}).
Proof.
  intros Htri Hmiss.
  assert (Hrun : mesh_corner_tris_spherecast data index ray hit
                 = Ok (tri_spherecast index ray p0 p1 p2 hit)).
  { unfold mesh_corner_tris_spherecast. rewrite Htri. reflexivity. }
  rewrite Hrun, (tri_spherecast_missed _ _ _ _ _ _ Hmiss). split.
  - intros ->. rewrite andb_false_r. reflexivity.
  - intros -> ->. reflexivity.
Qed.

Lemma improves_refl (index : Z) (hit : BVHTreeRayHit.t F) : improves index hit hit.
Proof. left. reflexivity. Qed.

Lemma mesh_verts_spherecast_do_improves (index : Z) (v : float3 F)
    (ray : BVHTreeRay.t F) (hit : BVHTreeRayHit.t F) :
  improves index hit (mesh_verts_spherecast_do index v ray hit)
  /\ BVHTreeRayHit.no (mesh_verts_spherecast_do index v ray hit)
     = BVHTreeRayHit.no hit.
Proof.
  unfold mesh_verts_spherecast_do.
  destruct (f_le _ _); cbn [andb]; [| split; [apply improves_refl | reflexivity]].
  destruct (f_lt _ _) eqn:Hlt; [| split; [apply improves_refl | reflexivity]].
  split; [right; split; [reflexivity | exact Hlt] | reflexivity].
Qed.

(** X20: the ray-cast callbacks of a vertex, an edge and a corner
    triangle only ever improve the running hit: what they return is the hit
    as it was, or a hit of their own index whose distance is strictly below
    ([<] answers true) the distance of the hit they were given.  The vertex
    and the edge callback never write the normal of the hit; a hit the
    corner-triangle callback records has passed the test [dist >= 0]. *)
Theorem raycast_callbacks_improve (data : BVHTreeFromMesh.t F) (index : Z)
    (ray : BVHTreeRay.t F) (hit r : BVHTreeRayHit.t F) :
  (mesh_verts_spherecast data index ray hit = Ok r ->
   improves index hit r /\ BVHTreeRayHit.no r = BVHTreeRayHit.no hit)
  /\ (mesh_edges_spherecast data index ray hit = Ok r ->
      improves index hit r /\ BVHTreeRayHit.no r = BVHTreeRayHit.no hit)
  /\ (mesh_corner_tris_spherecast data index ray hit = Ok r ->
      improves index hit r
      /\ (r <> hit -> f_le f_zero (BVHTreeRayHit.dist r) = true)).
Proof.
  split; [| split].
  - unfold mesh_verts_spherecast. intros H.
    apply result_bind_inv in H as (v & _ & H). inversion H; subst r.
    apply mesh_verts_spherecast_do_improves.
  - unfold mesh_edges_spherecast. cbv zeta. intros H.
    apply result_bind_inv in H as (edge & _ & H).
    apply result_bind_inv in H as (v1 & _ & H).
    apply result_bind_inv in H as (v2 & _ & H).
    destruct (equals_v3v3 v1 v2).
    { inversion H; subst r. apply mesh_verts_spherecast_do_improves. }
    destruct (isect_line_line_v3 _ _ _ _) as [[isect i1] i2].
    destruct (negb (isect =? 0));
      [| inversion H; split; [apply improves_refl | reflexivity]].
    destruct (f_le f_zero _); cbn [andb] in H;
      [| inversion H; split; [apply improves_refl | reflexivity]].
    destruct (f_lt (len_v3v3 _ _) _) eqn:Hlt;
      [| inversion H; split; [apply improves_refl | reflexivity]].
    destruct (f_le (len_squared_v3v3 _ _) _);
      inversion H; subst r; split; try reflexivity;
      [right; split; [reflexivity | exact Hlt] | apply improves_refl].
  - unfold mesh_corner_tris_spherecast. intros H.
    apply result_bind_inv in H as ([[p0 p1] p2] & _ & H).
    inversion H; subst r; clear H. unfold tri_spherecast.
    destruct (f_le f_zero _) eqn:Hle; cbn [andb];
      [| split; [apply improves_refl | intros Hne; contradiction]].
    destruct (f_lt _ _) eqn:Hlt;
      [| split; [apply improves_refl | intros Hne; contradiction]].
    split; [right; split; [reflexivity | exact Hlt] | intros _; exact Hle].
Qed.

End CallbackEdges.

(** ** The properties above on the sample data *)

Lemma sample_face_edges_in_range : face_edges_in_range Samples.mesh.
Proof.
  intros i Hi Hvisible.
  unfold Mesh.faces_num, span_size in Hi. cbn in Hi.
  assert (Hcases : i = 0 \/ i = 1) by lia.
  destruct Hcases as [-> | ->]; [| discriminate Hvisible].
  eexists _, _. split; [reflexivity |]. split; [reflexivity |].
  intros e He. unfold Mesh.edges_num, span_size. cbn in *.
  repeat (destruct He as [<- | He]; [lia |]). destruct He.
Defined.

Lemma loose_edges_no_hidden_mask_spec_witness :
  exists mask count,
    loose_edges_no_hidden_mask_get Samples.mesh = Ok (mask, count)
    /\ span_size mask = Mesh.edges_num Samples.mesh
    /\ count = count_true mask
    /\ forall e, 0 <= e < Mesh.edges_num Samples.mesh ->
         (used_by_visible_face Samples.mesh e -> mask !! Z.to_nat e = Some false)
         /\ (~ used_by_visible_face Samples.mesh e ->
             edge_hidden Samples.mesh e = Ok false ->
             mask !! Z.to_nat e = Some true)
         /\ (mask !! Z.to_nat e = Some true ->
             ~ used_by_visible_face Samples.mesh e
             /\ edge_hidden Samples.mesh e = Ok false).
Proof.
  apply (loose_edges_no_hidden_mask_spec Samples.mesh sample_face_edges_in_range).
  - reflexivity.
  - reflexivity.
Defined.

Lemma sample_faces_triangles_nonneg :
  faces_triangles_nonneg (Mesh.face_offsets Samples.mesh).
Proof.
  intros i face Hi Hface. cbn in Hi.
  destruct Hi as [<- | [<- | []]]; vm_compute in Hface; inversion Hface;
    unfold face_triangles_num; cbn; lia.
Defined.

Lemma corner_tris_no_hidden_map_spec_witness :
  corner_tris_no_hidden_map_get (Mesh.face_offsets Samples.mesh)
    (VArraySpan [false; true]) 3 (-1)
  = Ok ([true; true; false], 2).
Proof.
  apply (proj2 (corner_tris_no_hidden_map_spec (Mesh.face_offsets Samples.mesh)
                  (VArraySpan [false; true]) 3 (-1))
           eq_refl sample_faces_triangles_nonneg [true; true; false]).
  - reflexivity.
  - reflexivity.
Defined.

Lemma verts_init_spec_witness :
  BKE_bvhtree_from_mesh_verts_init Samples.mesh [7; 5] (World.init float)
  = Ok (owned_bundle None (Some cb_mesh_verts_spherecast)
          (Mesh.vert_positions Samples.mesh) [] (Some 0%nat),
        World.Build
          [BVHTree.Build 2 0%float 2 6
             [(7, [Samples.P 9 9 9]); (5, [Samples.P 5 0 0])] true]
          MeshRuntime.empty).
Proof.
  apply (proj2 (verts_init_spec Samples.mesh [7; 5] (World.init float))
           ltac:(discriminate)
           [(7, [Samples.P 9 9 9]); (5, [Samples.P 5 0 0])]).
  reflexivity.
Defined.

Lemma edges_init_spec_witness :
  BKE_bvhtree_from_mesh_edges_init Samples.mesh [6] (World.init float)
  = Ok (owned_bundle (Some cb_mesh_edges_nearest_point)
          (Some cb_mesh_edges_spherecast)
          (Mesh.vert_positions Samples.mesh) (Mesh.edges Samples.mesh)
          (Some 0%nat),
        World.Build
          [BVHTree.Build 1 0%float 2 6
             [(6, [Samples.P 5 0 0; Samples.P 6 0 0])] true]
          MeshRuntime.empty).
Proof.
  apply (proj2 (edges_init_spec Samples.mesh [6] (World.init float))
           ltac:(discriminate)
           [(6, [Samples.P 5 0 0; Samples.P 6 0 0])]).
  reflexivity.
Defined.

Lemma pointcloud_get_spec_witness :
  BKE_bvhtree_from_pointcloud_get [Samples.P 1 2 3; Samples.P 4 5 6] [1; 0]
    {| pc_tree := None; pc_nearest_callback := None; pc_coords := None |}
    (World.init float)
  = Ok ({| pc_tree := Some 0%nat;
           pc_nearest_callback := None;
           pc_coords := Some [Samples.P 1 2 3; Samples.P 4 5 6] |},
        World.Build
          [BVHTree.Build 2 0%float 2 6
             [(1, [Samples.P 4 5 6]); (0, [Samples.P 1 2 3])] true]
          MeshRuntime.empty).
Proof.
  rewrite (pointcloud_get_spec [Samples.P 1 2 3; Samples.P 4 5 6] [1; 0]
             {| pc_tree := None; pc_nearest_callback := None; pc_coords := None |}
             (World.init float)
             [(1, [Samples.P 4 5 6]); (0, [Samples.P 1 2 3])] eq_refl).
  reflexivity.
Defined.

Lemma get_bvh_frame_witness :
  exists data w',
    get_bvh BVHTREE_FROM_EDGES Samples.mesh (World.init float) = Ok (data, w')
    /\ exists slot,
         slot_used BVHTREE_FROM_EDGES = Some slot
         /\ ((slot_get slot MeshRuntime.empty <> None /\ w' = World.init float)
             \/ (slot_get slot MeshRuntime.empty = None
                 /\ World.runtime w'
                    = slot_set slot
                        (Some (BVHCacheItem.Build (BVHTreeFromMesh.tree data)))
                        MeshRuntime.empty
                 /\ adds_tree (World.init float) w' (BVHTreeFromMesh.tree data))).
Proof.
  eexists _, _. split; [vm_compute; reflexivity |].
  apply (get_bvh_frame BVHTREE_FROM_EDGES Samples.mesh (World.init float)).
  vm_compute; reflexivity.
Defined.

Lemma sample_edge_points :
  active_in_range
    (edge_points (Mesh.vert_positions Samples.mesh) (Mesh.edges Samples.mesh)) []
    (length (Mesh.edges Samples.mesh)).
Proof.
  intros i Hi _.
  do 7 (destruct i as [| i]; [eexists; reflexivity |]).
  simpl in Hi; lia.
Defined.

Lemma edge_getters_first_access_witness :
  exists data,
    bvhtree_from_mesh_setup_data (Some 0%nat) BVHTREE_FROM_EDGES
      (Mesh.vert_positions Samples.mesh) (Mesh.edges Samples.mesh) [] [] None
    = Ok data
    /\ bvh_edges Samples.mesh (World.init float)
       = Ok (data,
             built (World.init float) bvh_cache_edges
               (BVHTree.Build 7 0%float 2 6
                  (masked_leafs
                     (edge_points (Mesh.vert_positions Samples.mesh)
                        (Mesh.edges Samples.mesh))
                     [] 7)
                  true)).
Proof.
  apply (proj1 (edge_getters_first_access Samples.mesh (World.init float))
           eq_refl ltac:(discriminate) sample_edge_points).
Defined.

Lemma vert_getters_first_access_witness :
  exists data,
    bvhtree_from_mesh_setup_data (Some 0%nat) BVHTREE_FROM_LOOSEVERTS
      (Mesh.vert_positions Samples.mesh) [] [] [] None
    = Ok data
    /\ bvh_loose_verts Samples.mesh (World.init float)
       = Ok (data,
             built (World.init float) bvh_cache_loose_verts
               (BVHTree.Build 1 0%float 2 6 [(7, [Samples.P 9 9 9])] true)).
Proof.
  apply (proj2 (vert_getters_first_access Samples.mesh (World.init float))
           eq_refl eq_refl eq_refl ltac:(discriminate)).
Defined.

Lemma sample_corner_tri_points :
  active_in_range
    (corner_tri_points (Mesh.vert_positions Samples.mesh)
       (Mesh.corner_verts Samples.mesh) (Mesh.corner_tris Samples.mesh)) []
    (length (Mesh.corner_tris Samples.mesh)).
Proof.
  intros i Hi _.
  do 3 (destruct i as [| i]; [eexists; reflexivity |]).
  simpl in Hi; lia.
Defined.

Lemma corner_tris_first_access_witness :
  exists data,
    bvhtree_from_mesh_setup_data (Some 0%nat) BVHTREE_FROM_CORNER_TRIS
      (Mesh.vert_positions Samples.mesh) [] (Mesh.corner_verts Samples.mesh)
      (Mesh.corner_tris Samples.mesh) None
    = Ok data
    /\ bvh_corner_tris Samples.mesh (World.init float)
       = Ok (data,
             built (World.init float) bvh_cache_corner_tris
               (BVHTree.Build 3 0%float 2 6
                  [(0, [Samples.P 0 0 0; Samples.P 1 0 0; Samples.P 1 1 0]);
                   (1, [Samples.P 0 0 0; Samples.P 1 1 0; Samples.P 0 1 0]);
                   (2, [Samples.P 0 0 0; Samples.P 0 1 0; Samples.P 0 2 0])]
                  true)).
Proof.
  apply (corner_tris_first_access Samples.mesh (World.init float)
           eq_refl ltac:(discriminate) sample_corner_tri_points).
Defined.

Lemma sample_face_points :
  active_in_range
    (face_points (Mesh.vert_positions Samples.mesh)
       [MFace.Build 0 1 2 3; MFace.Build 3 4 0 0]) [] 2.
Proof.
  intros i Hi _.
  do 2 (destruct i as [| i]; [eexists; reflexivity |]).
  lia.
Defined.

Lemma legacy_faces_first_access_witness :
  exists data,
    bvhtree_from_mesh_setup_data (Some 0%nat) BVHTREE_FROM_FACES
      (Mesh.vert_positions Samples.mesh) [] [] [] None
    = Ok data
    /\ bvh_legacy_faces Samples.mesh (World.init float)
       = Ok (data,
             built (World.init float) bvh_cache_faces
               (BVHTree.Build 2 0%float 2 6
                  [(0, [Samples.P 0 0 0; Samples.P 1 0 0; Samples.P 1 1 0;
                        Samples.P 0 1 0]);
                   (1, [Samples.P 0 1 0; Samples.P 0 2 0; Samples.P 0 0 0])]
                  true)).
Proof.
  apply (proj1 (proj2 (legacy_faces_first_access Samples.mesh (World.init float))
                  eq_refl ltac:(reflexivity))
           [MFace.Build 0 1 2 3; MFace.Build 3 4 0 0] eq_refl sample_face_points).
Defined.

Lemma legacy_faces_callbacks_null_face_witness :
  exists data w',
    bvh_legacy_faces Samples.mesh (World.init float) = Ok (data, w')
    /\ BVHTreeFromMesh.nearest_callback data = Some cb_mesh_faces_nearest_point
    /\ BVHTreeFromMesh.raycast_callback data = Some cb_mesh_faces_spherecast
    /\ BVHTreeFromMesh.face data = None
    /\ (forall index co nearest,
          call_nearest_callback cb_mesh_faces_nearest_point data index co nearest
          = Abort NullPointer)
    /\ (forall index ray hit,
          call_raycast_callback cb_mesh_faces_spherecast data index ray hit
          = Abort NullPointer).
Proof.
  eexists _, _. split; [vm_compute; reflexivity |].
  eapply (legacy_faces_callbacks_null_face Samples.mesh (World.init float)).
  vm_compute; reflexivity.
Defined.


Lemma mesh_faces_triangle_witness :
  mesh_faces_tris
    {| BVHTreeFromMesh.tree := None;
       BVHTreeFromMesh.nearest_callback := Some cb_mesh_faces_nearest_point;
       BVHTreeFromMesh.raycast_callback := Some cb_mesh_faces_spherecast;
       BVHTreeFromMesh.vert_positions := Mesh.vert_positions Samples.mesh;
       BVHTreeFromMesh.edges := [];
       BVHTreeFromMesh.face := Mesh.mface Samples.mesh;
       BVHTreeFromMesh.corner_verts := [];
       BVHTreeFromMesh.corner_tris := [];
       BVHTreeFromMesh.owned_tree := None |} 1
  = Ok [(Samples.P 0 1 0, Samples.P 0 2 0, Samples.P 0 0 0)].
Proof.
  apply (mesh_faces_triangle _ 1 [MFace.Build 0 1 2 3; MFace.Build 3 4 0 0]
           (MFace.Build 3 4 0 0) (Samples.P 0 1 0) (Samples.P 0 2 0)
           (Samples.P 0 0 0));
    reflexivity.
Defined.

Lemma spherecast_miss_witness :
  mesh_corner_tris_spherecast Samples.tri_data 0
    (BVHTreeRay.Build (Samples.P 5 5 1) (Samples.P 0 0 (-1)) 0%float)
    (BVHTreeRayHit.Build (-1) (Samples.P 0 0 0) (Samples.P 0 0 0) infinity)
  = Ok {| BVHTreeRayHit.index := 0;
          BVHTreeRayHit.dist := FLT_MAX;
          BVHTreeRayHit.co :=
            madd_v3_v3v3fl (Samples.P 5 5 1) (Samples.P 0 0 (-1)) FLT_MAX;
          BVHTreeRayHit.no :=
            normal_tri_v3 Samples.q1 Samples.q3 Samples.q4 |}.
Proof.
  apply (proj2 (spherecast_miss Samples.tri_data 0
                  (BVHTreeRay.Build (Samples.P 5 5 1) (Samples.P 0 0 (-1)) 0%float)
                  (BVHTreeRayHit.Build (-1) (Samples.P 0 0 0) (Samples.P 0 0 0)
                     infinity)
                  Samples.q1 Samples.q3 Samples.q4
                  ltac:(reflexivity) ltac:(vm_compute; reflexivity)));
    vm_compute; reflexivity.
Defined.

Lemma raycast_callbacks_improve_witness :
  exists r,
    mesh_verts_spherecast Samples.edge_data 1
      (BVHTreeRay.Build (Samples.P 1 (-1) 0) (Samples.P 0 1 0) 0%float)
      Samples.no_hit
    = Ok r
    /\ improves 1 Samples.no_hit r
    /\ BVHTreeRayHit.no r = BVHTreeRayHit.no Samples.no_hit.
Proof.
  eexists. split; [vm_compute; reflexivity |].
  apply (proj1 (raycast_callbacks_improve Samples.edge_data 1
                  (BVHTreeRay.Build (Samples.P 1 (-1) 0) (Samples.P 0 1 0) 0%float)
                  Samples.no_hit _)).
  vm_compute; reflexivity.
Defined.

(** ** The exported vertex builder and the triangles of visible faces *)

Section VisibleTriangles.
Context {F : Type} `{!BLI_math F}.

(** X21: the vertex builder as it is exported.  Given a mask and a count
    that fit the vertices (the empty mask with -1 over at least one vertex,
    or one bit per vertex with the number of set bits, not zero),
    [bvhtree_from_mesh_verts_ex] allocates one tree after those there were,
    sized by the active count, inserts exactly the active vertices, each
    under its own index with its position, balances the tree and, when
    asked for a bundle, sets it up as a vertex bundle over the tree and the
    positions: no nearest-point callback, the vertex sphere-cast as
    ray-cast callback.  The number of leaves is the active count. *)
Theorem verts_ex_leafs (data : bool) (vert_positions : list (float3 F))
    (verts_mask : list bool) (verts_num_active : Z) (epsilon : F)
    (tree_type axis : Z) (w : World.t F) :
  mask_count_fits verts_mask (length vert_positions) verts_num_active ->
  bvhtree_from_mesh_verts_ex data vert_positions verts_mask verts_num_active
    epsilon tree_type axis w
  = Ok ((Some (length (World.trees w)),
         if data then
           Some {| BVHTreeFromMesh.tree := Some (length (World.trees w));
                   BVHTreeFromMesh.nearest_callback := None;
                   BVHTreeFromMesh.raycast_callback := Some cb_mesh_verts_spherecast;
                   BVHTreeFromMesh.vert_positions := vert_positions;
                   BVHTreeFromMesh.edges := [];
                   BVHTreeFromMesh.face := None;
                   BVHTreeFromMesh.corner_verts := [];
                   BVHTreeFromMesh.corner_tris := [];
                   BVHTreeFromMesh.owned_tree := None |}
         else None),
        World.Build
          (World.trees w
           ++ [BVHTree.Build
                 (active_count (span_size vert_positions) verts_num_active)
                 epsilon tree_type axis (vert_leafs vert_positions verts_mask)
                 true])
          (World.runtime w))
  /\ span_size (vert_leafs vert_positions verts_mask)
     = active_count (span_size vert_positions) verts_num_active.
Proof.
  intros [(-> & -> & Hne) | (Hlen & -> & Hne)]; unfold active_count.
  - change (-1 =? -1) with true. cbv iota.
    split; [| apply vert_leafs_all_length].
    unfold bvhtree_from_mesh_verts_ex.
    erewrite M_bind_Ok
      by (apply verts_create_tree_all; destruct vert_positions;
          [contradiction | discriminate]).
    destruct w as [ts rt]. cbn [World.trees World.runtime bvhtree_balance].
    erewrite M_bind_Ok by apply BLI_bvhtree_balance_last.
    destruct data; reflexivity.
  - pose proof (count_true_nonneg verts_mask).
    destruct (Z.eqb_spec (count_true verts_mask) (-1)); [lia |].
    split; [| apply vert_leafs_length, Hlen].
    unfold bvhtree_from_mesh_verts_ex.
    erewrite M_bind_Ok by (apply verts_create_tree_masked; assumption).
    destruct w as [ts rt]. cbn [World.trees World.runtime bvhtree_balance].
    erewrite M_bind_Ok by apply BLI_bvhtree_balance_last.
    destruct data; reflexivity.
Qed.




End VisibleTriangles.

Lemma verts_ex_leafs_witness :
  bvhtree_from_mesh_verts_ex true (Mesh.vert_positions Samples.mesh)
    (LooseVertCache.is_loose_bits (Mesh.loose_verts Samples.mesh)) 1
    0%float 2 6 (World.init float)
  = Ok ((Some 0%nat,
         Some {| BVHTreeFromMesh.tree := Some 0%nat;
                 BVHTreeFromMesh.nearest_callback := None;
                 BVHTreeFromMesh.raycast_callback := Some cb_mesh_verts_spherecast;
                 BVHTreeFromMesh.vert_positions := Mesh.vert_positions Samples.mesh;
                 BVHTreeFromMesh.edges := [];
                 BVHTreeFromMesh.face := None;
                 BVHTreeFromMesh.corner_verts := [];
                 BVHTreeFromMesh.corner_tris := [];
                 BVHTreeFromMesh.owned_tree := None |}),
        World.Build
          [BVHTree.Build 1 0%float 2 6 [(7, [Samples.P 9 9 9])] true]
          MeshRuntime.empty).
Proof.
  apply (proj1 (verts_ex_leafs true (Mesh.vert_positions Samples.mesh)
                  (LooseVertCache.is_loose_bits (Mesh.loose_verts Samples.mesh)) 1
                  0%float 2 6 (World.init float)
                  ltac:(right; repeat split; discriminate))).
Defined.



(** ** Callbacks on the leaves of a cached tree *)

Section CallbacksOnLeaves.
Context {F : Type} `{!BLI_math F}.

(** The edge callbacks return on an edge whose points can be read. *)
Lemma edge_callbacks_return (data : BVHTreeFromMesh.t F) (index : Z)
    (points : list (float3 F)) :
  edge_points (BVHTreeFromMesh.vert_positions data) (BVHTreeFromMesh.edges data)
    index = Ok points ->
  (forall co nearest, exists r,
      mesh_edges_nearest_point data index co nearest = Ok r)
  /\ (forall ray hit, exists r,
        mesh_edges_spherecast data index ray hit = Ok r).
Proof.
  unfold edge_points. intros H.
  apply result_bind_inv in H as (edge & Hedge & H).
  apply result_bind_inv in H as (t0 & Ht0 & H).
  apply result_bind_inv in H as (t1 & Ht1 & _).
  split.
  - intros co nearest. unfold mesh_edges_nearest_point. cbv zeta.
    rewrite Hedge, result_bind_Ok, Ht0, result_bind_Ok, Ht1, result_bind_Ok.
    destruct (f_lt _ _); eauto.
  - intros ray hit. unfold mesh_edges_spherecast. cbv zeta.
    rewrite Hedge, result_bind_Ok, Ht0, result_bind_Ok, Ht1, result_bind_Ok.
    destruct (equals_v3v3 t0 t1); [eauto |].
    destruct (isect_line_line_v3 _ _ _ _) as [[isect i1] i2].
    destruct (negb (isect =? 0)); [| eauto].
    destruct (f_le f_zero _ && f_lt _ _); [| eauto].
    destruct (f_le _ _); eauto.
Qed.

(** The corner-triangle callbacks return on a triangle whose points can be
    read. *)
Lemma corner_tri_callbacks_return (data : BVHTreeFromMesh.t F) (index : Z)
    (points : list (float3 F)) :
  corner_tri_points (BVHTreeFromMesh.vert_positions data)
    (BVHTreeFromMesh.corner_verts data) (BVHTreeFromMesh.corner_tris data) index
  = Ok points ->
  (forall co nearest, exists r,
      mesh_corner_tris_nearest_point data index co nearest = Ok r)
  /\ (forall ray hit, exists r,
        mesh_corner_tris_spherecast data index ray hit = Ok r).
Proof.
  unfold corner_tri_points. intros H.
  apply result_bind_inv in H as ([[c0 c1] c2] & Htri & H).
  apply result_bind_inv in H as (vert0 & Hv0 & H).
  apply result_bind_inv in H as (co0 & Hc0 & H).
  apply result_bind_inv in H as (vert1 & Hv1 & H).
  apply result_bind_inv in H as (co1 & Hc1 & H).
  apply result_bind_inv in H as (vert2 & Hv2 & H).
  apply result_bind_inv in H as (co2 & Hc2 & _).
  assert (Hco : corner_tri_co data index = Ok (co0, co1, co2)).
  { unfold corner_tri_co. rewrite Htri, result_bind_Ok.
    rewrite Hv0, result_bind_Ok, Hc0, result_bind_Ok.
    rewrite Hv1, result_bind_Ok, Hc1, result_bind_Ok.
    rewrite Hv2, result_bind_Ok, Hc2, result_bind_Ok. reflexivity. }
  split.
  - intros co nearest. unfold mesh_corner_tris_nearest_point.
    rewrite Hco, result_bind_Ok. cbv zeta beta iota.
    destruct (f_lt _ _); eauto.
  - intros ray hit. unfold mesh_corner_tris_spherecast.
    rewrite Hco, result_bind_Ok. eauto.
Qed.

(** X23: the callbacks of a bundle stay in range on the leaves of its
    tree.  After the first access of [Mesh::bvh_edges], and of
    [Mesh::bvh_corner_tris], on a mesh whose edges, or triangles, are in
    range, both callbacks of the returned bundle return, for every index
    under which the tree of the bundle holds a leaf and for every query
    point, ray and running result: the bundle carries the arrays the
    builder read the leaf from. *)
Theorem getter_callbacks_on_leaves (mesh : Mesh.t F) (w : World.t F) :
  let positions := Mesh.vert_positions mesh in
  let edges := Mesh.edges mesh in
  let corner_verts := Mesh.corner_verts mesh in
  let corner_tris := Mesh.corner_tris mesh in
  (slot_get bvh_cache_edges (World.runtime w) = None ->
   edges <> [] ->
   active_in_range (edge_points positions edges) [] (length edges) ->
   exists data w',
     bvh_edges mesh w = Ok (data, w')
     /\ forall index points,
          In (index, points) (tree_leafs w' (BVHTreeFromMesh.tree data)) ->
          (forall co nearest, exists r,
              call_nearest_callback cb_mesh_edges_nearest_point data index co
                nearest = Ok r)
          /\ (forall ray hit, exists r,
                call_raycast_callback cb_mesh_edges_spherecast data index ray hit
                = Ok r))
  /\ (slot_get bvh_cache_corner_tris (World.runtime w) = None ->
      corner_tris <> [] ->
      active_in_range (corner_tri_points positions corner_verts corner_tris) []
        (length corner_tris) ->
      exists data w',
        bvh_corner_tris mesh w = Ok (data, w')
        /\ forall index points,
             In (index, points) (tree_leafs w' (BVHTreeFromMesh.tree data)) ->
             (forall co nearest, exists r,
                 call_nearest_callback cb_mesh_corner_tris_nearest_point data
                   index co nearest = Ok r)
             /\ (forall ray hit, exists r,
                   call_raycast_callback cb_mesh_corner_tris_spherecast data
                     index ray hit = Ok r)).
Proof.
  cbv zeta. split.
  - intros Hslot Hne Hpoints.
    eexists _, _. split.
    + unfold bvh_edges.
      eapply (cached_getter_first_access _ _ _ w
                (World.Build (World.trees w ++ [_]) (World.runtime w))
                (BVHCacheItem.Build (Some (length (World.trees w)))));
        [exact Hslot | reflexivity | | reflexivity].
      erewrite compute_fn_run
        by (apply edges_create_tree_run;
            [left; repeat split;
             destruct (Mesh.edges mesh); [contradiction | discriminate]
            | exact Hpoints]).
      reflexivity.
    + intros index points Hin. cbn in Hin. rewrite lookup_last in Hin. cbn in Hin.
      apply elem_of_masked_leafs in Hin as (i & _ & _ & _ & Hread).
      eapply edge_callbacks_return. exact Hread.
  - intros Hslot Hne Hpoints.
    eexists _, _. split.
    + unfold bvh_corner_tris.
      eapply (cached_getter_first_access _ _ _ w
                (World.Build (World.trees w ++ [_]) (World.runtime w))
                (BVHCacheItem.Build (Some (length (World.trees w)))));
        [exact Hslot | reflexivity | | reflexivity].
      erewrite compute_fn_run
        by (apply corner_tris_create_tree_run;
            [left; repeat split;
             destruct (Mesh.corner_tris mesh); [contradiction | discriminate]
            | exact Hpoints]).
      reflexivity.
    + intros index points Hin. cbn in Hin. rewrite lookup_last in Hin. cbn in Hin.
      apply elem_of_masked_leafs in Hin as (i & _ & _ & _ & Hread).
      eapply corner_tri_callbacks_return. exact Hread.
Qed.

End CallbacksOnLeaves.

Lemma getter_callbacks_on_leaves_witness :
  exists data w',
    bvh_edges Samples.mesh (World.init float) = Ok (data, w')
    /\ forall index points,
         In (index, points) (tree_leafs w' (BVHTreeFromMesh.tree data)) ->
         (forall co nearest, exists r,
             call_nearest_callback cb_mesh_edges_nearest_point data index co
               nearest = Ok r)
         /\ (forall ray hit, exists r,
               call_raycast_callback cb_mesh_edges_spherecast data index ray hit
               = Ok r).
Proof.
  apply (proj1 (getter_callbacks_on_leaves Samples.mesh (World.init float))
           eq_refl ltac:(discriminate) sample_edge_points).
Defined.

(** ** Soundness of the cache *)

Section CacheInvariant.
Context {F : Type} `{!BLI_math F}.

Lemma handle_ok_adds_tree (w w' : World.t F) (new tree : option BVHTreePtr) :
  adds_tree w w' new -> handle_ok w tree -> handle_ok w' tree.
Proof.
  intros Hadds. destruct tree as [p |]; [| auto]. intros (t & Ht & Hb).
  exists t. split; [| exact Hb].
  destruct Hadds as [(_ & ->) | (_ & t' & ->)]; [exact Ht |].
  apply lookup_app_l_Some, Ht.
Qed.

(** The item a [compute_fn] leaves: its tree has been balanced. *)
Lemma cache_item_of_balanced (tree : option BVHTreePtr) (w w' : World.t F)
    (item : BVHCacheItem.t) :
  cache_item_of tree w = Ok (item, w') ->
  handle_ok w' (BVHCacheItem.tree item).
Proof.
  unfold cache_item_of. intros H.
  apply M_bind_inv in H as ([] & w1 & Hbalance & H). inversion H; subst; clear H.
  destruct tree as [p |]; cbn; [| exact I].
  unfold BLI_bvhtree_balance, update_tree in Hbalance.
  destruct (World.trees w !! p) as [t |] eqn:Ht; [| discriminate].
  inversion Hbalance; subst; clear Hbalance. cbn.
  eexists. split.
  - apply list_lookup_insert_eq. eapply lookup_lt_Some, Ht.
  - reflexivity.
Qed.

(** The handle of the bundle of a getter that found its slot empty. *)
Lemma cached_getter_balanced (slot : CacheSlot) (compute_fn : M F BVHCacheItem.t)
    (finish : BVHCacheItem.t -> result (BVHTreeFromMesh.t F))
    (w w' : World.t F) (data : BVHTreeFromMesh.t F) :
  (forall x r, slot_get slot (slot_set slot x r) = x) ->
  (forall w0 item w1, compute_fn w0 = Ok (item, w1) ->
     handle_ok w1 (BVHCacheItem.tree item)) ->
  (forall item d, finish item = Ok d ->
     BVHTreeFromMesh.tree d = BVHCacheItem.tree item) ->
  slot_get slot (World.runtime w) = None ->
  (_ ← SharedCache_ensure slot compute_fn;
   tree ← SharedCache_data slot;
   lift (finish tree)) w = Ok (data, w') ->
  handle_ok w' (BVHTreeFromMesh.tree data).
Proof.
  intros Hlens Hcompute Hfinish Hslot H.
  apply M_bind_inv in H as ([] & w1 & Hensure & H).
  apply M_bind_inv in H as (item & w2 & Hdata & H).
  apply lift_inv in H as [Hdone ->]. apply Hfinish in Hdone.
  unfold SharedCache_data in Hdata.
  destruct (slot_get slot (World.runtime w1)) as [item' |] eqn:Hslot1;
    [| discriminate].
  inversion Hdata; subst item' w2; clear Hdata.
  unfold SharedCache_ensure in Hensure. rewrite Hslot in Hensure.
  destruct (compute_fn w) as [[item' w0] |] eqn:Hrun; [| discriminate].
  inversion Hensure; subst w1; clear Hensure.
  cbn [World.runtime World.trees] in *. rewrite Hlens in Hslot1.
  inversion Hslot1; subst item'; clear Hslot1.
  rewrite Hdone. apply Hcompute in Hrun.
  destruct (BVHCacheItem.tree item); [| exact I]. exact Hrun.
Qed.

Ltac compute_balanced H :=
  try (apply M_bind_inv in H as ([? ?] & ? & _ & H));
  apply M_bind_inv in H as (? & ? & _ & H);
  eapply cache_item_of_balanced, H.

Lemma get_bvh_balanced (kind : BVHCacheType) (mesh : Mesh.t F)
    (w w' : World.t F) (data : BVHTreeFromMesh.t F) (slot : CacheSlot) :
  slot_used kind = Some slot ->
  slot_get slot (World.runtime w) = None ->
  get_bvh kind mesh w = Ok (data, w') ->
  handle_ok w' (BVHTreeFromMesh.tree data).
Proof.
  destruct kind; cbn [get_bvh slot_used slot_of_kind]; intros Hused Hslot H;
    try discriminate;
    inversion Hused; subst slot; clear Hused;
    try (unfold bvh_legacy_faces in H;
         apply M_bind_inv in H as ([] & w1 & Hassert & H);
         apply lift_inv in Hassert as [_ ->]);
    (eapply cached_getter_balanced; [| | | exact Hslot | exact H];
     [ intros x r; reflexivity
     | intros w0 item w1 Hrun; compute_balanced Hrun
     | intros item d Hd; eapply setup_data_tree, Hd ]).
Qed.

Lemma slot_used_kind (kind : BVHCacheType) (slot : CacheSlot) :
  slot_used kind = Some slot -> exists kind', slot_of_kind kind' = Some slot.
Proof.
  destruct kind; cbn [slot_used slot_of_kind]; intros H; try discriminate;
    first [ exists BVHTREE_FROM_VERTS; exact H
          | exists BVHTREE_FROM_EDGES; exact H
          | exists BVHTREE_FROM_FACES; exact H
          | exists BVHTREE_FROM_CORNER_TRIS; exact H
          | exists BVHTREE_FROM_LOOSEVERTS; exact H
          | exists BVHTREE_FROM_LOOSEEDGES; exact H
          | exists BVHTREE_FROM_LOOSEVERTS_NO_HIDDEN; exact H
          | exists BVHTREE_FROM_LOOSEEDGES_NO_HIDDEN; exact H ].
Qed.

(** X24: the cache stays sound.  Call a handle sound when it is null or the
    address of a tree of the world that has been balanced.  If every built
    slot holds a sound handle before a getter is called, then, whenever the
    getter returns, every built slot holds a sound handle afterwards, and
    so does the bundle the getter returns: no getter leaves a dangling or
    an unbalanced tree handle in the cache or in a bundle. *)
Theorem get_bvh_cache_invariant (kind : BVHCacheType) (mesh : Mesh.t F)
    (w w' : World.t F) (data : BVHTreeFromMesh.t F) :
  cache_ok w ->
  get_bvh kind mesh w = Ok (data, w') ->
  cache_ok w' /\ handle_ok w' (BVHTreeFromMesh.tree data).
Proof.
  intros Hok H.
  assert (Hok' : cache_ok w').
  { destruct (get_bvh_slot_used kind mesh w w' data H) as (slot & Hused & _).
    destruct (get_bvh_frame_run kind mesh w w' data slot Hused H)
      as [[_ ->] | (Hslot & Hrt & Hadds)]; [exact Hok |].
    pose proof (get_bvh_balanced kind mesh w w' data slot Hused Hslot H) as Hnew.
    intros kind' slot' item Hkind' Hitem. rewrite Hrt in Hitem.
    assert (Hcases : item = BVHCacheItem.Build (BVHTreeFromMesh.tree data)
                     \/ slot_get slot' (World.runtime w) = Some item).
    { destruct kind; cbn in Hused; try discriminate;
        inversion Hused; subst slot; clear Hused;
        destruct kind'; cbn in Hkind'; try discriminate;
        inversion Hkind'; subst slot'; clear Hkind';
        cbn in Hitem;
        first [ right; exact Hitem | left; inversion Hitem; reflexivity ]. }
    destruct Hcases as [-> | Hold]; [exact Hnew |].
    eapply handle_ok_adds_tree; [exact Hadds |].
    eapply Hok; eassumption. }
  split; [exact Hok' |].
  destruct (get_bvh_slot_used kind mesh w w' data H) as (slot & Hused & Hslot).
  destruct (slot_used_kind kind slot Hused) as [kind' Hkind'].
  apply (Hok' kind' slot _ Hkind' Hslot).
Qed.

End CacheInvariant.

Lemma get_bvh_cache_invariant_witness :
  exists data w',
    get_bvh BVHTREE_FROM_CORNER_TRIS Samples.mesh (World.init float) = Ok (data, w')
    /\ cache_ok w'
    /\ handle_ok w' (BVHTreeFromMesh.tree data).
Proof.
  eexists _, _. split; [vm_compute; reflexivity |].
  eapply (get_bvh_cache_invariant BVHTREE_FROM_CORNER_TRIS Samples.mesh
            (World.init float)).
  - intros kind slot item Hkind Hitem.
    destruct kind; cbn in Hkind; try discriminate;
      inversion Hkind; subst slot; discriminate Hitem.
  - vm_compute; reflexivity.
Defined.
